(** * The batcher of service/worker/batcher/workflow.go

    A shallow embedding of the batch-operation engine: parameter
    normalisation and validation, the scan / dispatch / heartbeat loop of
    [BatchActivity], the worker [startTaskProcessor] and the child walk of
    [processTask].

    Conventions.
    - Go's [int] and [int64] are 64-bit two's complement integers; they are
      kept in [Z] and every arithmetic operation of the source is followed by
      [int_wrap].
    - A [*bool] is an [option bool] ([None] is the nil pointer), a
      [map[string]struct{}] is a [gset string], a [[]byte] is a list of bytes
      (only [len] is ever observed, so nil and empty coincide).
    - An [error] value carries its dynamic type (only
      [*shared.EntityNotExistsError] is ever tested for) and the string that
      [err.Error()] yields; [None : option error] is Go's nil error.
    - The remote client, the rate limiter, the activity host and the context
      are external: they are an interface ([Env]) over an abstract world, and
      every call threads that world.  Buffered channels are FIFO queues held
      in the state. *)

From Stdlib Require Import ZArith List String Lia Bool.
From stdpp Require Import base decidable gmap strings list.
Import ListNotations.
Local Open Scope string_scope.
Local Open Scope Z_scope.
Local Open Scope list_scope.

(** ** Machine integers *)

Definition int_wrap (z : Z) : Z := (z + 2 ^ 63) mod 2 ^ 64 - 2 ^ 63.
Definition int_add (a b : Z) : Z := int_wrap (a + b).
Definition int_range (z : Z) : Prop := - 2 ^ 63 <= z < 2 ^ 63.

(** Go's [/] on [int] truncates towards zero. *)
Definition int_div (a b : Z) : Z := int_wrap (Z.quot a b).

(** ** Constants *)

Definition pageSize : Z := 1000.
Definition defaultRPS : Z := 50.
Definition defaultRPSPerConcurrency : Z := 10.
Definition defaultAttemptsOnRetryableError : Z := 50.
(** [time.Minute], in nanoseconds. *)
Definition defaultActivityHeartBeatTimeout : Z := 60 * 1000000000.

(** ** Data *)

Record TerminateParams := { TerminateChildren : option bool }.
Record CancelParams := { CancelChildren : option bool }.
Record SignalParams := { SignalName : string; Input : string }.

Record BatchParams := {
  DomainName : string;
  Query : string;
  Reason : string;
  BatchType : Z;
  terminateParams : TerminateParams;
  cancelParams : CancelParams;
  signalParams : SignalParams;
  RPS : Z;
  Concurrency : Z;
  AttemptsOnRetryableError : Z;
  ActivityHeartBeatTimeout : Z;
  NonRetryableErrors : list string;
  _nonRetryableErrors : gset string
}.

Record HeartBeatDetails := {
  PageToken : list Byte.byte;
  CurrentPage : Z;
  TotalEstimate : Z;
  SuccessCount : Z;
  ErrorCount : Z
}.

(** [HeartBeatDetails{}] *)
Definition zeroHeartBeatDetails : HeartBeatDetails :=
  {| PageToken := []; CurrentPage := 0; TotalEstimate := 0;
     SuccessCount := 0; ErrorCount := 0 |}.

(** [shared.WorkflowExecution]: both fields are [*string]; the getters give
    the empty string for nil. *)
Record WorkflowExecution := {
  WorkflowId : option string;
  RunId : option string
}.

Definition GetWorkflowId (wf : WorkflowExecution) : string :=
  match WorkflowId wf with Some s => s | None => "" end.
Definition GetRunId (wf : WorkflowExecution) : string :=
  match RunId wf with Some s => s | None => "" end.

Record taskDetail := {
  execution : WorkflowExecution;
  attempts : Z;
  hbd : HeartBeatDetails
}.

Record error := {
  isEntityNotExistsError : bool;
  Error : string
}.

(** ** Parameters: [setDefaultParams] and [validateParams] *)

Definition setDefaultParams (params : BatchParams) : BatchParams :=
  let rps := if RPS params <=? 0 then defaultRPS else RPS params in
  let conc :=
    if Concurrency params <=? 0
    then int_div rps defaultRPSPerConcurrency
    else Concurrency params in
  let att :=
    if AttemptsOnRetryableError params <=? 0
    then defaultAttemptsOnRetryableError
    else AttemptsOnRetryableError params in
  let hbt :=
    if ActivityHeartBeatTimeout params <=? 0
    then defaultActivityHeartBeatTimeout
    else ActivityHeartBeatTimeout params in
  let nre :=
    if (0 <? Z.of_nat (length (NonRetryableErrors params)))
    then list_to_set (NonRetryableErrors params)
    else _nonRetryableErrors params in
  let tp :=
    match TerminateChildren (terminateParams params) with
    | None => {| TerminateChildren := Some true |}
    | Some _ => terminateParams params
    end in
  {| DomainName := DomainName params;
     Query := Query params;
     Reason := Reason params;
     BatchType := BatchType params;
     terminateParams := tp;
     cancelParams := cancelParams params;
     signalParams := signalParams params;
     RPS := rps;
     Concurrency := conc;
     AttemptsOnRetryableError := att;
     ActivityHeartBeatTimeout := hbt;
     NonRetryableErrors := NonRetryableErrors params;
     _nonRetryableErrors := nre |}.

(** [fmt.Errorf] builds a plain error; [%v] of an [int] is its decimal
    rendering, which no claim observes and which is left out of the text. *)
Definition Errorf (msg : string) : error :=
  {| isEntityNotExistsError := false; Error := msg |}.

Definition emptyb (s : string) : bool :=
  match s with EmptyString => true | _ => false end.

(** The three batch types are [int(s.BatchOperationType...)] of the generated
    thrift package; their numeric values are not fixed by this file.  The
    [switch] statements over them only compile when the three constants are
    pairwise different. *)
Class BatchOperationTypes := {
  BatchTypeTerminate : Z;
  BatchTypeCancel : Z;
  BatchTypeSignal : Z;
  BatchType_distinct :
    BatchTypeTerminate <> BatchTypeCancel /\
    BatchTypeTerminate <> BatchTypeSignal /\
    BatchTypeCancel <> BatchTypeSignal
}.

Definition validateParams `{BatchOperationTypes} (params : BatchParams) : option error :=
  if emptyb (Reason params) || emptyb (DomainName params) || emptyb (Query params)
  then Some (Errorf "must provide required parameters: BatchType/Reason/DomainName/Query")
  else
    if BatchType params =? BatchTypeSignal then
      if emptyb (SignalName (signalParams params))
      then Some (Errorf "must provide signal name")
      else None
    else if BatchType params =? BatchTypeCancel then None
    else if BatchType params =? BatchTypeTerminate then None
    else Some (Errorf "not supported batch type").

(** ** The outside world *)

Record PendingChildExecutionInfo := {
  WorkflowID : option string;
  RunID : option string
}.

Record DescribeWorkflowExecutionResponse := {
  PendingChildren : list PendingChildExecutionInfo
}.

(** [resp.Executions] holds, per entry, the pointer [wf.Execution] that the
    dispatcher dereferences; the entries are kept as the executions pointed
    to. *)
Record ListWorkflowExecutionsResponse := {
  Executions : list WorkflowExecution;
  NextPageToken : list Byte.byte
}.

(** What the engine consumes: the methods of [cclient.Client] it calls, the
    rate limiter, the activity host and the context.  Every call may change
    the world [W]; [ctxDone] tells whether a receive from [ctx.Done()] is
    taken at this point, [ctxErr] is [ctx.Err()]. [GetHeartbeatDetails] is
    given the current value of the variable it decodes into and yields the
    value left there together with the error. *)
Class Env (W : Type) := {
  CountWorkflow : string -> W -> (error + Z) * W;
  ScanWorkflow : Z -> list Byte.byte -> string -> W ->
                 (error + ListWorkflowExecutionsResponse) * W;
  TerminateWorkflow : string -> string -> string -> W -> option error * W;
  CancelWorkflow : string -> string -> W -> option error * W;
  SignalWorkflow : string -> string -> string -> string -> W -> option error * W;
  DescribeWorkflowExecution : string -> string -> W ->
                 (error + DescribeWorkflowExecutionResponse) * W;
  Wait : W -> option error * W;
  HasHeartbeatDetails : W -> bool;
  GetHeartbeatDetails : HeartBeatDetails -> W -> HeartBeatDetails * option error;
  RecordHeartbeat : HeartBeatDetails -> W -> W;
  ctxDone : W -> bool * W;
  ctxErr : W -> error
}.

Inductive Counter := BatcherProcessorFailures | BatcherProcessorSuccess.

(** Everything the engine does that is visible outside of it, in order. *)
Inductive Event :=
| CountWorkflowCall (query : string)
| ScanWorkflowCall (size : Z) (token : list Byte.byte) (query : string)
| TerminateWorkflowCall (workflowID runID reason : string)
| CancelWorkflowCall (workflowID runID : string)
| SignalWorkflowCall (workflowID runID signalName input : string)
| DescribeWorkflowExecutionCall (workflowID runID : string)
| LimiterWaitCall
| RecordHeartbeatCall (h : HeartBeatDetails)
| IncCounter (c : Counter)
| LogError (msg : string)
| LogInfo (msg : string)
| GoStartTaskProcessor
| SendTask (t : taskDetail)
| RecvTask (t : taskDetail)
| SendResp (e : option error)
| RecvResp (e : option error).

(** The state of a run: the world, the two channels ([taskCh] and [respCh],
    oldest element first; their capacity [pageSize] is not modelled, so a
    send never blocks), the number of worker goroutines alive, and the
    events so far (oldest first). *)
Record State (W : Type) := mkState {
  world : W;
  taskCh : list taskDetail;
  respCh : list (option error);
  workers : nat;
  trace : list Event
}.
Arguments mkState {W}.
Arguments world {W}.
Arguments taskCh {W}.
Arguments respCh {W}.
Arguments workers {W}.
Arguments trace {W}.

(** ** A state monad with fuel

    A computation yields the state it reached and, when it came back within
    the fuel, its result; [None] is a loop that is still going or a
    goroutine that stays parked. *)
Definition M (W A : Type) : Type := State W -> option A * State W.

Definition ret {W A} (a : A) : M W A := fun st => (Some a, st).
Definition bind {W A B} (m : M W A) (k : A -> M W B) : M W B :=
  fun st => match m st with
            | (Some a, st') => k a st'
            | (None, st') => (None, st')
            end.
Definition diverge {W A} : M W A := fun st => (None, st).

Declare Scope go_scope.
Delimit Scope go_scope with go.
Notation "'let*' x ':=' m 'in' k" := (bind m (fun x => k))
  (at level 10, x pattern, m at level 100, k at level 200) : go_scope.
Local Open Scope go_scope.

Section Engine.
Context {W : Type} `{!Env W} `{!BatchOperationTypes}.

Definition emit (e : Event) : M W unit := fun st =>
  (Some tt, mkState (world st) (taskCh st) (respCh st) (workers st) (trace st ++ [e])).

(** A call of the interface: it is traced, then made. *)
Definition call {A} (e : Event) (f : W -> A * W) : M W A := fun st =>
  let (a, w) := f (world st) in
  (Some a, mkState w (taskCh st) (respCh st) (workers st) (trace st ++ [e])).

Definition observe {A} (f : W -> A) : M W A := fun st => (Some (f (world st)), st).

(** [ch <- v] on the two channels. *)
Definition sendTask (t : taskDetail) : M W unit := fun st =>
  (Some tt, mkState (world st) (taskCh st ++ [t]) (respCh st) (workers st)
                    (trace st ++ [SendTask t])).
Definition sendResp (e : option error) : M W unit := fun st =>
  (Some tt, mkState (world st) (taskCh st) (respCh st ++ [e]) (workers st)
                    (trace st ++ [SendResp e])).

(** A non-blocking look at the two channels: the oldest element, if any. *)
Definition recvTask : M W (option taskDetail) := fun st =>
  match taskCh st with
  | [] => (Some None, st)
  | t :: rest =>
    (Some (Some t), mkState (world st) rest (respCh st) (workers st)
                            (trace st ++ [RecvTask t]))
  end.
Definition recvResp : M W (option (option error)) := fun st =>
  match respCh st with
  | [] => (Some None, st)
  | r :: rest =>
    (Some (Some r), mkState (world st) (taskCh st) rest (workers st)
                            (trace st ++ [RecvResp r]))
  end.

Definition done : M W bool := fun st =>
  let (b, w) := ctxDone (world st) in
  (Some b, mkState w (taskCh st) (respCh st) (workers st) (trace st)).

Definition recordHeartbeat (h : HeartBeatDetails) : M W unit :=
  call (RecordHeartbeatCall h) (fun w => (tt, RecordHeartbeat h w)).

(** *** [processTask]: the child walk *)

(** How one pass through the body of the loop ends: with the next value of
    [wfs], or with a [return]. *)
Inductive WalkCtl :=
| Next (wfs : list WorkflowExecution)
| Return (err : option error).

Definition childExecution (ch : PendingChildExecutionInfo) : WorkflowExecution :=
  {| WorkflowId := WorkflowID ch; RunId := RunID ch |}.

(** [err != nil] and the type assertion to [*shared.EntityNotExistsError]
    fails. *)
Definition fatal (err : option error) : bool :=
  match err with
  | Some e => negb (isEntityNotExistsError e)
  | None => false
  end.

(** [applyOnChild != nil && *applyOnChild] *)
Definition applies (applyOnChild : option bool) : bool :=
  match applyOnChild with
  | Some b => b
  | None => false
  end.

(** The second half of the loop body, from [wfs = wfs[1:]] on: describe the
    node, queue its pending children, heartbeat. *)
Definition describeNode (task : taskDetail) (applyOnChild : option bool)
    (wf : WorkflowExecution) (rest : list WorkflowExecution) : M W WalkCtl :=
  let* r := call (DescribeWorkflowExecutionCall (GetWorkflowId wf) (GetRunId wf))
                 (DescribeWorkflowExecution (GetWorkflowId wf) (GetRunId wf)) in
  match r with
  | inl e =>
    if isEntityNotExistsError e then ret (Next rest)
    else ret (Return (Some e))
  | inr resp =>
    let* wfs :=
      (if applies applyOnChild && (0 <? Z.of_nat (length (PendingChildren resp)))
       then
         let* _ := emit (LogInfo "Found more child workflows to process") in
         ret (rest ++ map childExecution (PendingChildren resp))%list
       else ret rest) in
    let* _ := recordHeartbeat (hbd task) in
    ret (Next wfs)
  end.

(** The body of the loop of [processTask], entered with [wfs = wf :: rest]. *)
Definition processTaskBody (task : taskDetail) (applyOnChild : option bool)
    (procFn : string -> string -> M W (option error))
    (wf : WorkflowExecution) (rest : list WorkflowExecution) : M W WalkCtl :=
  let* err := call LimiterWaitCall Wait in
  match err with
  | Some e => ret (Return (Some e))
  | None =>
    let* err := procFn (GetWorkflowId wf) (GetRunId wf) in
    if fatal err then ret (Return err)
    else describeNode task applyOnChild wf rest
  end.

Fixpoint processTaskLoop (fuel : nat) (task : taskDetail) (applyOnChild : option bool)
    (procFn : string -> string -> M W (option error))
    (wfs : list WorkflowExecution) : M W (option error) :=
  match fuel with
  | O => diverge
  | S fuel' =>
    match wfs with
    | [] => ret None
    | wf :: rest =>
      let* c := processTaskBody task applyOnChild procFn wf rest in
      match c with
      | Return err => ret err
      | Next wfs' => processTaskLoop fuel' task applyOnChild procFn wfs'
      end
    end
  end.

(** The rest of the walk after a pass through the body. *)
Definition walkOn (fuel : nat) (task : taskDetail) (applyOnChild : option bool)
    (procFn : string -> string -> M W (option error)) (c : WalkCtl)
  : M W (option error) :=
  match c with
  | Return err => ret err
  | Next wfs' => processTaskLoop fuel task applyOnChild procFn wfs'
  end.

Definition processTask (fuel : nat) (task : taskDetail) (applyOnChild : option bool)
    (procFn : string -> string -> M W (option error)) : M W (option error) :=
  processTaskLoop fuel task applyOnChild procFn [execution task].

(** *** [startTaskProcessor]: the worker *)

Definition terminateFn (batchParams : BatchParams) (workflowID runID : string)
  : M W (option error) :=
  call (TerminateWorkflowCall workflowID runID (Reason batchParams))
       (TerminateWorkflow workflowID runID (Reason batchParams)).

Definition cancelFn (workflowID runID : string) : M W (option error) :=
  call (CancelWorkflowCall workflowID runID) (CancelWorkflow workflowID runID).

Definition signalFn (batchParams : BatchParams) (workflowID runID : string)
  : M W (option error) :=
  call (SignalWorkflowCall workflowID runID
          (SignalName (signalParams batchParams)) (Input (signalParams batchParams)))
       (SignalWorkflow workflowID runID
          (SignalName (signalParams batchParams)) (Input (signalParams batchParams))).

(** The [switch batchParams.BatchType] of the worker; when no case matches,
    [err] stays nil. *)
Definition dispatchTask (fuel : nat) (batchParams : BatchParams) (task : taskDetail)
  : M W (option error) :=
  if BatchType batchParams =? BatchTypeTerminate then
    processTask fuel task (TerminateChildren (terminateParams batchParams))
                (terminateFn batchParams)
  else if BatchType batchParams =? BatchTypeCancel then
    processTask fuel task (CancelChildren (cancelParams batchParams)) cancelFn
  else if BatchType batchParams =? BatchTypeSignal then
    processTask fuel task (Some false) (signalFn batchParams)
  else ret None.

(** [task.attempts++] *)
Definition retried (task : taskDetail) : taskDetail :=
  {| execution := execution task;
     attempts := int_add (attempts task) 1;
     hbd := hbd task |}.

(** [ok || task.attempts >= batchParams.AttemptsOnRetryableError] *)
Definition terminal (batchParams : BatchParams) (task : taskDetail) (e : error) : bool :=
  bool_decide (Error e ∈ _nonRetryableErrors batchParams)
  || (AttemptsOnRetryableError batchParams <=? attempts task).

(** What the worker does with the result of [processTask]. *)
Definition reportTask (batchParams : BatchParams) (task : taskDetail)
    (err : option error) : M W unit :=
  match err with
  | Some e =>
    let* _ := emit (IncCounter BatcherProcessorFailures) in
    let* _ := emit (LogError "Failed to process batch operation task") in
    if terminal batchParams task e
    then sendResp (Some e)
    else sendTask (retried task)
  | None =>
    let* _ := emit (IncCounter BatcherProcessorSuccess) in
    sendResp None
  end.

(** How one turn of the worker's [for { select ... }] ends: the goroutine
    returned, it is parked on an empty task channel, or it went round. *)
Inductive WorkerStatus := WorkerExited | WorkerParked | WorkerLooped.

Definition startTaskProcessorStep (fuel : nat) (batchParams : BatchParams)
  : M W WorkerStatus :=
  let* d := done in
  if d then ret WorkerExited
  else
    let* t := recvTask in
    match t with
    | None => ret WorkerParked
    | Some task =>
      let* d := done in
      if d then ret WorkerExited
      else
        let* err := dispatchTask fuel batchParams task in
        let* _ := reportTask batchParams task err in
        ret WorkerLooped
    end.

(** The turns of one worker, until it returns or parks. *)
Fixpoint startTaskProcessor (fuel : nat) (batchParams : BatchParams)
  : M W WorkerStatus :=
  match fuel with
  | O => diverge
  | S fuel' =>
    let* s := startTaskProcessorStep fuel' batchParams in
    match s with
    | WorkerLooped => startTaskProcessor fuel' batchParams
    | _ => ret s
    end
  end.

(** *** Scheduling

    While the dispatcher is parked on the response channel only the workers
    can run.  They are given one turn at a time; a worker that returns is
    gone. *)
Definition setWorkers (n : nat) : M W unit := fun st =>
  (Some tt, mkState (world st) (taskCh st) (respCh st) n (trace st)).

Definition yield (fuel : nat) (batchParams : BatchParams) : M W unit := fun st =>
  match workers st with
  | O => (Some tt, st)
  | S n =>
    (let* s := startTaskProcessorStep fuel batchParams in
     match s with
     | WorkerExited => setWorkers n
     | _ => ret tt
     end) st
  end.

(** *** [BatchActivity]: the dispatcher *)

Inductive Collected :=
| Drained (succCount errCount : Z)
| Cancelled (err : error).

(** The loop labelled [Loop]: one turn of the [select] per unit of fuel. *)
Fixpoint collect (fuel : nat) (batchParams : BatchParams)
    (batchCount succCount errCount : Z) : M W Collected :=
  match fuel with
  | O => diverge
  | S fuel' =>
    let* d := done in
    if d then
      let* e := observe ctxErr in ret (Cancelled e)
    else
      let* r := recvResp in
      match r with
      | None =>
        let* _ := yield fuel' batchParams in
        collect fuel' batchParams batchCount succCount errCount
      | Some err =>
        let succCount' :=
          match err with None => int_add succCount 1 | Some _ => succCount end in
        let errCount' :=
          match err with None => errCount | Some _ => int_add errCount 1 end in
        if int_add succCount' errCount' =? batchCount
        then ret (Drained succCount' errCount')
        else collect fuel' batchParams batchCount succCount' errCount'
      end
  end.

Fixpoint sendAll (tasks : list taskDetail) : M W unit :=
  match tasks with
  | [] => ret tt
  | t :: rest => let* _ := sendTask t in sendAll rest
  end.

Definition newTask (h : HeartBeatDetails) (wf : WorkflowExecution) : taskDetail :=
  {| execution := wf; attempts := 0; hbd := h |}.

(** The four assignments to [hbd] after a page is drained. *)
Definition advance (h : HeartBeatDetails) (resp : ListWorkflowExecutionsResponse)
    (succCount errCount : Z) : HeartBeatDetails :=
  {| PageToken := NextPageToken resp;
     CurrentPage := int_add (CurrentPage h) 1;
     TotalEstimate := TotalEstimate h;
     SuccessCount := int_add (SuccessCount h) succCount;
     ErrorCount := int_add (ErrorCount h) errCount |}.

(** How one pass through the body of the main loop ends: [break] or
    [return] with the activity's result, or round again with the new
    [hbd]. *)
Inductive PageCtl :=
| Finish (result : HeartBeatDetails * option error)
| Again (h : HeartBeatDetails).

(** The body of the main [for] loop of [BatchActivity] after the scan, entered
    with [hbd = h] and the scan's answer [r]. *)
Definition handlePage (fuel : nat) (batchParams : BatchParams) (h : HeartBeatDetails)
    (r : error + ListWorkflowExecutionsResponse) : M W PageCtl :=
  match r with
  | inl err => ret (Finish (zeroHeartBeatDetails, Some err))
  | inr resp =>
    let batchCount := Z.of_nat (length (Executions resp)) in
    if batchCount <=? 0 then ret (Finish (h, None))
    else
      let* _ := sendAll (map (newTask h) (Executions resp)) in
      let* c := collect fuel batchParams batchCount 0 0 in
      match c with
      | Cancelled err => ret (Finish (zeroHeartBeatDetails, Some err))
      | Drained succCount errCount =>
        let h' := advance h resp succCount errCount in
        let* _ := recordHeartbeat h' in
        if Z.of_nat (length (PageToken h')) =? 0 then ret (Finish (h', None))
        else ret (Again h')
      end
  end.

(** The whole body: scan, then the rest. *)
Definition mainLoopBody (fuel : nat) (batchParams : BatchParams) (h : HeartBeatDetails)
  : M W PageCtl :=
  let* r := call (ScanWorkflowCall pageSize (PageToken h) (Query batchParams))
                 (ScanWorkflow pageSize (PageToken h) (Query batchParams)) in
  handlePage fuel batchParams h r.

Fixpoint mainLoop (fuel : nat) (batchParams : BatchParams) (h : HeartBeatDetails)
  : M W (HeartBeatDetails * option error) :=
  match fuel with
  | O => diverge
  | S fuel' =>
    let* c := mainLoopBody fuel' batchParams h in
    match c with
    | Finish result => ret result
    | Again h' => mainLoop fuel' batchParams h'
    end
  end.

(** The restore at activity entry: the value of [hbd] and of [startOver]
    after it. *)
Definition restore : M W (HeartBeatDetails * bool) :=
  let* has := observe HasHeartbeatDetails in
  if has then
    let* r := observe (GetHeartbeatDetails zeroHeartBeatDetails) in
    match r with
    | (h, None) => ret (h, false)
    | (h, Some _) =>
      let* _ := emit (IncCounter BatcherProcessorFailures) in
      let* _ := emit (LogError "Failed to recover from last heartbeat, start over from beginning") in
      ret (h, true)
    end
  else ret (zeroHeartBeatDetails, true).

(** [hbd.TotalEstimate = n] *)
Definition withTotalEstimate (h : HeartBeatDetails) (n : Z) : HeartBeatDetails :=
  {| PageToken := PageToken h;
     CurrentPage := CurrentPage h;
     TotalEstimate := n;
     SuccessCount := SuccessCount h;
     ErrorCount := ErrorCount h |}.

(** [for i := 0; i < batchParams.Concurrency; i++ { go startTaskProcessor(...) }] *)
Fixpoint spawn (n : nat) : M W unit :=
  match n with
  | O => ret tt
  | S n' => fun st =>
    (let* _ := emit GoStartTaskProcessor in spawn n')
      (mkState (world st) (taskCh st) (respCh st) (S (workers st)) (trace st))
  end.

(** [BatchActivity] from [if startOver] on. *)
Definition runFrom (fuel : nat) (batchParams : BatchParams)
    (h : HeartBeatDetails) (startOver : bool)
  : M W (HeartBeatDetails * option error) :=
  let* counted :=
    (if startOver then
       let* c := call (CountWorkflowCall (Query batchParams))
                      (CountWorkflow (Query batchParams)) in
       match c with
       | inl err => ret (inl err)
       | inr n => ret (inr (withTotalEstimate h n))
       end
     else ret (inr h)) in
  match counted with
  | inl err => ret (zeroHeartBeatDetails, Some err)
  | inr h' =>
    let* _ := spawn (Z.to_nat (Concurrency batchParams)) in
    mainLoop fuel batchParams h'
  end.

Definition BatchActivity (fuel : nat) (batchParams : BatchParams)
  : M W (HeartBeatDetails * option error) :=
  let* r := restore in
  runFrom fuel batchParams (fst r) (snd r).

End Engine.

(** A run starts with empty channels, no worker and no event. *)
Definition initial {W} (w : W) : State W := mkState w [] [] O [].

(** ** A scripted world

    A world whose answers are written down in advance: the restore answer,
    the count, the successive scan pages, and the answers of the mutation and
    of describe by workflow id.  It is what the examples run against. *)
Module Scripted.

Record script := {
  has_details : bool;
  details : HeartBeatDetails * option error;
  count : error + Z;
  pages : list (error + ListWorkflowExecutionsResponse);
  mutate : string -> option error;
  describe : string -> error + DescribeWorkflowExecutionResponse;
  wait : option error;
  cancelled : bool
}.

Definition scan (s : script) : (error + ListWorkflowExecutionsResponse) * script :=
  match pages s with
  | [] => (inr {| Executions := []; NextPageToken := [] |}, s)
  | p :: rest =>
    (p, {| has_details := has_details s; details := details s; count := count s;
           pages := rest; mutate := mutate s; describe := describe s;
           wait := wait s; cancelled := cancelled s |})
  end.

#[global] Instance env : Env script := {|
  CountWorkflow := fun _ s => (count s, s);
  ScanWorkflow := fun _ _ _ s => scan s;
  TerminateWorkflow := fun wid _ _ s => (mutate s wid, s);
  CancelWorkflow := fun wid _ s => (mutate s wid, s);
  SignalWorkflow := fun wid _ _ _ s => (mutate s wid, s);
  DescribeWorkflowExecution := fun wid _ s => (describe s wid, s);
  Wait := fun s => (wait s, s);
  HasHeartbeatDetails := has_details;
  GetHeartbeatDetails := fun _ s => details s;
  RecordHeartbeat := fun _ s => s;
  ctxDone := fun s => (cancelled s, s);
  ctxErr := fun _ => {| isEntityNotExistsError := false; Error := "context canceled" |}
|}.

#[global] Instance types : BatchOperationTypes :=
  {| BatchTypeTerminate := 0; BatchTypeCancel := 1; BatchTypeSignal := 2;
     BatchType_distinct := ltac:(repeat split; discriminate) |}.

Definition target (id : string) : WorkflowExecution :=
  {| WorkflowId := Some id; RunId := Some "run" |}.

Definition child (id : string) : PendingChildExecutionInfo :=
  {| WorkflowID := Some id; RunID := Some "run" |}.

Definition noChildren : error + DescribeWorkflowExecutionResponse :=
  inr {| PendingChildren := [] |}.

(** A request with every optional parameter but the three given left unset. *)
Definition params (batchType rps concurrency attempts : Z) : BatchParams :=
  {| DomainName := "domain"; Query := "query"; Reason := "reason";
     BatchType := batchType;
     terminateParams := {| TerminateChildren := None |};
     cancelParams := {| CancelChildren := None |};
     signalParams := {| SignalName := "name"; Input := "input" |};
     RPS := rps; Concurrency := concurrency; AttemptsOnRetryableError := attempts;
     ActivityHeartBeatTimeout := 0;
     NonRetryableErrors := [];
     _nonRetryableErrors := ∅ |}.

(** One target ["root"], whose describe reports one pending child ["kid"]. *)
Definition parentAndChild : script :=
  {| has_details := false;
     details := (zeroHeartBeatDetails, None);
     count := inr 1;
     pages := [inr {| Executions := [target "root"]; NextPageToken := [] |}];
     mutate := fun _ => None;
     describe := fun id =>
       if String.eqb id "root" then inr {| PendingChildren := [child "kid"] |}
       else noChildren;
     wait := None;
     cancelled := false |}.

(** The restore fails and leaves the heartbeat state untouched; the count
    fails. *)
Definition brokenRestore : script :=
  {| has_details := true;
     details := (zeroHeartBeatDetails, Some (Errorf "cannot decode"));
     count := inl (Errorf "count failed");
     pages := [];
     mutate := fun _ => None;
     describe := fun _ => noChildren;
     wait := None;
     cancelled := false |}.

(** The activity is entered again with the heartbeat of a second page. *)
Definition resumed : script :=
  {| has_details := true;
     details := ({| PageToken := [Byte.x54; Byte.x32]; CurrentPage := 2;
                    TotalEstimate := 7; SuccessCount := 4; ErrorCount := 1 |},
                 None);
     count := inr 9;
     pages := [inr {| Executions := [target "root"]; NextPageToken := [] |}];
     mutate := fun _ => None;
     describe := fun _ => noChildren;
     wait := None;
     cancelled := false |}.

(** Describe answers [EntityNotExists]; the mutation too, for ["gone"]. *)
Definition vanished : script :=
  {| has_details := false;
     details := (zeroHeartBeatDetails, None);
     count := inr 1;
     pages := [];
     mutate := fun id =>
       if String.eqb id "gone"
       then Some {| isEntityNotExistsError := true; Error := "not found" |}
       else None;
     describe := fun _ =>
       inl {| isEntityNotExistsError := true; Error := "not found" |};
     wait := None;
     cancelled := false |}.

(** A first page of one target is processed, then the scan fails. *)
Definition secondScanFails : script :=
  {| has_details := false;
     details := (zeroHeartBeatDetails, None);
     count := inr 2;
     pages := [inr {| Executions := [target "root"]; NextPageToken := [Byte.x31] |};
               inl (Errorf "scan failed")];
     mutate := fun _ => None;
     describe := fun _ => noChildren;
     wait := None;
     cancelled := false |}.

(** Details are present but the restore fails half way: it has written the
    page token, the page counter and the counts of a second page into the
    state before it returns its error.  One page of one target is left. *)
Definition partialRestore : script :=
  {| has_details := true;
     details := ({| PageToken := [Byte.x54; Byte.x32]; CurrentPage := 2;
                    TotalEstimate := 7; SuccessCount := 4; ErrorCount := 0 |},
                 Some (Errorf "cannot decode"));
     count := inr 9;
     pages := [inr {| Executions := [target "root"]; NextPageToken := [] |}];
     mutate := fun _ => None;
     describe := fun _ => noChildren;
     wait := None;
     cancelled := false |}.

(** The same world with nothing to restore. *)
Definition nothingToRestore : script :=
  {| has_details := false;
     details := (zeroHeartBeatDetails, None);
     count := inr 9;
     pages := [inr {| Executions := [target "root"]; NextPageToken := [] |}];
     mutate := fun _ => None;
     describe := fun _ => noChildren;
     wait := None;
     cancelled := false |}.

End Scripted.

(** ** A world of transient failures

    A world without state: nothing to restore, one page of one target, and
    every mutation fails with the error ["transient"]; the limiter always
    lets through and the context is never done. *)
Module Transient.

Definition transient : error :=
  {| isEntityNotExistsError := false; Error := "transient" |}.

#[global] Instance env : Env unit := {|
  CountWorkflow := fun _ w => (inr 1, w);
  ScanWorkflow := fun _ _ _ w =>
    (inr {| Executions := [Scripted.target "root"]; NextPageToken := [] |}, w);
  TerminateWorkflow := fun _ _ _ w => (Some transient, w);
  CancelWorkflow := fun _ _ w => (Some transient, w);
  SignalWorkflow := fun _ _ _ _ w => (Some transient, w);
  DescribeWorkflowExecution := fun _ _ w => (Scripted.noChildren, w);
  Wait := fun w => (None, w);
  HasHeartbeatDetails := fun _ => false;
  GetHeartbeatDetails := fun h _ => (h, None);
  RecordHeartbeat := fun _ w => w;
  ctxDone := fun w => (false, w);
  ctxErr := fun _ => Errorf "context canceled"
|}.

End Transient.

(** ** A world where nothing fails

    A world without state: the limiter always lets through, every mutation
    and every describe succeeds, the context is never done, and describe
    reports the pending children of a fixed family: ["root"] has ["a"] and
    ["b"], ["a"] has ["c"]. *)
Module Family.

Inductive family := Home.

Definition kids (workflowID runID : string) : list PendingChildExecutionInfo :=
  if String.eqb workflowID "root" then [Scripted.child "a"; Scripted.child "b"]
  else if String.eqb workflowID "a" then [Scripted.child "c"]
  else [].

#[global] Instance env : Env family := {|
  CountWorkflow := fun _ w => (inr 1, w);
  ScanWorkflow := fun _ _ _ w =>
    (inr {| Executions := [Scripted.target "root"]; NextPageToken := [] |}, w);
  TerminateWorkflow := fun _ _ _ w => (None, w);
  CancelWorkflow := fun _ _ w => (None, w);
  SignalWorkflow := fun _ _ _ _ w => (None, w);
  DescribeWorkflowExecution := fun workflowID runID w =>
    (inr {| PendingChildren := kids workflowID runID |}, w);
  Wait := fun w => (None, w);
  HasHeartbeatDetails := fun _ => false;
  GetHeartbeatDetails := fun h _ => (h, None);
  RecordHeartbeat := fun _ w => w;
  ctxDone := fun w => (false, w);
  ctxErr := fun _ => Errorf "context canceled"
|}.

End Family.

(** ** A world without children

    As the one before, without any pending child, and with a page of two
    targets. *)
Module Quiet.

Inductive quiet := Still.

#[global] Instance env : Env quiet := {|
  CountWorkflow := fun _ w => (inr 2, w);
  ScanWorkflow := fun _ _ _ w =>
    (inr {| Executions := [Scripted.target "x"; Scripted.target "y"];
            NextPageToken := [] |}, w);
  TerminateWorkflow := fun _ _ _ w => (None, w);
  CancelWorkflow := fun _ _ w => (None, w);
  SignalWorkflow := fun _ _ _ _ w => (None, w);
  DescribeWorkflowExecution := fun _ _ w => (Scripted.noChildren, w);
  Wait := fun w => (None, w);
  HasHeartbeatDetails := fun _ => false;
  GetHeartbeatDetails := fun h _ => (h, None);
  RecordHeartbeat := fun _ w => w;
  ctxDone := fun w => (false, w);
  ctxErr := fun _ => Errorf "context canceled"
|}.

End Quiet.

(** ** Vocabulary of the statements *)

(** The mutation calls: terminate, cancel and signal. *)
Definition isMutation (e : Event) : bool :=
  match e with
  | TerminateWorkflowCall _ _ _ | CancelWorkflowCall _ _
  | SignalWorkflowCall _ _ _ _ => true
  | _ => false
  end.

Definition isCount (e : Event) : bool :=
  match e with CountWorkflowCall _ => true | _ => false end.

Definition isRecvResp (e : Event) : bool :=
  match e with RecvResp _ => true | _ => false end.

(** The events of a run from [st] to [st']. *)
Definition extends {W} (st st' : State W) (new : list Event) : Prop :=
  trace st' = (trace st ++ new)%list.

(** [h] after the world moved to [w] and [new] was appended to the trace. *)
Definition moved {W} (st : State W) (w : W) (new : list Event) : State W :=
  mkState w (taskCh st) (respCh st) (workers st) (trace st ++ new).

(** What a worker does, with [H] holding of every heartbeat state it
    handles. *)
Definition workerEvent (H : HeartBeatDetails -> Prop) (e : Event) : Prop :=
  match e with
  | LimiterWaitCall | TerminateWorkflowCall _ _ _ | CancelWorkflowCall _ _
  | SignalWorkflowCall _ _ _ _ | DescribeWorkflowExecutionCall _ _
  | IncCounter _ | LogError _ | LogInfo _ | SendResp _ => True
  | RecordHeartbeatCall h => H h
  | SendTask t | RecvTask t => H (hbd t)
  | _ => False
  end.

(** What the dispatcher does in its main loop, likewise. *)
Definition dispatcherEvent (H : HeartBeatDetails -> Prop) (e : Event) : Prop :=
  match e with
  | ScanWorkflowCall _ _ _ | RecvResp _ | GoStartTaskProcessor => True
  | RecordHeartbeatCall h => H h
  | SendTask t => H (hbd t)
  | _ => False
  end.

Definition loopEvent (H : HeartBeatDetails -> Prop) (e : Event) : Prop :=
  workerEvent H e \/ dispatcherEvent H e.

(** [H] holds of the snapshot of every task waiting in the task channel. *)
Definition queued {W} (H : HeartBeatDetails -> Prop) (st : State W) : Prop :=
  Forall (fun t => H (hbd t)) (taskCh st).

(** [m], run from a state whose queued tasks satisfy [H], leaves such a
    state, appends only events that satisfy [P], and any result it comes back
    with satisfies [Q]. *)
Definition framed {W A} (H : HeartBeatDetails -> Prop) (P : Event -> Prop)
    (m : M W A) (Q : A -> Prop) : Prop :=
  forall st, queued H st ->
    queued H (snd (m st)) /\
    (exists new, extends st (snd (m st)) new /\ Forall P new) /\
    (forall a, fst (m st) = Some a -> Q a).

(** What the main loop promises of a result: a successful one satisfies [H],
    one with an error is the zero value. *)
Definition resultOk (H : HeartBeatDetails -> Prop)
    (r : HeartBeatDetails * option error) : Prop :=
  match snd r with
  | None => H (fst r)
  | Some _ => fst r = zeroHeartBeatDetails
  end.

(** Outcomes received by the dispatcher: nil ones and errors. *)
Definition isNilResp (e : Event) : bool :=
  match e with RecvResp None => true | _ => false end.

Definition isErrResp (e : Event) : bool :=
  match e with RecvResp (Some _) => true | _ => false end.

Definition occurrences (f : Event -> bool) (l : list Event) : Z :=
  Z.of_nat (length (List.filter f l)).

(** An error the worker retries: not [EntityNotExists] (which the walk
    swallows) and with a message outside the non-retryable set. *)
Definition retryable (batchParams : BatchParams) (r : option error) : Prop :=
  exists e, r = Some e /\ isEntityNotExistsError e = false /\
            Error e ∉ _nonRetryableErrors batchParams.

(** A world in which the limiter always lets through, the context is never
    done and every mutation fails with a retryable error. *)
Definition alwaysFailing (W : Type) `{Env W} (batchParams : BatchParams) : Prop :=
  (forall w : W, fst (Wait w) = None) /\
  (forall w : W, fst (ctxDone w) = false) /\
  (forall a b c (w : W), retryable batchParams (fst (TerminateWorkflow a b c w))) /\
  (forall a b (w : W), retryable batchParams (fst (CancelWorkflow a b w))) /\
  (forall a b c d (w : W), retryable batchParams (fst (SignalWorkflow a b c d w))).

(** The batch type is one of the three the worker knows. *)
Definition supported `{BatchOperationTypes} (batchParams : BatchParams) : Prop :=
  BatchType batchParams = BatchTypeTerminate \/
  BatchType batchParams = BatchTypeCancel \/
  BatchType batchParams = BatchTypeSignal.

(** [st'] differs from [st] in the world and by the events [new] only. *)
Definition sameChannels {W} (st st' : State W) (new : list Event) : Prop :=
  taskCh st' = taskCh st /\ respCh st' = respCh st /\
  workers st' = workers st /\ extends st st' new.

(** ... and of a pass through its body. *)
Definition pageOk (H : HeartBeatDetails -> Prop) (c : PageCtl) : Prop :=
  match c with
  | Finish r => resultOk H r
  | Again h' => H h'
  end.

(** ** The workflow around the activity

    [BatchWorkflow] normalises and validates the request and hands it to the
    activity.  The activity host is external: [ExecuteActivity] stands for
    [workflow.ExecuteActivity(opt, BatchActivityName, batchParams).Get(ctx,
    &result)], given the heartbeat timeout put into the activity options and
    the parameters, and yields the value left in [result] and the error. *)
Definition BatchWorkflow `{BatchOperationTypes}
    (ExecuteActivity : Z -> BatchParams -> HeartBeatDetails * option error)
    (batchParams : BatchParams) : HeartBeatDetails * option error :=
  let batchParams := setDefaultParams batchParams in
  match validateParams batchParams with
  | Some err => (zeroHeartBeatDetails, Some err)
  | None => ExecuteActivity (ActivityHeartBeatTimeout batchParams) batchParams
  end.

(** [m] leaves the two channels and the number of workers as they are. *)
Definition keepsChannels {W A} (m : M W A) : Prop :=
  forall st, taskCh (snd (m st)) = taskCh st /\
             respCh (snd (m st)) = respCh st /\
             workers (snd (m st)) = workers st.

(** The workflow a mutation or a describe is addressed to. *)
Definition target (e : Event) : option (string * string) :=
  match e with
  | TerminateWorkflowCall workflowID runID _
  | CancelWorkflowCall workflowID runID
  | SignalWorkflowCall workflowID runID _ _
  | DescribeWorkflowExecutionCall workflowID runID => Some (workflowID, runID)
  | _ => None
  end.

Definition addressOf (wf : WorkflowExecution) : option (string * string) :=
  Some (GetWorkflowId wf, GetRunId wf).

(** The workflows of a forest in breadth-first order, the forest being given
    by the pending children [kids] of each workflow: the first [fuel] of
    them, starting from the queue. *)
Fixpoint levelOrder (kids : string -> string -> list PendingChildExecutionInfo)
    (fuel : nat) (queue : list WorkflowExecution) : list WorkflowExecution :=
  match fuel with
  | O => []
  | S fuel' =>
    match queue with
    | [] => []
    | wf :: rest =>
      wf :: levelOrder kids fuel'
              (rest ++ map childExecution (kids (GetWorkflowId wf) (GetRunId wf)))
    end
  end.

(** A world in which the limiter always lets through, no mutation fails
    other than with [EntityNotExists], and describe reports the pending
    children [kids]. *)
Definition calm (W : Type) `{Env W}
    (kids : string -> string -> list PendingChildExecutionInfo) : Prop :=
  (forall w : W, fst (Wait w) = None) /\
  (forall a b c (w : W), fatal (fst (TerminateWorkflow a b c w)) = false) /\
  (forall a b (w : W), fatal (fst (CancelWorkflow a b w)) = false) /\
  (forall a b c d (w : W), fatal (fst (SignalWorkflow a b c d w)) = false) /\
  (forall a b (w : W),
     fst (DescribeWorkflowExecution a b w) = inr {| PendingChildren := kids a b |}).

(** No workflow has a pending child. *)
Definition childless (workflowID runID : string) : list PendingChildExecutionInfo :=
  [].

(** More kinds of events. *)
Definition isWait (e : Event) : bool :=
  match e with LimiterWaitCall => true | _ => false end.

Definition isDescribe (e : Event) : bool :=
  match e with DescribeWorkflowExecutionCall _ _ => true | _ => false end.

Definition isHeartbeat (e : Event) : bool :=
  match e with RecordHeartbeatCall _ => true | _ => false end.

Definition isScan (e : Event) : bool :=
  match e with ScanWorkflowCall _ _ _ => true | _ => false end.

(** The calls of the client and of the limiter. *)
Definition isCall (e : Event) : bool :=
  isMutation e || isWait e || isDescribe e || isCount e || isScan e.

(** The order the walk keeps among its steps, in counts: no heartbeat
    without a describe, no describe without a mutation, no mutation without
    a wait for the limiter, and at most one wait not yet followed by its
    mutation. *)
Definition gated (new : list Event) : Prop :=
  occurrences isHeartbeat new <= occurrences isDescribe new /\
  occurrences isDescribe new <= occurrences isMutation new /\
  occurrences isMutation new <= occurrences isWait new /\
  occurrences isWait new <= occurrences isMutation new + 1.

(** * Properties *)

(** ** Machine integers *)

Lemma int_wrap_id (z : Z) : int_range z -> int_wrap z = z.
Proof.
  unfold int_range, int_wrap. intros Hz.
  rewrite Z.mod_small by lia. lia.
Qed.

Lemma int_wrap_range (z : Z) : int_range (int_wrap z).
Proof.
  unfold int_range, int_wrap.
  pose proof (Z.mod_pos_bound (z + 2 ^ 63) (2 ^ 64) ltac:(lia)). lia.
Qed.

Lemma emptyb_spec (s : string) : emptyb s = true <-> s = "".
Proof. destruct s; simpl; split; congruence. Qed.

(** ** Parameters *)

(** C8. [validateParams] returns an error exactly when the reason, the
    domain or the query is empty, when the batch type is none of terminate,
    cancel and signal, or when it is signal and the signal name is empty; on
    every other input it returns nil. *)
Theorem validateParams_error_iff `{BatchOperationTypes} (p : BatchParams) :
  validateParams p <> None <->
  (Reason p = "" \/ DomainName p = "" \/ Query p = "" \/
   (BatchType p <> BatchTypeTerminate /\ BatchType p <> BatchTypeCancel /\
    BatchType p <> BatchTypeSignal) \/
   (BatchType p = BatchTypeSignal /\ SignalName (signalParams p) = "")).
Proof.
  unfold validateParams.
  pose proof (emptyb_spec (Reason p)) as HR.
  pose proof (emptyb_spec (DomainName p)) as HD.
  pose proof (emptyb_spec (Query p)) as HQ.
  pose proof (emptyb_spec (SignalName (signalParams p))) as HS.
  destruct (emptyb (Reason p)); simpl; [intuition congruence|].
  destruct (emptyb (DomainName p)); simpl; [intuition congruence|].
  destruct (emptyb (Query p)); simpl; [intuition congruence|].
  destruct (Z.eqb_spec (BatchType p) BatchTypeSignal) as [Hs|Hs].
  - destruct (emptyb (SignalName (signalParams p))); intuition congruence.
  - destruct (Z.eqb_spec (BatchType p) BatchTypeCancel) as [Hc|Hc];
      [intuition congruence|].
    destruct (Z.eqb_spec (BatchType p) BatchTypeTerminate) as [Ht|Ht];
      intuition congruence.
Qed.

(** [setDefaultParams] never touches [CancelParams]. *)
Lemma setDefaultParams_cancelParams (p : BatchParams) :
  cancelParams (setDefaultParams p) = cancelParams p.
Proof. reflexivity. Qed.

(** ... whereas [TerminateChildren] is never nil afterwards. *)
Lemma setDefaultParams_TerminateChildren (p : BatchParams) :
  TerminateChildren (terminateParams (setDefaultParams p)) =
  Some (default true (TerminateChildren (terminateParams p))).
Proof.
  unfold setDefaultParams; simpl.
  destruct (terminateParams p) as [[b|]]; reflexivity.
Qed.

(** C1, on the input [BatchType = cancel], [CancelChildren = nil]: after
    [setDefaultParams] the pointer is still nil (the terminate one is
    [true]), and the walk over a target with one pending child cancels the
    target only, where the same walk for terminate goes on to the child. *)
Theorem cancel_children_unset_not_defaulted :
  let task := newTask zeroHeartBeatDetails (Scripted.target "root") in
  let st := initial Scripted.parentAndChild in
  let cancel := setDefaultParams (Scripted.params BatchTypeCancel 0 0 0) in
  let terminate := setDefaultParams (Scripted.params BatchTypeTerminate 0 0 0) in
  CancelChildren (cancelParams cancel) = None /\
  TerminateChildren (terminateParams terminate) = Some true /\
  List.filter isMutation (trace (snd (dispatchTask 5 cancel task st))) =
    [CancelWorkflowCall "root" "run"] /\
  List.filter isMutation (trace (snd (dispatchTask 5 terminate task st))) =
    [TerminateWorkflowCall "root" "run" "reason";
     TerminateWorkflowCall "kid" "run" "reason"].
Proof. vm_compute. repeat split. Qed.

(** With the concurrency unset, [setDefaultParams] divides the effective
    rate by ten and takes the quotient as it is. *)
Lemma setDefaultParams_Concurrency (p : BatchParams) :
  Concurrency p <= 0 ->
  int_range (RPS p) ->
  Concurrency (setDefaultParams p) = Z.quot (RPS (setDefaultParams p)) 10 /\
  (1 <= Concurrency (setDefaultParams p) <-> RPS p <= 0 \/ 10 <= RPS p).
Proof.
  intros Hc Hr. unfold setDefaultParams; simpl.
  destruct (Z.leb_spec (Concurrency p) 0) as [_|]; [|lia].
  unfold int_div, defaultRPSPerConcurrency, defaultRPS, int_range in *.
  destruct (Z.leb_spec (RPS p) 0) as [Hle|Hgt].
  - change (int_wrap (Z.quot 50 10)) with 5. split; [reflexivity|lia].
  - assert (Hq : 0 <= Z.quot (RPS p) 10 <= RPS p).
    { rewrite Z.quot_div_nonneg by lia.
      split; [apply Z.div_pos; lia|].
      apply Z.div_le_upper_bound; lia. }
    rewrite int_wrap_id by (unfold int_range; lia).
    split; [reflexivity|].
    rewrite Z.quot_div_nonneg by lia.
    split.
    + intros H1. right.
      destruct (Z.lt_ge_cases (RPS p) 10) as [Hlt|]; [|lia].
      rewrite Z.div_small in H1 by lia. lia.
    + intros [|H10]; [lia|].
      apply Z.div_le_lower_bound; lia.
Qed.

(** ** The engine against any world *)

Section EngineFacts.
Context {W : Type} {E : Env W} {BT : BatchOperationTypes}.

Lemma bind_Some {A B} (m : M W A) (k : A -> M W B) st a st1 :
  m st = (Some a, st1) -> bind m k st = k a st1.
Proof. unfold bind. intros ->. reflexivity. Qed.

Lemma call_eq {A} (e : Event) (f : W -> A * W) (st : State W) :
  call e f st = (Some (fst (f (world st))), moved st (snd (f (world st))) [e]).
Proof. unfold call, moved. destruct (f (world st)); reflexivity. Qed.

(** *** The child walk *)

Lemma processTaskLoop_cons fuel task applyOnChild procFn wf rest :
  processTaskLoop (S fuel) task applyOnChild procFn (wf :: rest) =
  bind (processTaskBody task applyOnChild procFn wf rest)
       (walkOn fuel task applyOnChild procFn).
Proof. reflexivity. Qed.

(** C6. At a node [wf] of the walk, once the limiter has let the worker
    through: (a) a mutation that returns [EntityNotExists] is followed by
    exactly what follows a mutation that returns nil, the describe of the
    node and the rest of the walk; (b) a describe that returns
    [EntityNotExists] queues no child and the walk goes on with the rest of
    the queue, no error being returned for the node; (c) any other error of
    the mutation or of describe ends [processTask] with that error. *)
Theorem child_walk_errors
    (task : taskDetail) (applyOnChild : option bool)
    (procFn : string -> string -> M W (option error))
    (wf : WorkflowExecution) (rest : list WorkflowExecution) (fuel : nat)
    (st st1 st2 : State W) (merr : option error) :
  call LimiterWaitCall Wait st = (Some None, st1) ->
  procFn (GetWorkflowId wf) (GetRunId wf) st1 = (Some merr, st2) ->
  let walk := processTaskLoop (S fuel) task applyOnChild procFn (wf :: rest) st in
  let d := DescribeWorkflowExecution (GetWorkflowId wf) (GetRunId wf) (world st2) in
  let st3 := moved st2 (snd d)
               [DescribeWorkflowExecutionCall (GetWorkflowId wf) (GetRunId wf)] in
  (merr = None \/ (exists e, merr = Some e /\ isEntityNotExistsError e = true) ->
   walk = bind (describeNode task applyOnChild wf rest)
               (walkOn fuel task applyOnChild procFn) st2) /\
  (forall e, fatal merr = false ->
     fst d = inl e -> isEntityNotExistsError e = true ->
     describeNode task applyOnChild wf rest st2 = (Some (Next rest), st3) /\
     walk = processTaskLoop fuel task applyOnChild procFn rest st3) /\
  (forall e, merr = Some e -> isEntityNotExistsError e = false ->
     walk = (Some (Some e), st2)) /\
  (forall e, fatal merr = false ->
     fst d = inl e -> isEntityNotExistsError e = false ->
     walk = (Some (Some e), st3)).
Proof.
  intros Hwait Hproc walk d st3.
  assert (Hbody : fatal merr = false ->
            processTaskBody task applyOnChild procFn wf rest st =
            describeNode task applyOnChild wf rest st2).
  { intros Hf. unfold processTaskBody.
    rewrite (bind_Some _ _ _ _ _ Hwait), (bind_Some _ _ _ _ _ Hproc), Hf.
    reflexivity. }
  assert (Hdesc : forall e, fst d = inl e ->
            describeNode task applyOnChild wf rest st2 =
            (if isEntityNotExistsError e then ret (Next rest)
             else ret (Return (Some e))) st3).
  { intros e He. unfold describeNode.
    rewrite (bind_Some _ _ _ _ _ (call_eq _ _ _)).
    fold d. rewrite He. reflexivity. }
  assert (Hwalk : fatal merr = false ->
            walk = bind (describeNode task applyOnChild wf rest)
                        (walkOn fuel task applyOnChild procFn) st2).
  { intros Hf. subst walk. rewrite processTaskLoop_cons.
    unfold bind. rewrite (Hbody Hf). reflexivity. }
  repeat split.
  - intros Hok. apply Hwalk.
    destruct Hok as [->|(e & -> & He)]; simpl; [reflexivity|].
    rewrite He; reflexivity.
  - rewrite (Hdesc e) by assumption.
    match goal with H : isEntityNotExistsError e = true |- _ => rewrite H end.
    reflexivity.
  - rewrite Hwalk by assumption. unfold bind.
    rewrite (Hdesc e) by assumption.
    match goal with H : isEntityNotExistsError e = true |- _ => rewrite H end.
    reflexivity.
  - intros e -> He. subst walk. rewrite processTaskLoop_cons.
    rewrite (bind_Some _ _ st (Return (Some e)) st2); [reflexivity|].
    unfold processTaskBody.
    rewrite (bind_Some _ _ _ _ _ Hwait), (bind_Some _ _ _ _ _ Hproc).
    simpl. rewrite He. reflexivity.
  - intros e Hf He1 He2. rewrite Hwalk by assumption. unfold bind.
    rewrite (Hdesc e) by assumption.
    rewrite He2. reflexivity.
Qed.

(** *** Frame rules *)

Section Frame.
Variable G : HeartBeatDetails -> Prop.

Lemma framed_ret {A} (P : Event -> Prop) (a : A) (Q : A -> Prop) :
  Q a -> framed (W:=W) G P (ret a) Q.
Proof.
  intros Hq st Hi; simpl. split; [exact Hi|]. split.
  - exists []. split; [unfold extends; rewrite app_nil_r; reflexivity|constructor].
  - intros a' [= <-]. exact Hq.
Qed.

Lemma framed_diverge {A} (P : Event -> Prop) (Q : A -> Prop) :
  framed (W:=W) G P diverge Q.
Proof.
  intros st Hi; simpl. split; [exact Hi|]. split.
  - exists []. split; [unfold extends; rewrite app_nil_r; reflexivity|constructor].
  - intros a' [=].
Qed.

Lemma framed_bind {A B} (P : Event -> Prop) (m : M W A) (k : A -> M W B)
    (Q1 : A -> Prop) (Q2 : B -> Prop) :
  framed G P m Q1 ->
  (forall a, Q1 a -> framed G P (k a) Q2) ->
  framed G P (bind m k) Q2.
Proof.
  intros Hm Hk st Hi. unfold bind.
  destruct (Hm st Hi) as (I1 & (n1 & E1 & F1) & R1).
  destruct (m st) as [[a|] st1]; simpl in *.
  - destruct (Hk a (R1 a eq_refl) st1 I1) as (I2 & (n2 & E2 & F2) & R2).
    split; [exact I2|]. split; [|exact R2].
    exists (n1 ++ n2). split.
    + unfold extends in *. rewrite E2, E1, app_assoc. reflexivity.
    + apply Forall_app; split; assumption.
  - split; [exact I1|]. split; [exists n1; split; assumption|].
    intros a [=].
Qed.

Lemma framed_weaken {A} (P P' : Event -> Prop) (m : M W A) (Q Q' : A -> Prop) :
  framed G P m Q ->
  (forall e, P e -> P' e) ->
  (forall a, Q a -> Q' a) ->
  framed G P' m Q'.
Proof.
  intros Hm HP HQ st Hi.
  destruct (Hm st Hi) as (I1 & (n1 & E1 & F1) & R1).
  split; [exact I1|]. split.
  - exists n1. split; [exact E1|]. eapply Forall_impl; [exact F1|exact HP].
  - intros a Ha. apply HQ, R1, Ha.
Qed.

Lemma framed_emit (P : Event -> Prop) (e : Event) :
  P e -> framed (W:=W) G P (emit e) (fun _ => True).
Proof.
  intros He st Hi; simpl. split; [exact Hi|]. split; [|trivial].
  exists [e]. split; [reflexivity|]. repeat constructor. exact He.
Qed.

Lemma framed_call {A} (P : Event -> Prop) (e : Event) (f : W -> A * W) :
  P e -> framed G P (call e f) (fun _ => True).
Proof.
  intros He st Hi. rewrite call_eq; simpl. split; [exact Hi|]. split; [|trivial].
  exists [e]. split; [reflexivity|]. repeat constructor. exact He.
Qed.

Lemma framed_quiet {A} (P : Event -> Prop) (m : M W A) :
  (forall st, taskCh (snd (m st)) = taskCh st /\ trace (snd (m st)) = trace st) ->
  framed G P m (fun _ => True).
Proof.
  intros Hm st Hi. destruct (Hm st) as [Et Er].
  split; [unfold queued; rewrite Et; exact Hi|]. split; [|trivial].
  exists []. split; [unfold extends; rewrite app_nil_r; exact Er|constructor].
Qed.

Lemma framed_observe {A} (P : Event -> Prop) (f : W -> A) :
  framed G P (observe f) (fun _ => True).
Proof. apply framed_quiet. intros st; split; reflexivity. Qed.

Lemma framed_done (P : Event -> Prop) : framed G P done (fun _ => True).
Proof.
  apply framed_quiet. intros st. unfold done.
  destruct (ctxDone (world st)); split; reflexivity.
Qed.

Lemma framed_setWorkers (P : Event -> Prop) (n : nat) :
  framed (W:=W) G P (setWorkers n) (fun _ => True).
Proof. apply framed_quiet. intros st; split; reflexivity. Qed.

Lemma framed_sendTask (P : Event -> Prop) (t : taskDetail) :
  G (hbd t) -> P (SendTask t) -> framed (W:=W) G P (sendTask t) (fun _ => True).
Proof.
  intros Ht He st Hi; simpl. split; [|split; [|trivial]].
  - unfold queued; simpl. apply Forall_app; split; [exact Hi|].
    repeat constructor. exact Ht.
  - exists [SendTask t]. split; [reflexivity|]. repeat constructor. exact He.
Qed.

Lemma framed_sendResp (P : Event -> Prop) (e : option error) :
  P (SendResp e) -> framed (W:=W) G P (sendResp e) (fun _ => True).
Proof.
  intros He st Hi; simpl. split; [exact Hi|]. split; [|trivial].
  exists [SendResp e]. split; [reflexivity|]. repeat constructor. exact He.
Qed.

Lemma framed_recvTask (P : Event -> Prop) :
  (forall t, G (hbd t) -> P (RecvTask t)) ->
  framed (W:=W) G P recvTask (fun o => forall t, o = Some t -> G (hbd t)).
Proof.
  intros He st Hi. unfold recvTask.
  destruct (taskCh st) as [|t rest] eqn:Et; simpl.
  - split; [exact Hi|]. split.
    + exists []. split; [unfold extends; rewrite app_nil_r; reflexivity|constructor].
    + intros a [= <-] t [=].
  - unfold queued in Hi. rewrite Et in Hi.
    apply Forall_cons_iff in Hi as [Ht Hrest].
    split; [exact Hrest|]. split.
    + exists [RecvTask t]. split; [reflexivity|]. repeat constructor.
      apply He, Ht.
    + intros a [= <-] t' [= <-]. exact Ht.
Qed.

Lemma framed_recvResp (P : Event -> Prop) :
  (forall r, P (RecvResp r)) ->
  framed (W:=W) G P recvResp (fun _ => True).
Proof.
  intros He st Hi. unfold recvResp.
  destruct (respCh st) as [|r rest]; simpl.
  - split; [exact Hi|]. split; [|trivial].
    exists []. split; [unfold extends; rewrite app_nil_r; reflexivity|constructor].
  - split; [exact Hi|]. split; [|trivial].
    exists [RecvResp r]. split; [reflexivity|]. repeat constructor. apply He.
Qed.

Lemma framed_recordHeartbeat (P : Event -> Prop) (h : HeartBeatDetails) :
  P (RecordHeartbeatCall h) -> framed G P (recordHeartbeat h) (fun _ => True).
Proof. intros He. apply framed_call, He. Qed.

(** **** The worker *)

Ltac framed_step :=
  eapply framed_bind;
  [|let a := fresh "a" in let Qa := fresh "Qa" in intros a Qa].

Lemma framed_describeNode task applyOnChild wf rest :
  G (hbd task) ->
  framed G (workerEvent G) (describeNode task applyOnChild wf rest) (fun _ => True).
Proof.
  intros Ht. unfold describeNode.
  framed_step; [apply framed_call; exact I|].
  destruct a as [e|resp].
  - destruct (isEntityNotExistsError e); apply framed_ret; exact I.
  - framed_step.
    + destruct (applies applyOnChild && (0 <? Z.of_nat (length (PendingChildren resp)))).
      * framed_step; [apply framed_emit; exact I|].
        apply framed_ret. instantiate (1 := fun _ => True). exact I.
      * apply framed_ret. exact I.
    + framed_step; [apply framed_recordHeartbeat; exact Ht|].
      apply framed_ret; exact I.
Qed.

Lemma framed_processTaskBody task applyOnChild procFn wf rest :
  G (hbd task) ->
  (forall wid rid, framed G (workerEvent G) (procFn wid rid) (fun _ => True)) ->
  framed G (workerEvent G) (processTaskBody task applyOnChild procFn wf rest)
         (fun _ => True).
Proof.
  intros Ht Hp. unfold processTaskBody.
  framed_step; [apply framed_call; exact I|].
  destruct a as [e|]; [apply framed_ret; exact I|].
  framed_step; [apply Hp|].
  destruct (fatal a); [apply framed_ret; exact I|].
  apply framed_describeNode, Ht.
Qed.

Lemma framed_processTaskLoop fuel task applyOnChild procFn wfs :
  G (hbd task) ->
  (forall wid rid, framed G (workerEvent G) (procFn wid rid) (fun _ => True)) ->
  framed G (workerEvent G) (processTaskLoop fuel task applyOnChild procFn wfs)
         (fun _ => True).
Proof.
  intros Ht Hp. revert wfs.
  induction fuel as [|fuel IH]; intros wfs; simpl; [apply framed_diverge|].
  destruct wfs as [|wf rest]; [apply framed_ret; exact I|].
  framed_step; [apply framed_processTaskBody; assumption|].
  destruct a as [wfs'|err]; [apply IH|apply framed_ret; exact I].
Qed.

Lemma framed_dispatchTask fuel batchParams task :
  G (hbd task) ->
  framed G (workerEvent G) (dispatchTask fuel batchParams task) (fun _ => True).
Proof.
  intros Ht. unfold dispatchTask, processTask.
  repeat match goal with |- context [if ?b then _ else _] => destruct b end;
    try (apply framed_ret; exact I);
    apply framed_processTaskLoop; try exact Ht;
    intros wid rid; apply framed_call; exact I.
Qed.

Lemma framed_reportTask batchParams task err :
  G (hbd task) ->
  framed (W:=W) G (workerEvent G) (reportTask batchParams task err) (fun _ => True).
Proof.
  intros Ht. unfold reportTask. destruct err as [e|].
  - framed_step; [apply framed_emit; exact I|].
    framed_step; [apply framed_emit; exact I|].
    destruct (terminal batchParams task e).
    + apply framed_sendResp; exact I.
    + apply framed_sendTask; exact Ht.
  - framed_step; [apply framed_emit; exact I|].
    apply framed_sendResp; exact I.
Qed.

Lemma framed_startTaskProcessorStep fuel batchParams :
  framed G (workerEvent G) (startTaskProcessorStep fuel batchParams) (fun _ => True).
Proof.
  unfold startTaskProcessorStep.
  framed_step; [apply framed_done|].
  destruct a; [apply framed_ret; exact I|].
  framed_step; [apply framed_recvTask; intros t Ht; exact Ht|].
  destruct a as [task|]; [|apply framed_ret; exact I].
  assert (Ht : G (hbd task)) by (apply Qa0; reflexivity).
  framed_step; [apply framed_done|].
  destruct a; [apply framed_ret; exact I|].
  framed_step; [apply framed_dispatchTask, Ht|].
  framed_step; [apply framed_reportTask, Ht|].
  apply framed_ret; exact I.
Qed.

Lemma framed_startTaskProcessor fuel batchParams :
  framed G (workerEvent G) (startTaskProcessor fuel batchParams) (fun _ => True).
Proof.
  induction fuel as [|fuel IH]; simpl; [apply framed_diverge|].
  framed_step; [apply framed_startTaskProcessorStep|].
  destruct a; try (apply framed_ret; exact I). exact IH.
Qed.

Lemma framed_yield fuel batchParams :
  framed G (workerEvent G) (yield fuel batchParams) (fun _ => True).
Proof.
  intros st Hi. unfold yield.
  destruct (workers st) as [|n].
  - exact (framed_ret (workerEvent G) tt (fun _ => True) I st Hi).
  - revert st Hi.
    change (framed G (workerEvent G)
              (let* s := startTaskProcessorStep fuel batchParams in
               match s with
               | WorkerExited => setWorkers n
               | _ => ret tt
               end) (fun _ => True)).
    framed_step; [apply framed_startTaskProcessorStep|].
    destruct a; [apply framed_setWorkers|apply framed_ret; exact I..].
Qed.

(** **** The dispatcher *)

Hypothesis G_advance :
  forall h resp succCount errCount, G h -> G (advance h resp succCount errCount).

Lemma worker_loopEvent e : workerEvent G e -> loopEvent G e.
Proof. intros He; left; exact He. Qed.

Lemma framed_collect fuel batchParams batchCount succCount errCount :
  framed G (loopEvent G) (collect fuel batchParams batchCount succCount errCount)
         (fun _ => True).
Proof.
  revert succCount errCount.
  induction fuel as [|fuel IH]; intros succCount errCount; simpl;
    [apply framed_diverge|].
  framed_step; [apply framed_done|].
  destruct a.
  - framed_step; [apply framed_observe|]. apply framed_ret; exact I.
  - framed_step; [apply framed_recvResp; intros r; right; exact I|].
    destruct a as [err|].
    + match goal with |- context [if ?b then _ else _] => destruct b end;
        [apply framed_ret; exact I|apply IH].
    + framed_step; [|apply IH].
      eapply framed_weaken; [apply framed_yield|apply worker_loopEvent|].
      intros ? Hq; exact Hq.
Qed.

Lemma framed_sendAll tasks :
  Forall (fun t => G (hbd t)) tasks ->
  framed (W:=W) G (loopEvent G) (sendAll tasks) (fun _ => True).
Proof.
  induction 1 as [|t rest Ht Hrest IH]; simpl; [apply framed_ret; exact I|].
  framed_step; [|exact IH].
  apply framed_sendTask; [exact Ht|right; exact Ht].
Qed.

Lemma framed_handlePage fuel batchParams h r :
  G h -> framed G (loopEvent G) (handlePage fuel batchParams h r) (pageOk G).
Proof.
  intros Hh. unfold handlePage. destruct r as [err|resp].
  - apply framed_ret. reflexivity.
  - destruct (Z.of_nat (length (Executions resp)) <=? 0);
      [apply framed_ret; exact Hh|].
    framed_step.
    { apply framed_sendAll. apply Forall_forall. intros t Ht.
      apply list_elem_of_In, in_map_iff in Ht as (wf & <- & _). exact Hh. }
    framed_step; [apply framed_collect|].
    destruct a0 as [succCount errCount|err]; [|apply framed_ret; reflexivity].
    pose proof (G_advance h resp succCount errCount Hh) as Hadv.
    framed_step; [apply framed_recordHeartbeat; right; exact Hadv|].
    match goal with |- context [if ?b then _ else _] => destruct b end;
      apply framed_ret; exact Hadv.
Qed.

Lemma framed_mainLoopBody fuel batchParams h :
  G h -> framed G (loopEvent G) (mainLoopBody fuel batchParams h) (pageOk G).
Proof.
  intros Hh. unfold mainLoopBody.
  framed_step; [apply framed_call; right; exact I|].
  apply framed_handlePage, Hh.
Qed.

Lemma framed_mainLoop fuel batchParams h :
  G h -> framed G (loopEvent G) (mainLoop fuel batchParams h) (resultOk G).
Proof.
  revert h. induction fuel as [|fuel IH]; intros h Hh; simpl;
    [apply framed_diverge|].
  framed_step; [apply framed_mainLoopBody, Hh|].
  destruct a as [r|h']; [apply framed_ret; assumption|apply IH; assumption].
Qed.

Lemma framed_spawn n :
  framed (W:=W) G (loopEvent G) (spawn n) (fun _ => True).
Proof.
  induction n as [|n IH]; simpl; [apply framed_ret; exact I|].
  intros st Hi.
  pose (st' := mkState (world st) (taskCh st) (respCh st) (S (workers st)) (trace st)).
  assert (Hb : framed (W:=W) G (loopEvent G)
                 (bind (emit GoStartTaskProcessor) (fun _ => spawn n))
                 (fun _ => True)).
  { eapply framed_bind; [apply framed_emit; right; exact I|].
    intros _ _. exact IH. }
  destruct (Hb st' Hi) as (I1 & (new & E1 & F1) & R1).
  split; [exact I1|]. split; [|exact R1].
  exists new. split; [exact E1|exact F1].
Qed.

End Frame.

(** *** The dispatcher *)

(** [BatchActivity] after the restore, unfolded on the answer of the count. *)
Lemma runFrom_eq fuel batchParams h startOver (st : State W) :
  let c := CountWorkflow (Query batchParams) (world st) in
  let st1 := moved st (snd c) [CountWorkflowCall (Query batchParams)] in
  let loop h' :=
    bind (spawn (Z.to_nat (Concurrency batchParams)))
         (fun _ => mainLoop fuel batchParams h') in
  runFrom fuel batchParams h startOver st =
  if startOver then
    match fst c with
    | inl err => (Some (zeroHeartBeatDetails, Some err), st1)
    | inr n => loop (withTotalEstimate h n) st1
    end
  else loop h st.
Proof.
  intros c st1 loop. unfold runFrom. destruct startOver.
  - unfold bind at 1 2. rewrite call_eq. fold c st1.
    destruct (fst c) as [err|n]; reflexivity.
  - reflexivity.
Qed.

Lemma restore_eq (st : State W) :
  let got := GetHeartbeatDetails zeroHeartBeatDetails (world st) in
  restore st =
  if HasHeartbeatDetails (world st) then
    match snd got with
    | None => (Some (fst got, false), st)
    | Some _ =>
      (Some (fst got, true),
       moved st (world st)
         [IncCounter BatcherProcessorFailures;
          LogError "Failed to recover from last heartbeat, start over from beginning"])
    end
  else (Some (zeroHeartBeatDetails, true), st).
Proof.
  intros got. unfold restore, bind, observe; simpl.
  destruct (HasHeartbeatDetails (world st)); [|reflexivity].
  fold got. destruct got as [h [e|]]; simpl; [|reflexivity].
  unfold moved; simpl. rewrite <- app_assoc. reflexivity.
Qed.

Lemma framed_loop (G : HeartBeatDetails -> Prop) fuel batchParams h :
  (forall h resp succCount errCount, G h -> G (advance h resp succCount errCount)) ->
  G h ->
  framed G (loopEvent G)
    (bind (spawn (Z.to_nat (Concurrency batchParams)))
          (fun _ => mainLoop fuel batchParams h))
    (resultOk G).
Proof.
  intros Hadv Hh. eapply framed_bind; [apply framed_spawn|].
  intros _ _. apply framed_mainLoop; assumption.
Qed.

Lemma queued_True (st : State W) : queued (fun _ => True) st.
Proof. apply Forall_forall. intros; exact I. Qed.

(** C10. Whenever [BatchActivity] returns a non-nil error (from the count,
    from a scan, or from the context being done), the heartbeat state
    returned with it is the zero value. *)
Theorem error_return_is_zero fuel batchParams (st : State W) h e :
  fst (BatchActivity fuel batchParams st) = Some (h, Some e) ->
  h = zeroHeartBeatDetails.
Proof.
  unfold BatchActivity, bind. rewrite restore_eq.
  set (got := GetHeartbeatDetails zeroHeartBeatDetails (world st)).
  assert (Hrun : forall h0 so st0,
            fst (runFrom fuel batchParams h0 so st0) = Some (h, Some e) ->
            h = zeroHeartBeatDetails).
  { intros h0 so st0. rewrite runFrom_eq.
    assert (Hloop : forall h1 st1,
              fst (bind (spawn (Z.to_nat (Concurrency batchParams)))
                        (fun _ => mainLoop fuel batchParams h1) st1)
              = Some (h, Some e) -> h = zeroHeartBeatDetails).
    { intros h1 st1 Hr.
      destruct (framed_loop (fun _ => True) fuel batchParams h1
                  (fun _ _ _ _ _ => I) I st1 (queued_True st1)) as (_ & _ & Hq).
      exact (Hq _ Hr). }
    destruct so; [|apply Hloop].
    destruct (fst (CountWorkflow (Query batchParams) (world st0))) as [err|n];
      [|apply Hloop].
    simpl. intros [= <- _]. reflexivity. }
  destruct (HasHeartbeatDetails (world st)); [|apply Hrun].
  destruct (snd got); apply Hrun.
Qed.

(** C9. From the point where [BatchActivity] has restored its state: the
    count is called at most once, as the very first step and only on a fresh
    start; with [n] the estimate after that step (the count on a fresh start,
    the restored value otherwise), every heartbeat recorded from then on, by
    the dispatcher or inside a child walk, every task sent, sent again or
    received carries the estimate [n], and so does the state returned on
    success. *)
Theorem total_estimate_written_once fuel batchParams h (startOver : bool)
    (st : State W) :
  taskCh st = [] ->
  let c := CountWorkflow (Query batchParams) (world st) in
  let n := if startOver
           then match fst c with inr k => k | inl _ => TotalEstimate h end
           else TotalEstimate h in
  let out := runFrom fuel batchParams h startOver st in
  (exists rest,
     extends st (snd out)
       ((if startOver then [CountWorkflowCall (Query batchParams)] else []) ++ rest) /\
     Forall (loopEvent (fun x => TotalEstimate x = n)) rest) /\
  (forall h', fst out = Some (h', None) -> TotalEstimate h' = n).
Proof.
  intros Hempty c n out. subst out. rewrite runFrom_eq. fold c.
  assert (Hloop : forall h1 (st1 : State W),
            taskCh st1 = [] -> TotalEstimate h1 = n ->
            let out := bind (spawn (Z.to_nat (Concurrency batchParams)))
                            (fun _ => mainLoop fuel batchParams h1) st1 in
            (exists rest, extends st1 (snd out) rest /\
               Forall (loopEvent (fun x => TotalEstimate x = n)) rest) /\
            (forall h', fst out = Some (h', None) -> TotalEstimate h' = n)).
  { intros h1 st1 He Hn out.
    destruct (framed_loop (fun x => TotalEstimate x = n) fuel batchParams h1
                (fun _ _ _ _ Hx => Hx) Hn st1) as (_ & Hev & Hq).
    { unfold queued. rewrite He. constructor. }
    split; [exact Hev|]. intros h' Hr. exact (Hq _ Hr). }
  destruct startOver.
  - destruct (fst c) as [err|k] eqn:Hc.
    + split; [|intros h' [=]].
      exists (@nil Event). split; [reflexivity|constructor].
    + destruct (Hloop (withTotalEstimate h k)
                  (moved st (snd c) [CountWorkflowCall (Query batchParams)])
                  Hempty eq_refl) as ((rest & Ext & Hall) & Hq).
      split; [|exact Hq].
      exists rest. split; [|exact Hall].
      unfold extends in *. rewrite Ext. simpl. rewrite <- app_assoc. reflexivity.
  - exact (Hloop h st Hempty eq_refl).
Qed.

Lemma spawn_eq n (st : State W) :
  spawn n st =
  (Some tt, mkState (world st) (taskCh st) (respCh st) (n + workers st)
                    (trace st ++ repeat GoStartTaskProcessor n)).
Proof.
  revert st. induction n as [|n IH]; intros st; simpl.
  - unfold ret. rewrite app_nil_r. destruct st; reflexivity.
  - unfold bind, emit; simpl. rewrite IH; simpl.
    rewrite <- app_assoc, Nat.add_succ_r. reflexivity.
Qed.

Lemma loopEvent_not_count e : loopEvent (fun _ => True) e -> isCount e = false.
Proof. destruct e; simpl; intros [[]|[]]; reflexivity. Qed.

Lemma bind_assoc {A B C} (m : M W A) (k1 : A -> M W B) (k2 : B -> M W C) st :
  bind (bind m k1) k2 st = bind m (fun a => bind (k1 a) k2) st.
Proof. unfold bind. destruct (m st) as [[a|] st1]; reflexivity. Qed.

(** The main loop opens with the scan from the page token it is entered
    with, and never counts. *)
Lemma mainLoop_starts fuel batchParams h (st : State W) :
  exists rest,
    extends st (snd (mainLoop (S fuel) batchParams h st))
      (ScanWorkflowCall pageSize (PageToken h) (Query batchParams) :: rest) /\
    Forall (fun e => isCount e = false) rest.
Proof.
  set (K := fun c : PageCtl =>
              match c with
              | Finish result => ret result
              | Again h' => mainLoop fuel batchParams h'
              end).
  assert (HK : forall r, framed (fun _ => True) (loopEvent (fun _ => True))
                 (bind (handlePage fuel batchParams h r) K)
                 (resultOk (fun _ => True))).
  { intros r. eapply framed_bind.
    - apply framed_handlePage; [intros; exact I|exact I].
    - intros c Hc. destruct c as [res|h']; simpl.
      + apply framed_ret. exact Hc.
      + apply framed_mainLoop; [intros; exact I|exact I]. }
  change (mainLoop (S fuel) batchParams h st)
    with (bind (mainLoopBody fuel batchParams h) K st).
  unfold mainLoopBody. rewrite bind_assoc.
  rewrite (bind_Some _ _ _ _ _ (call_eq _ _ _)).
  match goal with |- context [bind (handlePage _ _ _ ?r) K ?st1] =>
    destruct (HK r st1 (queued_True st1)) as (_ & (rest & Ext & Hall) & _)
  end.
  exists rest. split.
  - unfold extends in *. rewrite Ext. simpl. rewrite <- app_assoc. reflexivity.
  - eapply Forall_impl; [exact Hall|]. apply loopEvent_not_count.
Qed.

(** Activity entry: (a) when heartbeat details are present and the
    restore succeeds, the run is the worker start-up followed by the main
    loop entered with the restored state: no event of the run is a count,
    and the first call of the client is the scan from the restored page
    token; (b) when the details are absent or the restore fails, the failure
    is only counted and logged, the count is called, its error is the only
    way for the entry to fail, and its answer becomes the total estimate of
    the state the main loop is entered with, the zero state when there was
    nothing to restore. *)
Theorem activity_entry fuel batchParams (st : State W) :
  let has := HasHeartbeatDetails (world st) in
  let got := GetHeartbeatDetails zeroHeartBeatDetails (world st) in
  let n := Z.to_nat (Concurrency batchParams) in
  let loop fuel h := bind (spawn n) (fun _ => mainLoop fuel batchParams h) in
  (has = true -> snd got = None ->
   BatchActivity fuel batchParams st = loop fuel (fst got) st /\
   (exists new, extends st (snd (BatchActivity fuel batchParams st)) new /\
                Forall (fun e => isCount e = false) new) /\
   (exists rest,
      extends st (snd (BatchActivity (S fuel) batchParams st))
        (repeat GoStartTaskProcessor n ++
         ScanWorkflowCall pageSize (PageToken (fst got)) (Query batchParams) :: rest))) /\
  (has = false \/ snd got <> None ->
   let h0 := if has then fst got else zeroHeartBeatDetails in
   let st0 :=
     if has
     then moved st (world st)
            [IncCounter BatcherProcessorFailures;
             LogError "Failed to recover from last heartbeat, start over from beginning"]
     else st in
   let c := CountWorkflow (Query batchParams) (world st) in
   let st1 := moved st0 (snd c) [CountWorkflowCall (Query batchParams)] in
   BatchActivity fuel batchParams st =
   match fst c with
   | inl err => (Some (zeroHeartBeatDetails, Some err), st1)
   | inr k => loop fuel (withTotalEstimate h0 k) st1
   end /\
   forall k, TotalEstimate (withTotalEstimate h0 k) = k /\
             (has = false \/ fst got = zeroHeartBeatDetails ->
              withTotalEstimate h0 k =
              {| PageToken := []; CurrentPage := 0; TotalEstimate := k;
                 SuccessCount := 0; ErrorCount := 0 |})).
Proof.
  intros has got n loop.
  assert (Heq : forall f, BatchActivity f batchParams st =
            match restore st with
            | (Some r, st') => runFrom f batchParams (fst r) (snd r) st'
            | (None, st') => (None, st')
            end) by reflexivity.
  split.
  - intros Hhas Hgot.
    assert (Hrun : forall f, BatchActivity f batchParams st = loop f (fst got) st).
    { intros f. rewrite Heq, restore_eq. fold has got. rewrite Hhas, Hgot.
      simpl. rewrite runFrom_eq. reflexivity. }
    split; [apply Hrun|]. split.
    + rewrite Hrun.
      destruct (framed_loop (fun _ => True) fuel batchParams (fst got)
                  (fun _ _ _ _ _ => I) I st (queued_True st))
        as (_ & (new & Ext & Hall) & _).
      exists new. split; [exact Ext|].
      eapply Forall_impl; [exact Hall|]. apply loopEvent_not_count.
    + rewrite Hrun. unfold loop.
      rewrite (bind_Some _ _ _ _ _ (spawn_eq _ _)).
      match goal with |- context [mainLoop _ _ _ ?s] =>
        destruct (mainLoop_starts fuel batchParams (fst got) s) as (rest & Ext & _)
      end.
      exists rest. unfold extends in *. rewrite Ext. simpl.
      rewrite <- app_assoc. reflexivity.
  - intros Hfresh h0 st0 c st1. split.
    + rewrite Heq, restore_eq. fold has got.
      destruct has eqn:Hhas.
      * destruct (snd got) as [e|] eqn:Hgot; [|destruct Hfresh; congruence].
        simpl. rewrite runFrom_eq. reflexivity.
      * simpl. rewrite runFrom_eq. reflexivity.
    + intros k. split; [reflexivity|].
      intros Hzero. subst h0.
      destruct Hzero as [Hhas|Hz]; [rewrite Hhas; reflexivity|].
      rewrite Hz. destruct has; reflexivity.
Qed.

Lemma bind_inv {A B} (m : M W A) (k : A -> M W B) st b st' :
  bind m k st = (Some b, st') ->
  exists a st1, m st = (Some a, st1) /\ k a st1 = (Some b, st').
Proof.
  unfold bind. destruct (m st) as [[a|] st1]; [|discriminate].
  intros Hk. exists a, st1. split; [reflexivity|exact Hk].
Qed.

Lemma occurrences_app f l1 l2 :
  occurrences f (l1 ++ l2) = occurrences f l1 + occurrences f l2.
Proof.
  unfold occurrences. rewrite List.filter_app, length_app. lia.
Qed.

Lemma occurrences_nonneg f l : 0 <= occurrences f l.
Proof. unfold occurrences. lia. Qed.

Lemma no_RecvResp l :
  Forall (fun e => isRecvResp e = false) l ->
  occurrences isNilResp l = 0 /\ occurrences isErrResp l = 0 /\
  occurrences isRecvResp l = 0.
Proof.
  induction 1 as [|e l He _ IH]; [repeat split|].
  change (e :: l) with ([e] ++ l). rewrite !occurrences_app.
  destruct IH as (-> & -> & ->).
  destruct e as [| | | | | | | | | | | | | | |[r|]]; try discriminate;
    repeat split.
Qed.

Lemma workerEvent_not_RecvResp G e : workerEvent G e -> isRecvResp e = false.
Proof. destruct e; simpl; intros He; try reflexivity; destruct He. Qed.

(** The loop [Loop] drains exactly as many outcomes as still miss from the
    page: on exit the two counters have grown by the number of nil and of
    error outcomes received, and add up to the size of the page. *)
Lemma collect_drained fuel batchParams n :
  n < 2 ^ 63 ->
  forall s e (st : State W) s' e' st',
  collect fuel batchParams n s e st = (Some (Drained s' e'), st') ->
  0 <= s -> 0 <= e -> s + e < n ->
  exists new,
    extends st st' new /\
    s' = s + occurrences isNilResp new /\
    e' = e + occurrences isErrResp new /\
    occurrences isRecvResp new = n - (s + e) /\
    s' + e' = n.
Proof.
  intros Hn. induction fuel as [|fuel IH]; intros s e st s' e' st' Hc Hs He Hlt;
    [discriminate|].
  simpl in Hc.
  apply bind_inv in Hc as (d & st1 & Hd & Hc).
  destruct (framed_done (fun _ => True) (fun e => isRecvResp e = false) st
              (queued_True st)) as (_ & (new1 & E1 & F1) & _).
  rewrite Hd in E1; simpl in E1.
  destruct d.
  { apply bind_inv in Hc as (e0 & st2 & _ & Hc). discriminate. }
  apply bind_inv in Hc as (r & st2 & Hr & Hc).
  unfold recvResp in Hr.
  destruct (respCh st1) as [|r0 rest] eqn:Hresp; injection Hr as <- <-.
  - apply bind_inv in Hc as ([] & st3 & Hy & Hc).
    destruct (framed_yield (fun _ => True) fuel batchParams st1 (queued_True st1))
      as (_ & (new2 & E2 & F2) & _).
    rewrite Hy in E2; simpl in E2.
    destruct (IH _ _ _ _ _ _ Hc Hs He Hlt) as (new3 & E3 & Hs' & He' & Hr' & Hsum).
    exists (new1 ++ new2 ++ new3).
    pose proof (no_RecvResp new1 F1) as (N1 & N2 & N3).
    assert (F2' : Forall (fun e => isRecvResp e = false) new2).
    { eapply Forall_impl; [exact F2|]. apply workerEvent_not_RecvResp. }
    pose proof (no_RecvResp new2 F2') as (M1 & M2 & M3).
    rewrite !occurrences_app, N1, N2, N3, M1, M2, M3.
    repeat split; try lia.
    unfold extends in *. rewrite E3, E2, E1, <- !app_assoc. reflexivity.
  - pose proof (no_RecvResp new1 F1) as (N1 & N2 & N3).
    set (st2 := mkState (world st1) (taskCh st1) rest (workers st1)
                        (trace st1 ++ [RecvResp r0])) in *.
    assert (E2 : extends st st2 (new1 ++ [RecvResp r0])).
    { unfold extends in *. simpl. rewrite E1, <- app_assoc. reflexivity. }
    set (s1 := match r0 with None => int_add s 1 | Some _ => s end) in *.
    set (e1 := match r0 with None => e | Some _ => int_add e 1 end) in *.
    assert (Hs1 : s1 = s + occurrences isNilResp [RecvResp r0] /\
                  e1 = e + occurrences isErrResp [RecvResp r0]).
    { subst s1 e1. unfold int_add.
      destruct r0; simpl; rewrite ?int_wrap_id by (unfold int_range; lia);
        unfold occurrences; simpl; lia. }
    destruct Hs1 as [Hs1 He1].
    assert (Hone : occurrences isNilResp [RecvResp r0] +
                   occurrences isErrResp [RecvResp r0] = 1 /\
                   occurrences isRecvResp [RecvResp r0] = 1).
    { destruct r0; split; reflexivity. }
    destruct Hone as [Hone Hrecv].
    pose proof (occurrences_nonneg isNilResp [RecvResp r0]).
    pose proof (occurrences_nonneg isErrResp [RecvResp r0]).
    assert (Hadd : int_add s1 e1 = s1 + e1).
    { unfold int_add. apply int_wrap_id. unfold int_range. lia. }
    rewrite Hadd in Hc.
    destruct (Z.eqb_spec (s1 + e1) n) as [Heq|Hne].
    + injection Hc as <- <- <-.
      exists (new1 ++ [RecvResp r0]).
      rewrite !occurrences_app, N1, N2, N3.
      repeat split; try lia. exact E2.
    + destruct (IH _ _ _ _ _ _ Hc ltac:(lia) ltac:(lia) ltac:(lia))
        as (new3 & E3 & Hs' & He' & Hr' & Hsum).
      exists (new1 ++ [RecvResp r0] ++ new3).
      rewrite !occurrences_app, N1, N2, N3.
      repeat split; try lia.
      unfold extends in *. rewrite E3, E2, <- !app_assoc. reflexivity.
Qed.

Lemma sendAll_eq tasks (st : State W) :
  sendAll tasks st =
  (Some tt, mkState (world st) (taskCh st ++ tasks) (respCh st) (workers st)
                    (trace st ++ map SendTask tasks)).
Proof.
  revert st. induction tasks as [|t tasks IH]; intros st; simpl.
  - unfold ret. rewrite !app_nil_r. destruct st; reflexivity.
  - unfold bind, sendTask. rewrite IH; simpl. rewrite <- !app_assoc.
    reflexivity.
Qed.

(** C5. One pass through the main loop, entered with [hbd = h], when the
    scan answers with the page [resp].  If the page is empty the activity
    returns [h] and a nil error, having done nothing but the scan.
    Otherwise one task per target is sent and, whenever the wait for the
    outcomes comes back with the counters [succ] and [err], exactly
    [len(page)] outcomes were received, [succ] of them nil and [err] of them
    errors; [hbd] then is [h] with the page counter incremented, the page
    token replaced by the next one and the two counts added (Go's [+=] on
    [int]), a heartbeat with that state is recorded, and the activity returns
    that state with a nil error when the next page token is empty and goes
    round the loop with it otherwise. *)
Theorem main_loop_iteration fuel batchParams h (st : State W) resp :
  let scanned := ScanWorkflow pageSize (PageToken h) (Query batchParams) (world st) in
  let page := Executions resp in
  let tasks := map (newTask h) page in
  let st1 := moved st (snd scanned)
               [ScanWorkflowCall pageSize (PageToken h) (Query batchParams)] in
  let st2 := mkState (world st1) (taskCh st1 ++ tasks) (respCh st1) (workers st1)
                     (trace st1 ++ map SendTask tasks) in
  fst scanned = inr resp ->
  int_range (Z.of_nat (length page)) ->
  (page = [] -> mainLoop (S fuel) batchParams h st = (Some (h, None), st1)) /\
  (page <> [] ->
   forall succ err st3,
   collect fuel batchParams (Z.of_nat (length page)) 0 0 st2
     = (Some (Drained succ err), st3) ->
   let h' := {| PageToken := NextPageToken resp;
                CurrentPage := int_add (CurrentPage h) 1;
                TotalEstimate := TotalEstimate h;
                SuccessCount := int_add (SuccessCount h) succ;
                ErrorCount := int_add (ErrorCount h) err |} in
   let st4 := moved st3 (RecordHeartbeat h' (world st3)) [RecordHeartbeatCall h'] in
   (exists new,
      extends st2 st3 new /\
      occurrences isRecvResp new = Z.of_nat (length page) /\
      succ = occurrences isNilResp new /\
      err = occurrences isErrResp new) /\
   (NextPageToken resp = [] ->
    mainLoop (S fuel) batchParams h st = (Some (h', None), st4)) /\
   (NextPageToken resp <> [] ->
    mainLoop (S fuel) batchParams h st = mainLoop fuel batchParams h' st4)).
Proof.
  intros scanned page tasks st1 st2 Hscan Hrange.
  set (K := fun c : PageCtl =>
              match c with
              | Finish result => ret result
              | Again h' => mainLoop fuel batchParams h'
              end).
  assert (Hloop : mainLoop (S fuel) batchParams h st =
                  bind (handlePage fuel batchParams h (inr resp)) K st1).
  { change (mainLoop (S fuel) batchParams h st)
      with (bind (mainLoopBody fuel batchParams h) K st).
    unfold mainLoopBody. rewrite bind_assoc.
    rewrite (bind_Some _ _ _ _ _ (call_eq _ _ _)).
    fold scanned st1. rewrite Hscan. reflexivity. }
  split.
  - intros Hp. rewrite Hloop. unfold handlePage. fold page. rewrite Hp.
    reflexivity.
  - intros Hne succ err st3 Hc h' st4.
    assert (Hgt : 0 < Z.of_nat (length page)).
    { destruct page; [congruence|simpl; lia]. }
    split.
    + destruct (collect_drained fuel batchParams (Z.of_nat (length page))
                  ltac:(unfold int_range in Hrange; lia)
                  0 0 st2 succ err st3 Hc ltac:(lia) ltac:(lia) ltac:(lia))
        as (new & Ext & Hs & He & Hr & _).
      exists new. repeat split; try lia. exact Ext.
    + assert (Hpage : handlePage fuel batchParams h (inr resp) st1 =
                      (Some (if Z.of_nat (length (NextPageToken resp)) =? 0
                             then Finish (h', None) else Again h'), st4)).
      { unfold handlePage. fold page.
        destruct (Z.leb_spec (Z.of_nat (length page)) 0) as [Hle|_]; [lia|].
        rewrite (bind_Some _ _ _ _ _ (sendAll_eq _ _)).
        fold tasks st2. rewrite (bind_Some _ _ _ _ _ Hc).
        unfold recordHeartbeat.
        rewrite (bind_Some _ _ _ _ _ (call_eq _ _ _)).
        simpl. fold h' st4.
        destruct (Z.of_nat (length (NextPageToken resp)) =? 0); reflexivity. }
      rewrite Hloop, (bind_Some _ _ _ _ _ Hpage).
      split; intros Htok.
      * rewrite Htok. reflexivity.
      * destruct (NextPageToken resp); [congruence|]. reflexivity.
Qed.

(** *** Signal *)

Lemma describeNode_no_children task applyOnChild wf rest (st : State W) wfs :
  applies applyOnChild = false ->
  fst (describeNode task applyOnChild wf rest st) = Some (Next wfs) -> wfs = rest.
Proof.
  intros Ha. unfold describeNode.
  rewrite (bind_Some _ _ _ _ _ (call_eq _ _ _)).
  destruct (fst (DescribeWorkflowExecution _ _ _)) as [e|resp].
  - destruct (isEntityNotExistsError e); simpl; congruence.
  - rewrite Ha; simpl. unfold bind, ret, recordHeartbeat, call; simpl.
    congruence.
Qed.

Lemma describeNode_false task wf rest (st : State W) :
  let d := DescribeWorkflowExecution (GetWorkflowId wf) (GetRunId wf) (world st) in
  let st1 := moved st (snd d)
               [DescribeWorkflowExecutionCall (GetWorkflowId wf) (GetRunId wf)] in
  describeNode task (Some false) wf rest st =
  match fst d with
  | inl e =>
    (Some (if isEntityNotExistsError e then Next rest else Return (Some e)), st1)
  | inr _ =>
    (Some (Next rest),
     moved st1 (RecordHeartbeat (hbd task) (snd d)) [RecordHeartbeatCall (hbd task)])
  end.
Proof.
  intros d st1. unfold describeNode.
  rewrite (bind_Some _ _ _ _ _ (call_eq _ _ _)). fold d st1.
  destruct (fst d) as [e|resp].
  - destruct (isEntityNotExistsError e); reflexivity.
  - reflexivity.
Qed.

Lemma processTask_unfold fuel task applyOnChild procFn (st : State W) :
  let w := Wait (world st) in
  let st1 := moved st (snd w) [LimiterWaitCall] in
  processTask (S fuel) task applyOnChild procFn st =
  match fst w with
  | Some e => (Some (Some e), st1)
  | None =>
    match procFn (GetWorkflowId (execution task)) (GetRunId (execution task)) st1 with
    | (Some r, st2) =>
      if fatal r then (Some r, st2)
      else bind (describeNode task applyOnChild (execution task) [])
                (walkOn fuel task applyOnChild procFn) st2
    | (None, st2) => (None, st2)
    end
  end.
Proof.
  intros w st1. unfold processTask. rewrite processTaskLoop_cons.
  unfold processTaskBody.
  rewrite bind_assoc, (bind_Some _ _ _ _ _ (call_eq _ _ _)). fold w st1.
  destruct (fst w) as [e|]; [reflexivity|].
  rewrite bind_assoc. unfold bind at 1.
  destruct (procFn _ _ st1) as [[r|] st2]; [|reflexivity].
  destruct (fatal r); reflexivity.
Qed.

Lemma dispatchTask_signal fuel batchParams task :
  BatchType batchParams = BatchTypeSignal ->
  dispatchTask fuel batchParams task =
  processTask fuel task (Some false) (signalFn batchParams).
Proof.
  intros Hs. unfold dispatchTask. rewrite Hs.
  destruct BatchType_distinct as (_ & Hts & Hcs).
  destruct (Z.eqb_spec BatchTypeSignal BatchTypeTerminate); [congruence|].
  destruct (Z.eqb_spec BatchTypeSignal BatchTypeCancel); [congruence|].
  rewrite Z.eqb_refl. reflexivity.
Qed.

(** C7. For a batch of signals, whatever [TerminateChildren] and
    [CancelChildren] are, the worker walks with the child policy [false]:
    the walk of a task returns after its first node, no pass through the
    body of the walk ever adds a workflow to the queue, and what the walk
    does is a prefix of: wait for the limiter, signal the root target,
    describe it, heartbeat.  The signal is sent exactly once when the limiter
    lets the worker through, and not at all otherwise. *)
Theorem signal_never_recurses fuel batchParams task (st : State W) :
  BatchType batchParams = BatchTypeSignal ->
  let wid := GetWorkflowId (execution task) in
  let rid := GetRunId (execution task) in
  let signal := SignalWorkflowCall wid rid (SignalName (signalParams batchParams))
                                   (Input (signalParams batchParams)) in
  let out := dispatchTask (S (S fuel)) batchParams task st in
  out = processTask (S (S fuel)) task (Some false) (signalFn batchParams) st /\
  fst out <> None /\
  (exists new,
     extends st (snd out) new /\
     new `prefix_of` [LimiterWaitCall; signal;
                      DescribeWorkflowExecutionCall wid rid;
                      RecordHeartbeatCall (hbd task)] /\
     occurrences isMutation new =
       match fst (Wait (world st)) with None => 1 | Some _ => 0 end) /\
  (forall wf rest (st' : State W) wfs,
     fst (processTaskBody task (Some false) (signalFn batchParams) wf rest st')
       = Some (Next wfs) -> wfs = rest).
Proof.
  intros Hs wid rid signal out. subst out.
  rewrite (dispatchTask_signal _ _ _ Hs).
  split; [reflexivity|].
  assert (Hq : forall wf rest (st' : State W) wfs,
     fst (processTaskBody task (Some false) (signalFn batchParams) wf rest st')
       = Some (Next wfs) -> wfs = rest).
  { intros wf rest st' wfs. unfold processTaskBody.
    rewrite (bind_Some _ _ _ _ _ (call_eq _ _ _)).
    destruct (fst (Wait (world st'))) as [e|]; [simpl; congruence|].
    unfold bind at 1.
    destruct (signalFn batchParams _ _ _) as [[err|] st2]; [|simpl; congruence].
    destruct (fatal err); [simpl; congruence|].
    apply describeNode_no_children. reflexivity. }
  set (full := [LimiterWaitCall; signal; DescribeWorkflowExecutionCall wid rid;
                RecordHeartbeatCall (hbd task)]).
  assert (Hdesc : forall st2 : State W,
            let out := bind (describeNode task (Some false) (execution task) [])
                            (walkOn (S fuel) task (Some false) (signalFn batchParams))
                            st2 in
            fst out <> None /\
            exists new, extends st2 (snd out) new /\
              [LimiterWaitCall; signal] ++ new `prefix_of` full /\
              occurrences isMutation new = 0).
  { intros st2. cbv zeta. unfold bind. rewrite describeNode_false. fold wid rid.
    destruct (fst (DescribeWorkflowExecution wid rid (world st2))) as [e|resp].
    - destruct (isEntityNotExistsError e); simpl; (split; [discriminate|]);
        exists [DescribeWorkflowExecutionCall wid rid];
        (split; [reflexivity|]);
        (split; [exists [RecordHeartbeatCall (hbd task)]; reflexivity|reflexivity]).
    - simpl. split; [discriminate|].
      exists [DescribeWorkflowExecutionCall wid rid; RecordHeartbeatCall (hbd task)].
      split; [unfold extends, moved; simpl; rewrite <- app_assoc; reflexivity|].
      split; [exists []; reflexivity|reflexivity]. }
  rewrite processTask_unfold. fold wid rid. cbv zeta.
  destruct (fst (Wait (world st))) as [e|] eqn:Hw.
  { simpl. split; [discriminate|]. split; [|exact Hq].
    exists [LimiterWaitCall]. split; [reflexivity|]. split; [|reflexivity].
    eexists; reflexivity. }
  set (st1 := moved st (snd (Wait (world st))) [LimiterWaitCall]).
  assert (Hcall := call_eq signal
            (SignalWorkflow wid rid (SignalName (signalParams batchParams))
                            (Input (signalParams batchParams))) st1).
  change (call signal _) with (signalFn batchParams wid rid) in Hcall.
  rewrite Hcall.
  set (st2 := moved st1 _ [signal]).
  assert (E2 : extends st st2 [LimiterWaitCall; signal]).
  { unfold extends, st2, st1, moved; simpl. rewrite <- app_assoc. reflexivity. }
  destruct (fatal _) eqn:Hf.
  - simpl. split; [discriminate|]. split; [|exact Hq].
    exists [LimiterWaitCall; signal]. split; [exact E2|].
    split; [eexists; reflexivity|reflexivity].
  - destruct (Hdesc st2) as (Hret & new & Ext & Hpre & Hocc).
    split; [exact Hret|]. split; [|exact Hq].
    exists ([LimiterWaitCall; signal] ++ new). split; [|split].
    + unfold extends in *. rewrite Ext, E2, <- app_assoc. reflexivity.
    + exact Hpre.
    + rewrite occurrences_app, Hocc. reflexivity.
Qed.

(** *** Retries *)

Lemma done_false (st : State W) :
  (forall w : W, fst (ctxDone w) = false) ->
  exists st', done st = (Some false, st') /\ sameChannels st st' [].
Proof.
  intros Hd. unfold done. specialize (Hd (world st)).
  destruct (ctxDone (world st)) as [b w]; simpl in Hd; subst b.
  eexists; split; [reflexivity|].
  repeat split; simpl. unfold extends; simpl. rewrite app_nil_r. reflexivity.
Qed.

(** With every mutation failing, a task costs one mutation call and comes
    back with its error. *)
Lemma dispatchTask_fails fuel batchParams task (st : State W) :
  alwaysFailing W batchParams -> supported batchParams ->
  exists e st' new,
    dispatchTask (S fuel) batchParams task st = (Some (Some e), st') /\
    (Error e ∉ _nonRetryableErrors batchParams) /\
    sameChannels st st' new /\
    occurrences isMutation new = 1.
Proof.
  intros (Hwait & _ & Ht & Hc & Hs) Hsup.
  assert (Hgen : forall applyOnChild (ev : string -> string -> Event)
                   (f : string -> string -> W -> option error * W),
            (forall a b, isMutation (ev a b) = true) ->
            (forall a b w, retryable batchParams (fst (f a b w))) ->
            exists e st' new,
              processTask (S fuel) task applyOnChild
                          (fun a b => call (ev a b) (f a b)) st
                = (Some (Some e), st') /\
              (Error e ∉ _nonRetryableErrors batchParams) /\
              sameChannels st st' new /\
              occurrences isMutation new = 1).
  { intros a ev f Hev Hf. rewrite processTask_unfold. cbv zeta.
    rewrite Hwait, call_eq.
    set (wid := GetWorkflowId (execution task)).
    set (rid := GetRunId (execution task)).
    destruct (Hf wid rid (world (moved st (snd (Wait (world st))) [LimiterWaitCall])))
      as (e & -> & Hene & Hnre).
    simpl. rewrite Hene. simpl.
    exists e. eexists. exists [LimiterWaitCall; ev wid rid].
    split; [reflexivity|]. split; [exact Hnre|]. split.
    - repeat split; simpl. unfold extends; simpl. rewrite <- app_assoc.
      reflexivity.
    - unfold occurrences; simpl. rewrite Hev. reflexivity. }
  unfold dispatchTask.
  destruct BatchType_distinct as (Htc & Hts & Hcs).
  destruct Hsup as [->|[->| ->]].
  - rewrite Z.eqb_refl.
    apply (Hgen _ (fun a b => TerminateWorkflowCall a b (Reason batchParams))
                  (fun a b => TerminateWorkflow a b (Reason batchParams)));
      [reflexivity|].
    intros a b w. apply Ht.
  - destruct (Z.eqb_spec BatchTypeCancel BatchTypeTerminate); [congruence|].
    rewrite Z.eqb_refl.
    apply (Hgen _ CancelWorkflowCall CancelWorkflow); [reflexivity|].
    intros a b w. apply Hc.
  - destruct (Z.eqb_spec BatchTypeSignal BatchTypeTerminate); [congruence|].
    destruct (Z.eqb_spec BatchTypeSignal BatchTypeCancel); [congruence|].
    rewrite Z.eqb_refl.
    apply (Hgen _ (fun a b => SignalWorkflowCall a b
                                (SignalName (signalParams batchParams))
                                (Input (signalParams batchParams)))
                  (fun a b => SignalWorkflow a b
                                (SignalName (signalParams batchParams))
                                (Input (signalParams batchParams))));
      [reflexivity|].
    intros a b w. apply Hs.
Qed.

(** What the worker does with a retryable error: it is reported, as final,
    exactly when the task has already been retried
    [AttemptsOnRetryableError] times; otherwise the task goes back to the
    task channel with one more attempt. *)
Lemma reportTask_retryable batchParams task e (st : State W) :
  Error e ∉ _nonRetryableErrors batchParams ->
  reportTask batchParams task (Some e) st =
  (Some tt,
   if AttemptsOnRetryableError batchParams <=? attempts task
   then mkState (world st) (taskCh st) (respCh st ++ [Some e]) (workers st)
                (trace st ++ [IncCounter BatcherProcessorFailures;
                              LogError "Failed to process batch operation task";
                              SendResp (Some e)])
   else mkState (world st) (taskCh st ++ [retried task]) (respCh st) (workers st)
                (trace st ++ [IncCounter BatcherProcessorFailures;
                              LogError "Failed to process batch operation task";
                              SendTask (retried task)])).
Proof.
  intros Hnre. unfold reportTask, terminal.
  rewrite bool_decide_eq_false_2 by exact Hnre. simpl.
  unfold bind, emit, sendResp, sendTask.
  destruct (AttemptsOnRetryableError batchParams <=? attempts task);
    cbn [world taskCh respCh workers trace];
    rewrite <- !app_assoc; reflexivity.
Qed.

(** One turn of a worker on a task that fails. *)
Lemma yield_fails fuel batchParams task rest m (st : State W) :
  alwaysFailing W batchParams -> supported batchParams ->
  taskCh st = task :: rest -> workers st = S m ->
  exists e st' new,
    yield (S fuel) batchParams st = (Some tt, st') /\
    workers st' = S m /\ extends st st' new /\
    occurrences isMutation new = 1 /\
    if AttemptsOnRetryableError batchParams <=? attempts task
    then taskCh st' = rest /\ respCh st' = respCh st ++ [Some e]
    else taskCh st' = rest ++ [retried task] /\ respCh st' = respCh st.
Proof.
  intros Hfail Hsup Htask Hworkers.
  pose proof Hfail as (_ & Hd & _).
  unfold yield. rewrite Hworkers. unfold startTaskProcessorStep.
  destruct (done_false st Hd) as (st1 & Hd1 & T1 & R1 & W1 & E1).
  rewrite bind_assoc, (bind_Some _ _ _ _ _ Hd1). cbv beta iota.
  set (st2 := mkState (world st1) rest (respCh st1) (workers st1)
                      (trace st1 ++ [RecvTask task])).
  assert (Hrecv : recvTask st1 = (Some (Some task), st2)).
  { unfold recvTask. rewrite T1, Htask. reflexivity. }
  rewrite bind_assoc, (bind_Some _ _ _ _ _ Hrecv). cbv beta iota.
  destruct (done_false st2 Hd) as (st3 & Hd3 & T3 & R3 & W3 & E3).
  rewrite bind_assoc, (bind_Some _ _ _ _ _ Hd3). cbv beta iota.
  destruct (dispatchTask_fails fuel batchParams task st3 Hfail Hsup)
    as (e & st4 & new & Hdisp & Hnre & (T4 & R4 & W4 & E4) & Hocc).
  rewrite bind_assoc, (bind_Some _ _ _ _ _ Hdisp).
  rewrite bind_assoc,
    (bind_Some _ _ _ _ _ (reportTask_retryable batchParams task e st4 Hnre)).
  assert (Etot : trace st4 = trace st ++ [RecvTask task] ++ new).
  { unfold extends in *. rewrite E4, E3, !app_nil_r. subst st2; simpl.
    rewrite E1, app_nil_r, <- app_assoc. reflexivity. }
  clear Hrecv Hd3 Hdisp.
  exists e.
  unfold bind, ret.
  subst st2. cbn [world taskCh respCh workers trace] in *.
  destruct (AttemptsOnRetryableError batchParams <=? attempts task);
    eexists; eexists;
    (split; [reflexivity|]); cbn [world taskCh respCh workers trace].
  - split; [congruence|]. split; [unfold extends; rewrite Etot, <- !app_assoc; reflexivity|].
    split.
    + rewrite !occurrences_app, Hocc. reflexivity.
    + split; congruence.
  - split; [congruence|]. split; [unfold extends; rewrite Etot, <- !app_assoc; reflexivity|].
    split.
    + rewrite !occurrences_app, Hocc. reflexivity.
    + split; congruence.
Qed.

Lemma retried_attempts task n :
  0 <= attempts task < n -> n < 2 ^ 63 ->
  attempts (retried task) = attempts task + 1.
Proof.
  intros Ha Hn. unfold retried, int_add; simpl.
  apply int_wrap_id. unfold int_range. lia.
Qed.

Lemma yield_no_RecvResp fuel batchParams (st : State W) r st' new :
  yield fuel batchParams st = (r, st') -> extends st st' new ->
  occurrences isRecvResp new = 0.
Proof.
  intros Hy Ext.
  destruct (framed_yield (fun _ => True) fuel batchParams st (queued_True st))
    as (_ & (new' & Ext' & Hall) & _).
  rewrite Hy in Ext'; simpl in Ext'. unfold extends in *.
  rewrite Ext in Ext'. apply app_inv_head in Ext'. subst new'.
  apply no_RecvResp. eapply Forall_impl; [exact Hall|].
  apply workerEvent_not_RecvResp.
Qed.

Lemma collect_S fuel batchParams batchCount succCount errCount :
  collect (S fuel) batchParams batchCount succCount errCount =
  bind done (fun d =>
    if d then bind (observe ctxErr) (fun e => ret (Cancelled e))
    else
      bind recvResp (fun r =>
        match r with
        | None =>
          bind (yield fuel batchParams)
               (fun _ => collect fuel batchParams batchCount succCount errCount)
        | Some err =>
          let succCount' :=
            match err with None => int_add succCount 1 | Some _ => succCount end in
          let errCount' :=
            match err with None => errCount | Some _ => int_add errCount 1 end in
          if int_add succCount' errCount' =? batchCount
          then ret (Drained succCount' errCount')
          else collect fuel batchParams batchCount succCount' errCount'
        end)).
Proof. reflexivity. Qed.

(** A page of one task in a world where every mutation fails: the task is
    tried until its attempts reach [AttemptsOnRetryableError], and the wait
    of the dispatcher ends with one error counted. *)
Lemma collect_exhausts batchParams :
  alwaysFailing W batchParams -> supported batchParams ->
  AttemptsOnRetryableError batchParams < 2 ^ 63 ->
  forall (k fuel : nat) task m (st : State W),
  0 <= attempts task ->
  attempts task + Z.of_nat k = AttemptsOnRetryableError batchParams ->
  taskCh st = [task] -> respCh st = [] -> workers st = S m ->
  exists st' new,
    collect (k + 2 + fuel) batchParams 1 0 0 st = (Some (Drained 0 1), st') /\
    extends st st' new /\
    taskCh st' = [] /\ respCh st' = [] /\
    occurrences isMutation new = Z.of_nat k + 1 /\
    occurrences isRecvResp new = 1.
Proof.
  intros Hfail Hsup Hmax.
  pose proof Hfail as (_ & Hd & _).
  induction k as [|k IH]; intros fuel task m st Hatt Hk Htask Hresp Hworkers.
  - change (0 + 2 + fuel)%nat with (S (S fuel)).
    rewrite collect_S.
    destruct (done_false st Hd) as (st1 & Hd1 & T1 & R1 & W1 & E1).
    rewrite (bind_Some _ _ _ _ _ Hd1). cbv beta iota.
    assert (Hrecv : recvResp st1 = (Some None, st1)).
    { unfold recvResp. rewrite R1, Hresp. reflexivity. }
    rewrite (bind_Some _ _ _ _ _ Hrecv). cbv beta iota.
    destruct (yield_fails fuel batchParams task [] m st1 Hfail Hsup
                ltac:(congruence) ltac:(congruence))
      as (e & st2 & new & Hy & W2 & E2 & Hocc & Hch).
    rewrite (bind_Some _ _ _ _ _ Hy).
    pose proof (yield_no_RecvResp _ _ _ _ _ _ Hy E2) as Hnr.
    destruct (Z.leb_spec (AttemptsOnRetryableError batchParams) (attempts task));
      [|lia].
    destruct Hch as [T2 R2].
    rewrite collect_S.
    destruct (done_false st2 Hd) as (st3 & Hd3 & T3 & R3 & W3 & E3).
    rewrite (bind_Some _ _ _ _ _ Hd3). cbv beta iota.
    unfold bind at 1. unfold recvResp. rewrite R3, R2, R1, Hresp. simpl.
    eexists. exists (new ++ [RecvResp (Some e)]).
    split; [reflexivity|]. cbn [world taskCh respCh workers trace].
    split; [|split; [congruence|split; [reflexivity|]]].
    + unfold extends in *. cbn [trace].
      rewrite E3, E2, E1, !app_nil_r, <- app_assoc. reflexivity.
    + rewrite !occurrences_app, Hocc, Hnr. split; reflexivity.
  - replace (S k + 2 + fuel)%nat with (S (S (k + 1 + fuel))) by lia.
    rewrite collect_S.
    destruct (done_false st Hd) as (st1 & Hd1 & T1 & R1 & W1 & E1).
    rewrite (bind_Some _ _ _ _ _ Hd1). cbv beta iota.
    assert (Hrecv : recvResp st1 = (Some None, st1)).
    { unfold recvResp. rewrite R1, Hresp. reflexivity. }
    rewrite (bind_Some _ _ _ _ _ Hrecv). cbv beta iota.
    destruct (yield_fails (k + 1 + fuel) batchParams task [] m st1 Hfail Hsup
                ltac:(congruence) ltac:(congruence))
      as (e & st2 & new & Hy & W2 & E2 & Hocc & Hch).
    rewrite (bind_Some _ _ _ _ _ Hy).
    pose proof (yield_no_RecvResp _ _ _ _ _ _ Hy E2) as Hnr.
    destruct (Z.leb_spec (AttemptsOnRetryableError batchParams) (attempts task));
      [lia|].
    destruct Hch as [T2 R2].
    replace (S (k + 1 + fuel)) with (k + 2 + fuel)%nat by lia.
    destruct (IH fuel (retried task) m st2) as (st' & new' & Hc & E' & T' & R' & Hm & Hr).
    + rewrite (retried_attempts task (AttemptsOnRetryableError batchParams)); lia.
    + rewrite (retried_attempts task (AttemptsOnRetryableError batchParams)); lia.
    + exact T2.
    + congruence.
    + exact W2.
    + exists st', (new ++ new').
      split; [exact Hc|]. split; [|split; [exact T'|split; [exact R'|]]].
      * unfold extends in *. rewrite E', E2, E1, app_nil_r, <- app_assoc.
        reflexivity.
      * rewrite !occurrences_app, Hocc, Hnr, Hm, Hr. split; lia.
Qed.

(** C2, as the code has it.  A retryable error is reported on the response
    channel exactly when the attempts of the task have reached
    [AttemptsOnRetryableError]; below that the task is sent again with one
    more attempt.  So where every mutation fails with a retryable error, a
    page of one fresh task costs [AttemptsOnRetryableError + 1] mutation
    calls (four when the parameter is 3) before the one outcome of the page,
    an error, is received and counted: the wait ends with [succCount = 0]
    and [errCount = 1], and the error count of the heartbeat state grows by
    one. *)
Theorem retry_until_attempts_reach_budget batchParams :
  alwaysFailing W batchParams -> supported batchParams ->
  let N := AttemptsOnRetryableError batchParams in
  0 <= N < 2 ^ 63 ->
  (forall task e (st : State W),
     Error e ∉ _nonRetryableErrors batchParams ->
     let st' := snd (reportTask batchParams task (Some e) st) in
     if N <=? attempts task
     then respCh st' = respCh st ++ [Some e] /\ taskCh st' = taskCh st
     else respCh st' = respCh st /\ taskCh st' = taskCh st ++ [retried task] /\
          (0 <= attempts task -> attempts (retried task) = attempts task + 1)) /\
  (forall fuel h wf m (st : State W),
     taskCh st = [newTask h wf] -> respCh st = [] -> workers st = S m ->
     exists st' new,
       collect (Z.to_nat N + 2 + fuel) batchParams 1 0 0 st
         = (Some (Drained 0 1), st') /\
       extends st st' new /\
       occurrences isMutation new = N + 1 /\
       occurrences isRecvResp new = 1 /\
       forall resp, ErrorCount (advance h resp 0 1) = int_add (ErrorCount h) 1 /\
                    SuccessCount (advance h resp 0 1) = int_add (SuccessCount h) 0).
Proof.
  intros Hfail Hsup N HN. split.
  - intros task e st Hnre st'. subst st'.
    rewrite (reportTask_retryable _ _ _ _ Hnre). cbn [snd]. fold N.
    destruct (Z.leb_spec N (attempts task)) as [Hge|Hlt];
      cbn [taskCh respCh]; repeat split.
    intros H0. apply (retried_attempts task N); lia.
  - intros fuel h wf m st Htask Hresp Hworkers.
    destruct (collect_exhausts batchParams Hfail Hsup ltac:(fold N; lia)
                (Z.to_nat N) fuel (newTask h wf) m st)
      as (st' & new & Hc & Ext & _ & _ & Hm & Hr);
      try assumption; [simpl; lia|simpl; fold N; lia|].
    exists st', new. split; [exact Hc|]. split; [exact Ext|].
    split; [rewrite Hm; lia|]. split; [exact Hr|].
    intros resp. split; reflexivity.
Qed.

(** Without a worker nothing ever arrives on the response channel: the wait
    of the dispatcher only ends when the context is done. *)
Lemma collect_without_workers fuel batchParams n s e (st : State W) :
  (forall w : W, fst (ctxDone w) = false) ->
  workers st = O -> respCh st = [] ->
  fst (collect fuel batchParams n s e st) = None.
Proof.
  intros Hd. revert st.
  induction fuel as [|fuel IH]; intros st Hw Hr; [reflexivity|].
  rewrite collect_S.
  destruct (done_false st Hd) as (st1 & Hd1 & T1 & R1 & W1 & E1).
  rewrite (bind_Some _ _ _ _ _ Hd1). cbv beta iota.
  assert (Hrecv : recvResp st1 = (Some None, st1)).
  { unfold recvResp. rewrite R1, Hr. reflexivity. }
  rewrite (bind_Some _ _ _ _ _ Hrecv). cbv beta iota.
  assert (Hy : yield fuel batchParams st1 = (Some tt, st1)).
  { unfold yield. rewrite W1, Hw. reflexivity. }
  rewrite (bind_Some _ _ _ _ _ Hy).
  apply IH; congruence.
Qed.

End EngineFacts.

(** ** The engine on the example worlds *)

Lemma transient_alwaysFailing (p : BatchParams) :
  _nonRetryableErrors p = ∅ -> alwaysFailing unit p.
Proof.
  intros Hnre.
  assert (Hr : retryable p (Some Transient.transient)).
  { exists Transient.transient. split; [reflexivity|]. split; [reflexivity|].
    rewrite Hnre. apply not_elem_of_empty. }
  repeat split; intros; exact Hr.
Qed.

(** C3, on the input [RPS = 5] with the concurrency unset: [setDefaultParams]
    leaves the concurrency at [5 / 10 = 0], not at [max(1, 5 / 10) = 1].  No
    worker is started, and on a page of one target the activity never
    returns, whatever the fuel. *)
Theorem default_concurrency_below_ten :
  let p := setDefaultParams (Scripted.params BatchTypeTerminate 5 0 0) in
  RPS p = 5 /\ Concurrency p = 0 /\ Z.max 1 (Z.quot (RPS p) 10) = 1 /\
  forall fuel, fst (BatchActivity (W:=unit) fuel p (initial tt)) = None.
Proof.
  intros p. split; [reflexivity|]. split; [reflexivity|]. split; [reflexivity|].
  intros fuel. unfold BatchActivity.
  rewrite (bind_Some _ _ (initial tt) (zeroHeartBeatDetails, true) (initial tt) eq_refl).
  cbn [fst snd]. rewrite runFrom_eq. cbv zeta.
  change (Z.to_nat (Concurrency p)) with O.
  destruct fuel as [|fuel]; [reflexivity|].
  set (h := withTotalEstimate zeroHeartBeatDetails 1).
  set (st1 := moved (initial tt) _ _).
  change (fst (bind (mainLoopBody fuel p h)
                 (fun c => match c with
                           | Finish result => ret result
                           | Again h' => mainLoop fuel p h'
                           end) st1) = None).
  unfold mainLoopBody. rewrite bind_assoc.
  rewrite (bind_Some _ _ _ _ _ (call_eq _ _ _)).
  cbn [fst ScanWorkflow Transient.env]. unfold handlePage.
  cbn [Executions length].
  change (Z.of_nat 1 <=? 0) with false. cbv iota.
  rewrite !bind_assoc.
  rewrite (bind_Some _ _ _ _ _ (sendAll_eq _ _)).
  rewrite bind_assoc. unfold bind at 1.
  match goal with |- context [collect fuel p ?n ?s ?e ?st] =>
    pose proof (collect_without_workers fuel p n s e st
                  (fun _ => eq_refl) eq_refl eq_refl) as Hc;
    destruct (collect fuel p n s e st) as [[c|] st']
  end; [discriminate Hc|reflexivity].
Qed.

(** C4, on details that are present and whose restore fails after it has
    written part of the state ([activity.GetHeartbeatDetails] decodes into
    [&hbd]).  The activity takes the path of a fresh start (the failure is
    counted and logged with "start over from beginning", the count is called
    and its answer becomes the total estimate, the restore error is not
    returned), but [hbd] is not reset: the first scan is made with the page
    token the failed restore left, and the state returned carries its page
    counter and its counts.  A fresh start in the same world scans from the
    empty token and returns the first page. *)
Theorem failed_restore_does_not_start_fresh :
  let p := setDefaultParams (Scripted.params BatchTypeTerminate 0 0 0) in
  let broken := BatchActivity 20 p (initial Scripted.partialRestore) in
  let fresh := BatchActivity 20 p (initial Scripted.nothingToRestore) in
  HasHeartbeatDetails Scripted.partialRestore = true /\
  snd (GetHeartbeatDetails zeroHeartBeatDetails Scripted.partialRestore)
    = Some (Errorf "cannot decode") /\
  firstn 3 (trace (snd broken)) =
    [IncCounter BatcherProcessorFailures;
     LogError "Failed to recover from last heartbeat, start over from beginning";
     CountWorkflowCall "query"] /\
  List.filter isScan (trace (snd broken)) =
    [ScanWorkflowCall pageSize [Byte.x54; Byte.x32] "query"] /\
  fst broken =
    Some ({| PageToken := []; CurrentPage := 3; TotalEstimate := 9;
             SuccessCount := 5; ErrorCount := 0 |}, None) /\
  List.filter isScan (trace (snd fresh)) =
    [ScanWorkflowCall pageSize [] "query"] /\
  fst fresh =
    Some ({| PageToken := []; CurrentPage := 1; TotalEstimate := 9;
             SuccessCount := 1; ErrorCount := 0 |}, None).
Proof. vm_compute. repeat split. Qed.

(** C2, as stated, fails on [AttemptsOnRetryableError = 3]: a task with
    [attempts = 2 = 3 - 1] whose mutation fails with the retryable error
    ["transient"] is not reported but sent again with [attempts = 3], and a
    run over the one target calls the mutation four times, not three,
    before it returns with [ErrorCount = 1]. *)
Lemma retry_budget_counterexample :
  let p := Scripted.params BatchTypeTerminate 50 1 3 in
  let task := {| execution := Scripted.target "root"; attempts := 2;
                 hbd := zeroHeartBeatDetails |} in
  let st' := snd (yield 5 p (mkState tt [task] [] 1%nat [])) in
  let run := BatchActivity 20 p (initial tt) in
  AttemptsOnRetryableError p - 1 <= attempts task /\
  respCh st' = [] /\
  taskCh st' = [{| execution := Scripted.target "root"; attempts := 3;
                   hbd := zeroHeartBeatDetails |}] /\
  fst run = Some ({| PageToken := []; CurrentPage := 1; TotalEstimate := 1;
                     SuccessCount := 0; ErrorCount := 1 |}, None) /\
  occurrences isMutation (trace (snd run)) = 4 /\
  occurrences isMutation (trace (snd run)) <> 3.
Proof.
  vm_compute. repeat split; discriminate.
Qed.

(** The rule of [validateParams] on a signal without a name. *)
Lemma validateParams_error_iff_witness :
  validateParams
    {| DomainName := "domain"; Query := "query"; Reason := "reason";
       BatchType := BatchTypeSignal;
       terminateParams := {| TerminateChildren := None |};
       cancelParams := {| CancelChildren := None |};
       signalParams := {| SignalName := ""; Input := "" |};
       RPS := 0; Concurrency := 0; AttemptsOnRetryableError := 0;
       ActivityHeartBeatTimeout := 0; NonRetryableErrors := [];
       _nonRetryableErrors := ∅ |} <> None.
Proof.
  apply validateParams_error_iff. right. right. right. right.
  split; reflexivity.
Defined.

(** The retry rule with [AttemptsOnRetryableError = 3] in the world of
    transient failures: four mutation calls, one error counted. *)
Lemma retry_until_attempts_reach_budget_witness :
  let p := Scripted.params BatchTypeTerminate 50 1 3 in
  let st := mkState tt [newTask zeroHeartBeatDetails (Scripted.target "root")]
                    [] 1%nat [] in
  alwaysFailing unit p /\ supported p /\
  0 <= AttemptsOnRetryableError p < 2 ^ 63 /\
  exists st' new,
    collect 5 p 1 0 0 st = (Some (Drained 0 1), st') /\
    extends st st' new /\ occurrences isMutation new = 4.
Proof.
  intros p st.
  assert (Hf : alwaysFailing unit p).
  { apply transient_alwaysFailing. reflexivity. }
  assert (Hs : supported p) by (left; reflexivity).
  assert (Hn : 0 <= AttemptsOnRetryableError p < 2 ^ 63) by (simpl; lia).
  split; [exact Hf|]. split; [exact Hs|]. split; [exact Hn|].
  destruct (retry_until_attempts_reach_budget p Hf Hs Hn) as [_ Hcount].
  destruct (Hcount O zeroHeartBeatDetails (Scripted.target "root") O st
              eq_refl eq_refl eq_refl) as (st' & new & Hc & Ext & Hm & _).
  exists st', new. split; [exact Hc|]. split; [exact Ext|exact Hm].
Defined.

(** Entry with the heartbeat of a second page: no count in the whole run.
    Entry with details that cannot be restored: the count is called, and its
    error, not the restore's, is what the activity returns. *)
Lemma activity_entry_witness :
  let p := setDefaultParams (Scripted.params BatchTypeTerminate 0 0 0) in
  let st := initial Scripted.resumed in
  let st' := initial Scripted.brokenRestore in
  (HasHeartbeatDetails (world st) = true /\
   snd (GetHeartbeatDetails zeroHeartBeatDetails (world st)) = None /\
   exists new, extends st (snd (BatchActivity 20 p st)) new /\
               Forall (fun e => isCount e = false) new) /\
  (snd (GetHeartbeatDetails zeroHeartBeatDetails (world st')) <> None /\
   fst (BatchActivity 20 p st') =
   Some (zeroHeartBeatDetails, Some (Errorf "count failed"))).
Proof.
  intros p st st'. split.
  - split; [reflexivity|]. split; [reflexivity|].
    destruct (activity_entry 20 p st) as [Hrestored _].
    destruct (Hrestored eq_refl eq_refl) as (_ & Hnew & _).
    exact Hnew.
  - assert (Hfail : snd (GetHeartbeatDetails zeroHeartBeatDetails (world st'))
                    <> None) by discriminate.
    split; [exact Hfail|].
    destruct (activity_entry 20 p st') as [_ Hfresh].
    destruct (Hfresh (or_intror Hfail)) as [Hrun _].
    rewrite Hrun. reflexivity.
Defined.

(** One pass of the main loop over the page of one target. *)
Lemma main_loop_iteration_witness :
  let p := setDefaultParams (Scripted.params BatchTypeTerminate 0 0 0) in
  let st := mkState Scripted.parentAndChild [] [] 5%nat [] in
  let resp := {| Executions := [Scripted.target "root"]; NextPageToken := [] |} in
  fst (ScanWorkflow pageSize (PageToken zeroHeartBeatDetails) (Query p) (world st))
    = inr resp /\
  int_range (Z.of_nat (length (Executions resp))) /\
  fst (mainLoop 10 p zeroHeartBeatDetails st) =
  Some ({| PageToken := []; CurrentPage := 1; TotalEstimate := 0;
           SuccessCount := 1; ErrorCount := 0 |}, None).
Proof.
  intros p st resp.
  assert (Hs : fst (ScanWorkflow pageSize (PageToken zeroHeartBeatDetails)
                      (Query p) (world st)) = inr resp) by reflexivity.
  assert (Hr : int_range (Z.of_nat (length (Executions resp)))).
  { unfold int_range; simpl; lia. }
  split; [exact Hs|]. split; [exact Hr|].
  destruct (main_loop_iteration 9 p zeroHeartBeatDetails st resp Hs Hr)
    as [_ Hpage].
  specialize (Hpage ltac:(discriminate) 1 0).
  match type of Hpage with
  | forall st3, ?c = _ -> _ =>
    assert (Hc : c = (Some (Drained 1 0), snd c)) by (vm_compute; reflexivity);
    destruct (Hpage _ Hc) as (_ & Hend & _)
  end.
  rewrite (Hend eq_refl). reflexivity.
Defined.

(** A target that is gone: both the cancel and the describe answer
    [EntityNotExists], and the walk ends without an error. *)
Lemma child_walk_errors_witness :
  let task := newTask zeroHeartBeatDetails (Scripted.target "gone") in
  let st := initial Scripted.vanished in
  let st1 := moved st Scripted.vanished [LimiterWaitCall] in
  let st2 := moved st1 Scripted.vanished [CancelWorkflowCall "gone" "run"] in
  let e := {| isEntityNotExistsError := true; Error := "not found" |} in
  call LimiterWaitCall Wait st = (Some None, st1) /\
  cancelFn "gone" "run" st1 = (Some (Some e), st2) /\
  fst (processTaskLoop 3 task (Some true) cancelFn [Scripted.target "gone"] st)
    = Some None.
Proof.
  intros task st st1 st2 e.
  assert (Hwait : call LimiterWaitCall Wait st = (Some None, st1)) by reflexivity.
  assert (Hcancel : cancelFn "gone" "run" st1 = (Some (Some e), st2))
    by reflexivity.
  split; [exact Hwait|]. split; [exact Hcancel|].
  destruct (child_walk_errors task (Some true) cancelFn (Scripted.target "gone")
              [] 2 st st1 st2 (Some e) Hwait Hcancel) as (_ & Hb & _).
  destruct (Hb e eq_refl eq_refl eq_refl) as [_ Hwalk].
  rewrite Hwalk. reflexivity.
Defined.

(** A signal to a target with a pending child, with [TerminateChildren]
    true: the walk returns after the root. *)
Lemma signal_never_recurses_witness :
  let p := setDefaultParams (Scripted.params BatchTypeSignal 0 0 0) in
  let task := newTask zeroHeartBeatDetails (Scripted.target "root") in
  let st := initial Scripted.parentAndChild in
  BatchType p = BatchTypeSignal /\
  TerminateChildren (terminateParams p) = Some true /\
  fst (dispatchTask 2 p task st) <> None.
Proof.
  intros p task st. split; [reflexivity|]. split; [reflexivity|].
  destruct (signal_never_recurses O p task st eq_refl) as (_ & Hret & _).
  exact Hret.
Defined.

(** A fresh start on a count of 1: the state returned carries 1. *)
Lemma total_estimate_written_once_witness :
  let p := setDefaultParams (Scripted.params BatchTypeTerminate 0 0 0) in
  let st := initial Scripted.parentAndChild in
  taskCh st = [] /\
  forall h', fst (runFrom 20 p zeroHeartBeatDetails true st) = Some (h', None) ->
             TotalEstimate h' = 1.
Proof.
  intros p st. split; [reflexivity|].
  destruct (total_estimate_written_once 20 p zeroHeartBeatDetails true st eq_refl)
    as [_ Hret].
  exact Hret.
Defined.

(** The scan of the second page fails after the first page was processed:
    the state returned with the error is the zero value. *)
Lemma error_return_is_zero_witness :
  let p := setDefaultParams (Scripted.params BatchTypeTerminate 0 0 0) in
  let st := initial Scripted.secondScanFails in
  exists h e,
    fst (BatchActivity 20 p st) = Some (h, Some e) /\
    In (RecordHeartbeatCall
          {| PageToken := [Byte.x31]; CurrentPage := 1; TotalEstimate := 2;
             SuccessCount := 1; ErrorCount := 0 |})
       (trace (snd (BatchActivity 20 p st))) /\
    h = zeroHeartBeatDetails.
Proof.
  intros p st.
  assert (Hrun : fst (BatchActivity 20 p st) =
                 Some (zeroHeartBeatDetails, Some (Errorf "scan failed"))).
  { vm_compute. reflexivity. }
  exists zeroHeartBeatDetails, (Errorf "scan failed").
  split; [exact Hrun|]. split.
  - vm_compute. tauto.
  - exact (error_return_is_zero 20 p st _ _ Hrun).
Defined.

(** * Beyond the claims *)

(** ** Normalisation *)

(** Normalising twice is normalising once. *)
Theorem setDefaultParams_idempotent (p : BatchParams) :
  setDefaultParams (setDefaultParams p) = setDefaultParams p.
Proof.
  unfold setDefaultParams; cbn [RPS Concurrency AttemptsOnRetryableError
    ActivityHeartBeatTimeout NonRetryableErrors _nonRetryableErrors
    terminateParams cancelParams signalParams DomainName Query Reason BatchType].
  set (rps := if RPS p <=? 0 then defaultRPS else RPS p).
  assert (Hrps : (rps <=? 0) = false).
  { subst rps. destruct (Z.leb_spec (RPS p) 0); [reflexivity|].
    apply Z.leb_gt; assumption. }
  rewrite Hrps. f_equal.
  - destruct (TerminateChildren (terminateParams p)) eqn:Ht; simpl;
      [rewrite Ht|]; reflexivity.
  - destruct (Z.leb_spec (Concurrency p) 0) as [Hle|Hgt].
    + destruct (int_div rps defaultRPSPerConcurrency <=? 0); reflexivity.
    + apply Z.leb_gt in Hgt. rewrite Hgt. reflexivity.
  - destruct (Z.leb_spec (AttemptsOnRetryableError p) 0) as [Hle|Hgt];
      [reflexivity|]. apply Z.leb_gt in Hgt. rewrite Hgt. reflexivity.
  - destruct (Z.leb_spec (ActivityHeartBeatTimeout p) 0) as [Hle|Hgt];
      [reflexivity|]. apply Z.leb_gt in Hgt. rewrite Hgt. reflexivity.
  - destruct (0 <? Z.of_nat (length (NonRetryableErrors p))); reflexivity.
Qed.

(** After normalisation the rate, the retry budget and the heartbeat timeout
    are positive and the terminate policy is set; a positive value given by
    the caller is kept, and the required fields are not touched. *)
Theorem setDefaultParams_defaults (p : BatchParams) :
  let p' := setDefaultParams p in
  (0 < RPS p' /\ 0 < AttemptsOnRetryableError p' /\
   0 < ActivityHeartBeatTimeout p' /\
   TerminateChildren (terminateParams p') <> None) /\
  (RPS p' = if RPS p <=? 0 then 50 else RPS p) /\
  (AttemptsOnRetryableError p' =
     if AttemptsOnRetryableError p <=? 0 then 50 else AttemptsOnRetryableError p) /\
  (ActivityHeartBeatTimeout p' =
     if ActivityHeartBeatTimeout p <=? 0 then 60000000000
     else ActivityHeartBeatTimeout p) /\
  (0 < Concurrency p -> Concurrency p' = Concurrency p) /\
  (forall b, TerminateChildren (terminateParams p) = Some b ->
             TerminateChildren (terminateParams p') = Some b) /\
  DomainName p' = DomainName p /\ Query p' = Query p /\ Reason p' = Reason p /\
  BatchType p' = BatchType p /\ signalParams p' = signalParams p /\
  NonRetryableErrors p' = NonRetryableErrors p.
Proof.
  intros p'. subst p'. unfold setDefaultParams; simpl.
  unfold defaultRPS, defaultAttemptsOnRetryableError,
    defaultActivityHeartBeatTimeout.
  repeat split; try reflexivity.
  - destruct (Z.leb_spec (RPS p) 0); lia.
  - destruct (Z.leb_spec (AttemptsOnRetryableError p) 0); lia.
  - destruct (Z.leb_spec (ActivityHeartBeatTimeout p) 0); lia.
  - destruct (TerminateChildren (terminateParams p)) eqn:Ht; simpl;
      [rewrite Ht|]; discriminate.
  - intros Hc. destruct (Z.leb_spec (Concurrency p) 0); [lia|reflexivity].
  - intros b Hb. rewrite Hb. exact Hb.
Qed.

(** When the caller lists non-retryable messages, the set the worker looks
    them up in holds exactly the messages of the list. *)
Theorem setDefaultParams_nonRetryable (p : BatchParams) (msg : string) :
  NonRetryableErrors p <> [] ->
  (msg ∈ _nonRetryableErrors (setDefaultParams p) <-> In msg (NonRetryableErrors p)).
Proof.
  intros Hne. unfold setDefaultParams; simpl.
  destruct (NonRetryableErrors p) as [|x l] eqn:HL; [congruence|].
  change (0 <? Z.of_nat (length (x :: l))) with true. cbv iota.
  rewrite elem_of_list_to_set. apply list_elem_of_In.
Qed.

Lemma setDefaultParams_nonRetryable_witness :
  let p := {| DomainName := "domain"; Query := "query"; Reason := "reason";
              BatchType := 0;
              terminateParams := {| TerminateChildren := None |};
              cancelParams := {| CancelChildren := None |};
              signalParams := {| SignalName := ""; Input := "" |};
              RPS := 0; Concurrency := 0; AttemptsOnRetryableError := 0;
              ActivityHeartBeatTimeout := 0;
              NonRetryableErrors := ["forbidden"; "gone"];
              _nonRetryableErrors := ∅ |} in
  NonRetryableErrors p <> [] /\
  "gone" ∈ _nonRetryableErrors (setDefaultParams p).
Proof.
  intros p. assert (Hne : NonRetryableErrors p <> []) by discriminate.
  split; [exact Hne|].
  apply (setDefaultParams_nonRetryable p "gone" Hne). right. left. reflexivity.
Defined.

Lemma validateParams_setDefaultParams `{BatchOperationTypes} (p : BatchParams) :
  validateParams (setDefaultParams p) = validateParams p.
Proof. reflexivity. Qed.

Lemma setDefaultParams_timeout_pos (p : BatchParams) :
  0 < ActivityHeartBeatTimeout (setDefaultParams p).
Proof.
  unfold setDefaultParams; simpl. unfold defaultActivityHeartBeatTimeout.
  destruct (Z.leb_spec (ActivityHeartBeatTimeout p) 0); lia.
Qed.

(** [BatchWorkflow] fails with the validation error of the request as the
    caller wrote it, and the zero state, without running the activity;
    otherwise its result is that of the activity, run on the normalised
    request with a positive heartbeat timeout. *)
Theorem BatchWorkflow_validates `{BatchOperationTypes}
    (ExecuteActivity : Z -> BatchParams -> HeartBeatDetails * option error)
    (p : BatchParams) :
  match validateParams p with
  | Some err =>
    forall other, BatchWorkflow other p = (zeroHeartBeatDetails, Some err)
  | None =>
    BatchWorkflow ExecuteActivity p =
      ExecuteActivity (ActivityHeartBeatTimeout (setDefaultParams p))
                      (setDefaultParams p) /\
    0 < ActivityHeartBeatTimeout (setDefaultParams p)
  end.
Proof.
  unfold BatchWorkflow. rewrite validateParams_setDefaultParams.
  destruct (validateParams p) as [err|]; [reflexivity|].
  split; [reflexivity|]. apply setDefaultParams_timeout_pos.
Qed.

(** ** The worker *)

Section WorkerFacts.
Context {W : Type} {E : Env W} {BT : BatchOperationTypes}.

Lemma bind_None {A B} (m : M W A) (k : A -> M W B) st st1 :
  m st = (None, st1) -> bind m k st = (None, st1).
Proof. unfold bind. intros ->. reflexivity. Qed.

Lemma keeps_ret {A} (a : A) : keepsChannels (W:=W) (ret a).
Proof. intros st. repeat split. Qed.

Lemma keeps_diverge {A} : keepsChannels (W:=W) (A:=A) diverge.
Proof. intros st. repeat split. Qed.

Lemma keeps_bind {A B} (m : M W A) (k : A -> M W B) :
  keepsChannels m -> (forall a, keepsChannels (k a)) -> keepsChannels (bind m k).
Proof.
  intros Hm Hk st. unfold bind.
  destruct (Hm st) as (T1 & R1 & W1).
  destruct (m st) as [[a|] st1]; simpl in *; [|repeat split; assumption].
  destruct (Hk a st1) as (T2 & R2 & W2).
  repeat split; congruence.
Qed.

Lemma keeps_call {A} (e : Event) (f : W -> A * W) : keepsChannels (call e f).
Proof. intros st. rewrite call_eq. repeat split. Qed.

Lemma keeps_emit (e : Event) : keepsChannels (W:=W) (emit e).
Proof. intros st. repeat split. Qed.

Lemma keeps_done : keepsChannels done.
Proof.
  intros st. unfold done. destruct (ctxDone (world st)). repeat split.
Qed.

Lemma keeps_describeNode task applyOnChild wf rest :
  keepsChannels (describeNode task applyOnChild wf rest).
Proof.
  unfold describeNode. apply keeps_bind; [apply keeps_call|].
  intros [e|resp].
  - destruct (isEntityNotExistsError e); apply keeps_ret.
  - apply keeps_bind.
    + destruct (applies applyOnChild && _); [|apply keeps_ret].
      apply keeps_bind; [apply keeps_emit|intros; apply keeps_ret].
    + intros wfs. apply keeps_bind; [apply keeps_call|intros; apply keeps_ret].
Qed.

Lemma keeps_processTaskLoop fuel task applyOnChild procFn wfs :
  (forall a b, keepsChannels (procFn a b)) ->
  keepsChannels (processTaskLoop fuel task applyOnChild procFn wfs).
Proof.
  intros Hp. revert wfs.
  induction fuel as [|fuel IH]; intros wfs; simpl; [apply keeps_diverge|].
  destruct wfs as [|wf rest]; [apply keeps_ret|].
  apply keeps_bind.
  - unfold processTaskBody. apply keeps_bind; [apply keeps_call|].
    intros [e|]; [apply keeps_ret|].
    apply keeps_bind; [apply Hp|].
    intros err. destruct (fatal err); [apply keeps_ret|].
    apply keeps_describeNode.
  - intros [wfs'|err]; [apply IH|apply keeps_ret].
Qed.

Lemma keeps_dispatchTask fuel batchParams task :
  keepsChannels (dispatchTask fuel batchParams task).
Proof.
  unfold dispatchTask, processTask.
  repeat match goal with |- context [if ?b then _ else _] => destruct b end;
    try apply keeps_ret;
    apply keeps_processTaskLoop; intros a b; apply keeps_call.
Qed.

Lemma done_channels (st : State W) :
  exists st1,
    done st = (Some (fst (ctxDone (world st))), st1) /\
    taskCh st1 = taskCh st /\ respCh st1 = respCh st /\
    workers st1 = workers st /\ trace st1 = trace st.
Proof.
  unfold done. destruct (ctxDone (world st)) as [b w]. simpl.
  eexists. split; [reflexivity|]. repeat split.
Qed.

(** What [reportTask] does to the channels. *)
Lemma reportTask_channels batchParams task err (st : State W) :
  let st' := snd (reportTask batchParams task err st) in
  fst (reportTask batchParams task err st) = Some tt /\
  workers st' = workers st /\
  ((taskCh st' = taskCh st /\ respCh st' = respCh st ++ [err] /\
    (forall e, err = Some e -> terminal batchParams task e = true)) \/
   (taskCh st' = taskCh st ++ [retried task] /\ respCh st' = respCh st /\
    exists e, err = Some e /\ terminal batchParams task e = false)).
Proof.
  unfold reportTask. destruct err as [e|].
  - unfold bind, emit, sendResp, sendTask.
    destruct (terminal batchParams task e) eqn:Ht; simpl.
    + split; [reflexivity|]. split; [reflexivity|]. left.
      repeat split. intros e' [= <-]. exact Ht.
    + split; [reflexivity|]. split; [reflexivity|]. right.
      repeat split. exists e. split; [reflexivity|exact Ht].
  - unfold bind, emit, sendResp; simpl.
    split; [reflexivity|]. split; [reflexivity|]. left.
    repeat split. intros e [=].
Qed.

(** One turn of the worker, on the channels. *)
Lemma startTaskProcessorStep_channels fuel batchParams (st : State W) :
  let out := startTaskProcessorStep fuel batchParams st in
  let st' := snd out in
  workers st' = workers st /\
  match fst out with
  | Some WorkerParked => taskCh st = [] /\ taskCh st' = [] /\ respCh st' = respCh st
  | Some WorkerLooped =>
    exists task rest, taskCh st = task :: rest /\
      ((exists r, taskCh st' = rest /\ respCh st' = respCh st ++ [r]) \/
       (taskCh st' = rest ++ [retried task] /\ respCh st' = respCh st /\
        attempts task < AttemptsOnRetryableError batchParams))
  | Some WorkerExited =>
    (exists w, fst (ctxDone w) = true) /\ respCh st' = respCh st /\
    (taskCh st' = taskCh st \/ exists task, taskCh st = task :: taskCh st')
  | None =>
    respCh st' = respCh st /\ exists task, taskCh st = task :: taskCh st'
  end.
Proof.
  intros out st'. subst st' out. unfold startTaskProcessorStep.
  destruct (done_channels st) as (st1 & Hd1 & T1 & R1 & W1 & _).
  rewrite (bind_Some _ _ _ _ _ Hd1).
  destruct (fst (ctxDone (world st))) eqn:Hdone1.
  { simpl. split; [exact W1|]. split; [eauto|]. split; [exact R1|].
    left; exact T1. }
  destruct (taskCh st1) as [|task rest] eqn:Htask.
  { assert (Hrecv : recvTask st1 = (Some None, st1)).
    { unfold recvTask. rewrite Htask. reflexivity. }
    rewrite (bind_Some _ _ _ _ _ Hrecv). simpl.
    split; [exact W1|]. split; [congruence|].
    split; [exact Htask|exact R1]. }
  set (st2 := mkState (world st1) rest (respCh st1) (workers st1)
                      (trace st1 ++ [RecvTask task])).
  assert (Hrecv : recvTask st1 = (Some (Some task), st2)).
  { unfold recvTask. rewrite Htask. reflexivity. }
  rewrite (bind_Some _ _ _ _ _ Hrecv). cbv beta iota.
  destruct (done_channels st2) as (st3 & Hd3 & T3 & R3 & W3 & _).
  rewrite (bind_Some _ _ _ _ _ Hd3).
  assert (Hst : taskCh st = task :: rest) by congruence.
  destruct (fst (ctxDone (world st2))) eqn:Hdone2.
  { simpl. split; [simpl in W3; congruence|]. split; [eauto|].
    split; [simpl in R3; congruence|]. right. exists task.
    simpl in T3. congruence. }
  pose proof (keeps_dispatchTask fuel batchParams task st3) as (T4 & R4 & W4).
  destruct (dispatchTask fuel batchParams task st3) as [[err|] st4] eqn:Hdisp;
    simpl in T4, R4, W4, T3, R3, W3.
  - rewrite (bind_Some _ _ _ _ _ Hdisp).
    pose proof (reportTask_channels batchParams task err st4)
      as (Hrep & W5 & Hch).
    destruct (reportTask batchParams task err st4) as [[[]|] st5] eqn:Hreport;
      [|simpl in Hrep; discriminate Hrep].
    rewrite (bind_Some _ _ _ _ _ Hreport).
    simpl in W5, Hch |- *.
    split; [congruence|]. exists task, rest. split; [exact Hst|].
    destruct Hch as [(T5 & R5 & _)|(T5 & R5 & e & -> & Hterm)].
    + left. exists err. split; congruence.
    + right. split; [congruence|]. split; [congruence|].
      unfold terminal in Hterm. apply orb_false_iff in Hterm as [_ Hlt].
      apply Z.leb_gt in Hlt. exact Hlt.
  - rewrite (bind_None _ _ _ _ Hdisp). simpl.
    split; [congruence|]. split; [congruence|].
    exists task. congruence.
Qed.

(** A worker that parks has answered every task that was waiting: the task
    channel is empty and the response channel has grown by one outcome per
    task that was in the task channel, retries included.  A worker only
    returns when the context is done, and then at most the one task it had
    just taken is left without an outcome. *)
Theorem worker_accounts_for_every_task fuel batchParams (st : State W) :
  let out := startTaskProcessor fuel batchParams st in
  let st' := snd out in
  workers st' = workers st /\
  match fst out with
  | Some WorkerParked =>
    taskCh st' = [] /\
    (length (respCh st') = length (respCh st) + length (taskCh st))%nat
  | Some WorkerExited =>
    (exists w, fst (ctxDone w) = true) /\
    (length (taskCh st) + length (respCh st) <=
       length (taskCh st') + length (respCh st') + 1 <=
       length (taskCh st) + length (respCh st) + 1)%nat
  | Some WorkerLooped => False
  | None => True
  end.
Proof.
  revert st. induction fuel as [|fuel IH]; intros st; [simpl; auto|].
  cbn [startTaskProcessor].
  pose proof (startTaskProcessorStep_channels fuel batchParams st) as [Hw Hstep].
  destruct (startTaskProcessorStep fuel batchParams st) as [[s|] st1] eqn:Hs;
    cbn [fst snd] in Hw, Hstep.
  - rewrite (bind_Some _ _ _ _ _ Hs).
    destruct s.
    + simpl. split; [exact Hw|].
      destruct Hstep as (Hdone & Hr & [Ht|(task & Ht)]);
        (split; [exact Hdone|]); rewrite Hr, Ht; simpl; lia.
    + simpl. destruct Hstep as (Ht & Ht' & Hr).
      split; [exact Hw|]. split; [exact Ht'|]. rewrite Hr, Ht. simpl. lia.
    + specialize (IH st1).
      destruct (startTaskProcessor fuel batchParams st1) as [[s'|] st2];
        cbn [fst snd] in IH |- *; destruct IH as [Hw2 IH];
        (split; [congruence|]); [|exact I].
      assert (Hsum : (length (taskCh st1) + length (respCh st1) =
                      length (taskCh st) + length (respCh st))%nat).
      { destruct Hstep as (task & rest & Ht & [(r & Ht1 & Hr1)|(Ht1 & Hr1 & _)]);
          rewrite Ht, Ht1, Hr1, ?length_app; simpl; lia. }
      destruct s'; [|destruct IH as [Ht2 Hl]; split; [exact Ht2|lia]|exact IH].
      destruct IH as [Hdone Hl]. split; [exact Hdone|lia].
  - rewrite (bind_None _ _ _ _ Hs). simpl. split; [exact Hw|exact I].
Qed.

(** A batch type that is none of the three costs no call at all: the task
    is answered with a nil outcome and counted as a success. *)
Theorem unsupported_type_is_success fuel batchParams task (st : State W) :
  ~ supported batchParams ->
  dispatchTask fuel batchParams task st = (Some None, st) /\
  bind (dispatchTask fuel batchParams task) (reportTask batchParams task) st =
  (Some tt,
   mkState (world st) (taskCh st) (respCh st ++ [None]) (workers st)
           (trace st ++ [IncCounter BatcherProcessorSuccess; SendResp None])).
Proof.
  intros Hns.
  assert (Hd : dispatchTask fuel batchParams task st = (Some None, st)).
  { unfold dispatchTask, supported in *.
    destruct (Z.eqb_spec (BatchType batchParams) BatchTypeTerminate); [tauto|].
    destruct (Z.eqb_spec (BatchType batchParams) BatchTypeCancel); [tauto|].
    destruct (Z.eqb_spec (BatchType batchParams) BatchTypeSignal); [tauto|].
    reflexivity. }
  split; [exact Hd|].
  rewrite (bind_Some _ _ _ _ _ Hd).
  unfold reportTask, bind, emit, sendResp; simpl.
  rewrite <- app_assoc. reflexivity.
Qed.

(** An error whose message the caller listed as non-retryable is final at
    once, whatever the attempts of the task: after normalisation of the
    request the worker sends it on the response channel and never sends the
    task again. *)
Theorem listed_error_is_final p task e (st : State W) :
  In (Error e) (NonRetryableErrors p) ->
  let st' := snd (reportTask (setDefaultParams p) task (Some e) st) in
  respCh st' = respCh st ++ [Some e] /\ taskCh st' = taskCh st.
Proof.
  intros Hin st'. subst st'.
  assert (Hterm : terminal (setDefaultParams p) task e = true).
  { unfold terminal. apply orb_true_iff. left. apply bool_decide_eq_true.
    unfold setDefaultParams; simpl.
    destruct (NonRetryableErrors p) as [|x l] eqn:HL; [destruct Hin|].
    change (0 <? Z.of_nat (length (x :: l))) with true. cbv iota.
    apply elem_of_list_to_set, list_elem_of_In. exact Hin. }
  unfold reportTask. rewrite Hterm.
  unfold bind, emit, sendResp; simpl. split; reflexivity.
Qed.

(** *** The walk, event by event *)

Lemma describeNode_eq task applyOnChild wf rest (st : State W) :
  let d := DescribeWorkflowExecution (GetWorkflowId wf) (GetRunId wf) (world st) in
  let st1 := moved st (snd d)
               [DescribeWorkflowExecutionCall (GetWorkflowId wf) (GetRunId wf)] in
  describeNode task applyOnChild wf rest st =
  match fst d with
  | inl e =>
    (Some (if isEntityNotExistsError e then Next rest else Return (Some e)), st1)
  | inr resp =>
    let grow := applies applyOnChild
                && (0 <? Z.of_nat (length (PendingChildren resp))) in
    (Some (Next (if grow
                 then rest ++ map childExecution (PendingChildren resp)
                 else rest)),
     moved st1 (RecordHeartbeat (hbd task) (snd d))
       ((if grow then [LogInfo "Found more child workflows to process"] else [])
        ++ [RecordHeartbeatCall (hbd task)]))
  end.
Proof.
  intros d st1. unfold describeNode.
  rewrite (bind_Some _ _ _ _ _ (call_eq _ _ _)). fold d st1.
  destruct (fst d) as [e|resp].
  - destruct (isEntityNotExistsError e); reflexivity.
  - cbv zeta.
    destruct (applies applyOnChild && (0 <? Z.of_nat (length (PendingChildren resp))));
      unfold bind, emit, ret, recordHeartbeat, call, moved; simpl;
      rewrite <- ?app_assoc; reflexivity.
Qed.

Lemma processTaskBody_eq task applyOnChild
    (ev : string -> string -> Event) (f : string -> string -> W -> option error * W)
    wf rest (st : State W) :
  let wid := GetWorkflowId wf in
  let rid := GetRunId wf in
  let w1 := Wait (world st) in
  let st1 := moved st (snd w1) [LimiterWaitCall] in
  let m := f wid rid (snd w1) in
  let st2 := moved st1 (snd m) [ev wid rid] in
  processTaskBody task applyOnChild (fun a b => call (ev a b) (f a b)) wf rest st =
  match fst w1 with
  | Some e => (Some (Return (Some e)), st1)
  | None =>
    if fatal (fst m) then (Some (Return (fst m)), st2)
    else describeNode task applyOnChild wf rest st2
  end.
Proof.
  intros wid rid w1 st1 m st2. unfold processTaskBody.
  rewrite (bind_Some _ _ _ _ _ (call_eq _ _ _)). fold w1 st1.
  destruct (fst w1) as [e|]; [reflexivity|].
  rewrite (bind_Some _ _ _ _ _ (call_eq _ _ _)).
  change (f (GetWorkflowId wf) (GetRunId wf) (world st1)) with m.
  fold wid rid st2. destruct (fatal (fst m)); reflexivity.
Qed.

Lemma occurrences_cons f e l :
  occurrences f (e :: l) = (if f e then 1 else 0) + occurrences f l.
Proof.
  unfold occurrences. simpl. destruct (f e); simpl; lia.
Qed.

Lemma occurrences_nil f : occurrences f [] = 0.
Proof. reflexivity. Qed.

Lemma mutation_kind e :
  isMutation e = true ->
  isWait e = false /\ isDescribe e = false /\ isHeartbeat e = false.
Proof. destruct e; simpl; intros H; try discriminate H; repeat split. Qed.

(** One pass through the body of the walk, as the list of its events. *)
Lemma processTaskBody_events task applyOnChild
    (ev : string -> string -> Event) (f : string -> string -> W -> option error * W)
    wf rest (st : State W) :
  let out := processTaskBody task applyOnChild
               (fun a b => call (ev a b) (f a b)) wf rest st in
  let m := ev (GetWorkflowId wf) (GetRunId wf) in
  let d := DescribeWorkflowExecutionCall (GetWorkflowId wf) (GetRunId wf) in
  let h := RecordHeartbeatCall (hbd task) in
  let l := LogInfo "Found more child workflows to process" in
  exists new, extends st (snd out) new /\
    match fst out with
    | Some (Next wfs) =>
      (new = [LimiterWaitCall; m; d] /\ wfs = rest) \/
      (new = [LimiterWaitCall; m; d; h] /\ wfs = rest) \/
      (new = [LimiterWaitCall; m; d; l; h] /\ applies applyOnChild = true /\
       exists cs, cs <> [] /\ wfs = rest ++ map childExecution cs)
    | Some (Return r) =>
      r <> None /\
      (new = [LimiterWaitCall] \/ new = [LimiterWaitCall; m] \/
       new = [LimiterWaitCall; m; d])
    | None => False
    end.
Proof.
  intros out m d h l. subst out. rewrite processTaskBody_eq. cbv zeta.
  destruct (fst (Wait (world st))) as [e|].
  { exists [LimiterWaitCall]. split; [reflexivity|]. simpl.
    split; [discriminate|]. left; reflexivity. }
  set (st1 := moved st _ [LimiterWaitCall]).
  set (r := f _ _ _). fold m.
  destruct (fatal (fst r)) eqn:Hf.
  { exists [LimiterWaitCall; m]. split.
    - unfold extends, moved; simpl. rewrite <- app_assoc. reflexivity.
    - simpl. split; [|right; left; reflexivity].
      destruct (fst r); [discriminate|discriminate Hf]. }
  rewrite describeNode_eq. cbv zeta. fold d.
  set (st2 := moved st1 (snd r) [m]).
  assert (E2 : forall extra w,
            extends st (moved (moved st2 w [d]) (RecordHeartbeat (hbd task) w) extra)
                    ([LimiterWaitCall; m; d] ++ extra)).
  { intros extra w. unfold extends, moved; simpl.
    rewrite <- !app_assoc. reflexivity. }
  destruct (fst (DescribeWorkflowExecution _ _ (world st2))) as [e|resp].
  - exists [LimiterWaitCall; m; d]. split.
    + unfold extends, moved; simpl. rewrite <- !app_assoc. reflexivity.
    + simpl. destruct (isEntityNotExistsError e).
      * left. split; reflexivity.
      * split; [discriminate|]. right; right; reflexivity.
  - destruct (applies applyOnChild) eqn:Ha;
      [destruct (PendingChildren resp) as [|c cs] eqn:Hcs|]; cbn [andb].
    + exists [LimiterWaitCall; m; d; h]. split; [apply (E2 [h])|].
      simpl. right. left. split; reflexivity.
    + change (0 <? Z.of_nat (length (c :: cs))) with true. cbv iota.
      exists [LimiterWaitCall; m; d; l; h]. split; [apply (E2 [l; h])|].
      simpl. right. right. split; [reflexivity|]. split; [reflexivity|].
      exists (c :: cs). split; [discriminate|reflexivity].
    + exists [LimiterWaitCall; m; d; h]. split; [apply (E2 [h])|].
      simpl. right. left. split; reflexivity.
Qed.

Ltac count_events :=
  unfold gated; rewrite ?occurrences_app, ?occurrences_cons, ?occurrences_nil;
  cbn [isWait isMutation isDescribe isHeartbeat].

Lemma walk_gated fuel task applyOnChild
    (ev : string -> string -> Event) (f : string -> string -> W -> option error * W) :
  (forall a b, isMutation (ev a b) = true) ->
  forall wfs (st : State W),
  exists new,
    extends st (snd (processTaskLoop fuel task applyOnChild
                       (fun a b => call (ev a b) (f a b)) wfs st)) new /\
    gated new.
Proof.
  intros Hev.
  assert (Hnil : gated []) by (count_events; lia).
  assert (Hext : forall st : State W, extends st st []).
  { intros st. unfold extends. rewrite app_nil_r. reflexivity. }
  induction fuel as [|fuel IH]; intros wfs st; [exists []; split; auto|].
  destruct wfs as [|wf rest]; [exists []; split; auto|].
  rewrite processTaskLoop_cons.
  pose proof (processTaskBody_events task applyOnChild ev f wf rest st)
    as (new1 & E1 & Hshape).
  set (m := ev (GetWorkflowId wf) (GetRunId wf)) in *.
  pose proof (Hev (GetWorkflowId wf) (GetRunId wf)) as Hm. fold m in Hm.
  pose proof (mutation_kind m Hm) as (Hw & Hd & Hh).
  destruct (processTaskBody _ _ _ _ _ st) as [[[wfs'|r]|] st1] eqn:Hb;
    cbn [fst snd] in E1, Hshape; [| |destruct Hshape].
  - rewrite (bind_Some _ _ _ _ _ Hb). cbn [walkOn].
    destruct (IH wfs' st1) as (new2 & E2 & (G1 & G2 & G3 & G4)).
    exists (new1 ++ new2). split.
    { unfold extends in *. rewrite E2, E1, app_assoc. reflexivity. }
    destruct Hshape as [[-> _]|[[-> _]|(-> & _)]];
      count_events; rewrite Hm, Hw, Hd, Hh; lia.
  - rewrite (bind_Some _ _ _ _ _ Hb). cbn [walkOn ret snd].
    exists new1. split; [exact E1|].
    destruct Hshape as [_ [->|[->| ->]]];
      count_events; rewrite ?Hm, ?Hw, ?Hd, ?Hh; lia.
Qed.

(** The limiter gates every mutation: among the events of a task, to its end
    or as far as the fuel goes, there are no more mutation calls than waits
    for the limiter, no more describes than mutations, no more heartbeats
    than describes, and at most one wait that no mutation followed. *)
Theorem limiter_gates_every_mutation fuel batchParams task (st : State W) :
  exists new,
    extends st (snd (dispatchTask fuel batchParams task st)) new /\
    occurrences isHeartbeat new <= occurrences isDescribe new /\
    occurrences isDescribe new <= occurrences isMutation new /\
    occurrences isMutation new <= occurrences isWait new /\
    occurrences isWait new <= occurrences isMutation new + 1.
Proof.
  unfold dispatchTask, processTask.
  destruct (BatchType batchParams =? BatchTypeTerminate).
  { apply (walk_gated fuel task _
             (fun a b => TerminateWorkflowCall a b (Reason batchParams))
             (fun a b => TerminateWorkflow a b (Reason batchParams))).
    reflexivity. }
  destruct (BatchType batchParams =? BatchTypeCancel).
  { apply (walk_gated fuel task _ CancelWorkflowCall CancelWorkflow).
    reflexivity. }
  destruct (BatchType batchParams =? BatchTypeSignal).
  { apply (walk_gated fuel task _
             (fun a b => SignalWorkflowCall a b
                           (SignalName (signalParams batchParams))
                           (Input (signalParams batchParams)))
             (fun a b => SignalWorkflow a b
                           (SignalName (signalParams batchParams))
                           (Input (signalParams batchParams)))).
    reflexivity. }
  exists []. split; [unfold extends; simpl; rewrite app_nil_r; reflexivity|].
  repeat split; unfold occurrences; simpl; lia.
Qed.

Lemma walk_single fuel task applyOnChild
    (ev : string -> string -> Event) (f : string -> string -> W -> option error * W)
    (st : State W) :
  applies applyOnChild = false ->
  let wid := GetWorkflowId (execution task) in
  let rid := GetRunId (execution task) in
  exists new,
    extends st (snd (processTask fuel task applyOnChild
                       (fun a b => call (ev a b) (f a b)) st)) new /\
    new `prefix_of` [LimiterWaitCall; ev wid rid;
                     DescribeWorkflowExecutionCall wid rid;
                     RecordHeartbeatCall (hbd task)].
Proof.
  intros Ha wid rid. unfold processTask.
  assert (Hext : forall st : State W, extends st st []).
  { intros s0. unfold extends. rewrite app_nil_r. reflexivity. }
  destruct fuel as [|fuel].
  { exists []. split; [apply Hext|]. eexists; reflexivity. }
  rewrite processTaskLoop_cons.
  pose proof (processTaskBody_events task applyOnChild ev f (execution task) [] st)
    as (new1 & E1 & Hshape).
  fold wid rid in Hshape.
  destruct (processTaskBody _ _ _ _ _ st) as [[[wfs'|r]|] st1] eqn:Hb;
    cbn [fst snd] in E1, Hshape; [| |destruct Hshape].
  - rewrite (bind_Some _ _ _ _ _ Hb). cbn [walkOn].
    assert (Hwfs : wfs' = [] /\
                   new1 `prefix_of` [LimiterWaitCall; ev wid rid;
                                     DescribeWorkflowExecutionCall wid rid;
                                     RecordHeartbeatCall (hbd task)]).
    { destruct Hshape as [[-> ->]|[[-> ->]|(_ & Hap & _)]]; [| |congruence].
      - split; [reflexivity|]. exists [RecordHeartbeatCall (hbd task)]. reflexivity.
      - split; [reflexivity|]. exists []. reflexivity. }
    destruct Hwfs as [-> Hpre].
    exists new1. split; [|exact Hpre].
    destruct fuel; exact E1.
  - rewrite (bind_Some _ _ _ _ _ Hb). cbn [walkOn ret snd].
    exists new1. split; [exact E1|].
    destruct Hshape as [_ [->|[->| ->]]]; eexists; reflexivity.
Qed.

(** With the child policy off (nil or false for the batch type at hand) a
    task never goes beyond its root: what the worker does for it is a prefix
    of one wait for the limiter, one mutation addressed to the root, one
    describe of the root and one heartbeat. *)
Theorem policy_off_stays_at_root fuel batchParams task (st : State W) :
  (BatchType batchParams = BatchTypeTerminate ->
   applies (TerminateChildren (terminateParams batchParams)) = false) ->
  (BatchType batchParams = BatchTypeCancel ->
   applies (CancelChildren (cancelParams batchParams)) = false) ->
  let wid := GetWorkflowId (execution task) in
  let rid := GetRunId (execution task) in
  exists new m,
    extends st (snd (dispatchTask fuel batchParams task st)) new /\
    isMutation m = true /\ target m = Some (wid, rid) /\
    new `prefix_of` [LimiterWaitCall; m; DescribeWorkflowExecutionCall wid rid;
                     RecordHeartbeatCall (hbd task)].
Proof.
  intros Ht Hc wid rid. unfold dispatchTask.
  destruct (Z.eqb_spec (BatchType batchParams) BatchTypeTerminate) as [Ht'|_].
  { destruct (walk_single fuel task _
                (fun a b => TerminateWorkflowCall a b (Reason batchParams))
                (fun a b => TerminateWorkflow a b (Reason batchParams)) st (Ht Ht'))
      as (new & Ext & Hpre).
    exists new, (TerminateWorkflowCall wid rid (Reason batchParams)).
    repeat split; assumption. }
  destruct (Z.eqb_spec (BatchType batchParams) BatchTypeCancel) as [Hc'|_].
  { destruct (walk_single fuel task _ CancelWorkflowCall CancelWorkflow st (Hc Hc'))
      as (new & Ext & Hpre).
    exists new, (CancelWorkflowCall wid rid). repeat split; assumption. }
  destruct (BatchType batchParams =? BatchTypeSignal).
  { destruct (walk_single fuel task (Some false)
                (fun a b => SignalWorkflowCall a b
                              (SignalName (signalParams batchParams))
                              (Input (signalParams batchParams)))
                (fun a b => SignalWorkflow a b
                              (SignalName (signalParams batchParams))
                              (Input (signalParams batchParams))) st eq_refl)
      as (new & Ext & Hpre).
    exists new, (SignalWorkflowCall wid rid (SignalName (signalParams batchParams))
                                    (Input (signalParams batchParams))).
    repeat split; assumption. }
  exists [], (CancelWorkflowCall wid rid).
  split; [unfold extends; simpl; rewrite app_nil_r; reflexivity|].
  repeat split. eexists; reflexivity.
Qed.

Lemma walk_levelOrder kids fuel task
    (ev : string -> string -> Event) (f : string -> string -> W -> option error * W) :
  (forall w : W, fst (Wait w) = None) ->
  (forall a b (w : W), fatal (fst (f a b w)) = false) ->
  (forall a b (w : W),
     fst (DescribeWorkflowExecution a b w) = inr {| PendingChildren := kids a b |}) ->
  (forall a b, isMutation (ev a b) = true /\ target (ev a b) = Some (a, b)) ->
  forall wfs (st : State W),
  let out := processTaskLoop fuel task (Some true)
               (fun a b => call (ev a b) (f a b)) wfs st in
  (fst out = None \/ fst out = Some None) /\
  exists new,
    extends st (snd out) new /\
    map target (List.filter isMutation new) = map addressOf (levelOrder kids fuel wfs).
Proof.
  intros Hwait Hmut Hdesc Hev.
  assert (Hext : forall st : State W, extends st st []).
  { intros s0. unfold extends. rewrite app_nil_r. reflexivity. }
  induction fuel as [|fuel IH]; intros wfs st out; subst out.
  { split; [left; reflexivity|]. exists []. split; [apply Hext|reflexivity]. }
  destruct wfs as [|wf rest].
  { split; [right; reflexivity|]. exists []. split; [apply Hext|reflexivity]. }
  rewrite processTaskLoop_cons.
  set (wid := GetWorkflowId wf). set (rid := GetRunId wf).
  assert (Hbody : exists st1 new1,
            processTaskBody task (Some true) (fun a b => call (ev a b) (f a b))
                            wf rest st
            = (Some (Next (rest ++ map childExecution (kids wid rid))), st1) /\
            extends st st1 new1 /\
            List.filter isMutation new1 = [ev wid rid]).
  { rewrite processTaskBody_eq. cbv zeta. rewrite Hwait, Hmut.
    rewrite describeNode_eq. cbv zeta. fold wid rid. rewrite Hdesc.
    cbn [PendingChildren applies andb].
    destruct (Hev wid rid) as [Hm _].
    destruct (kids wid rid) as [|c cs].
    - change (0 <? Z.of_nat (length (@nil PendingChildExecutionInfo))) with false.
      cbv iota. cbn [map]. rewrite app_nil_r.
      eexists. eexists. split; [reflexivity|]. split.
      + unfold extends, moved; simpl. rewrite <- !app_assoc. reflexivity.
      + simpl. rewrite Hm. reflexivity.
    - change (0 <? Z.of_nat (length (c :: cs))) with true. cbv iota.
      eexists. eexists. split; [reflexivity|]. split.
      + unfold extends, moved; simpl. rewrite <- !app_assoc. reflexivity.
      + simpl. rewrite Hm. reflexivity. }
  destruct Hbody as (st1 & new1 & Hb & E1 & Hf1).
  rewrite (bind_Some _ _ _ _ _ Hb). cbn [walkOn].
  destruct (IH (rest ++ map childExecution (kids wid rid)) st1)
    as (Hres & new2 & E2 & Hf2).
  split; [exact Hres|].
  exists (new1 ++ new2). split.
  - unfold extends in *. rewrite E2, E1, app_assoc. reflexivity.
  - rewrite List.filter_app, map_app, Hf1, Hf2. cbn [map levelOrder].
    destruct (Hev wid rid) as [_ ->]. reflexivity.
Qed.

(** With the child policy on, terminate and cancel walk the tree of pending
    children breadth first.  In a world where the limiter lets through, no
    mutation fails (other than with [EntityNotExists]) and describe reports
    the children [kids], the mutation calls of a task are addressed, in this
    order, to the workflows of the tree under its root in level order (as
    many of them as the fuel reaches), and the task never ends with an
    error. *)
Theorem walk_is_breadth_first kids fuel batchParams task (st : State W) :
  calm W kids ->
  (BatchType batchParams = BatchTypeTerminate /\
   TerminateChildren (terminateParams batchParams) = Some true) \/
  (BatchType batchParams = BatchTypeCancel /\
   CancelChildren (cancelParams batchParams) = Some true) ->
  let out := dispatchTask fuel batchParams task st in
  (fst out = None \/ fst out = Some None) /\
  exists new,
    extends st (snd out) new /\
    map target (List.filter isMutation new) =
    map addressOf (levelOrder kids fuel [execution task]).
Proof.
  intros (Hwait & Ht & Hc & _ & Hdesc) Hpolicy out. subst out.
  unfold dispatchTask, processTask.
  destruct BatchType_distinct as (Htc & _ & _).
  destruct Hpolicy as [[-> ->]|[-> ->]].
  - rewrite Z.eqb_refl.
    apply (walk_levelOrder kids fuel task
             (fun a b => TerminateWorkflowCall a b (Reason batchParams))
             (fun a b => TerminateWorkflow a b (Reason batchParams)));
      try assumption; [intros; apply Ht|intros; split; reflexivity].
  - destruct (Z.eqb_spec BatchTypeCancel BatchTypeTerminate); [congruence|].
    rewrite Z.eqb_refl.
    apply (walk_levelOrder kids fuel task CancelWorkflowCall CancelWorkflow);
      try assumption; intros; split; reflexivity.
Qed.

End WorkerFacts.

(** ** The dispatcher *)

Section DispatcherFacts.
Context {W : Type} {E : Env W} {BT : BatchOperationTypes}.

(** An empty result set.  On a fresh start whose first scan finds nothing,
    the activity returns the zero state with the count as total estimate and
    a nil error; apart from starting its workers it has only counted and
    scanned: no task was sent, no limiter asked, no mutation made and no
    heartbeat recorded. *)
Theorem empty_result_set fuel batchParams (st : State W) n resp :
  let q := Query batchParams in
  let k := Z.to_nat (Concurrency batchParams) in
  let c := CountWorkflow q (world st) in
  let s := ScanWorkflow pageSize [] q (snd c) in
  HasHeartbeatDetails (world st) = false ->
  fst c = inr n -> fst s = inr resp -> Executions resp = [] ->
  BatchActivity (S fuel) batchParams st =
  (Some ({| PageToken := []; CurrentPage := 0; TotalEstimate := n;
            SuccessCount := 0; ErrorCount := 0 |}, None),
   mkState (snd s) (taskCh st) (respCh st) (k + workers st)
           (trace st ++ [CountWorkflowCall q] ++ repeat GoStartTaskProcessor k
                     ++ [ScanWorkflowCall pageSize [] q])).
Proof.
  intros q k c s Hhas Hc Hs Hempty.
  unfold BatchActivity.
  assert (Hr : restore st = (Some (zeroHeartBeatDetails, true), st)).
  { rewrite restore_eq, Hhas. reflexivity. }
  rewrite (bind_Some _ _ _ _ _ Hr). cbn [fst snd].
  rewrite runFrom_eq. cbv zeta. fold q c. rewrite Hc.
  rewrite (bind_Some _ _ _ _ _ (spawn_eq _ _)). fold k.
  cbn [mainLoop]. unfold mainLoopBody. rewrite bind_assoc.
  rewrite (bind_Some _ _ _ _ _ (call_eq _ _ _)).
  cbn [world moved PageToken withTotalEstimate zeroHeartBeatDetails fst snd].
  fold q s. rewrite Hs. unfold handlePage. rewrite Hempty.
  cbn. unfold ret, moved. cbn [world taskCh respCh workers trace].
  do 2 f_equal. rewrite <- !app_assoc. reflexivity.
Qed.

Lemma int_wrap_add_l a b : int_wrap (int_wrap a + b) = int_wrap (a + b).
Proof.
  unfold int_wrap.
  replace ((a + 2 ^ 63) mod 2 ^ 64 - 2 ^ 63 + b + 2 ^ 63)
    with ((a + 2 ^ 63) mod 2 ^ 64 + b) by lia.
  rewrite Zplus_mod_idemp_l. f_equal. f_equal. lia.
Qed.

Lemma int_wrap_congr a a' b :
  int_wrap a = int_wrap a' -> int_wrap (a + b) = int_wrap (a' + b).
Proof.
  intros Ha. rewrite <- (int_wrap_add_l a b), Ha. apply int_wrap_add_l.
Qed.

Lemma int_wrap_idem a : int_wrap (int_wrap a) = int_wrap a.
Proof. apply int_wrap_id, int_wrap_range. Qed.

Lemma nil_and_err_resps l :
  occurrences isNilResp l + occurrences isErrResp l = occurrences isRecvResp l.
Proof.
  induction l as [|e l IH]; [reflexivity|].
  rewrite !occurrences_cons.
  destruct e as [| | | | | | | | | | | | | | |[r|]]; simpl; lia.
Qed.

Lemma worker_events_counts l :
  Forall (workerEvent (fun _ => True)) l ->
  occurrences isNilResp l = 0 /\ occurrences isErrResp l = 0 /\
  occurrences isScan l = 0.
Proof.
  induction 1 as [|e l He _ IH]; [repeat split|].
  rewrite !occurrences_cons. destruct IH as (-> & -> & ->).
  destruct e; simpl in He; try destruct He; repeat split.
Qed.

(** The wait of the dispatcher counts what it receives, modulo [2 ^ 64]. *)
Lemma collect_counts fuel batchParams n :
  forall s e (st : State W) s' e' st',
  collect fuel batchParams n s e st = (Some (Drained s' e'), st') ->
  exists new,
    extends st st' new /\
    int_wrap s' = int_wrap (s + occurrences isNilResp new) /\
    int_wrap e' = int_wrap (e + occurrences isErrResp new) /\
    occurrences isScan new = 0.
Proof.
  induction fuel as [|fuel IH]; intros s e st s' e' st' Hc; [discriminate|].
  rewrite collect_S in Hc.
  apply bind_inv in Hc as (d & st1 & Hd & Hc).
  destruct (done_channels st) as (st1' & Hd' & _ & _ & _ & Htr).
  rewrite Hd in Hd'. injection Hd' as _ <-.
  destruct d.
  { apply bind_inv in Hc as (e0 & st2 & _ & Hc). discriminate. }
  apply bind_inv in Hc as (r & st2 & Hr & Hc).
  unfold recvResp in Hr.
  destruct (respCh st1) as [|r0 rest] eqn:Hresp; injection Hr as <- <-.
  - apply bind_inv in Hc as ([] & st3 & Hy & Hc).
    destruct (framed_yield (fun _ => True) fuel batchParams st1 (queued_True st1))
      as (_ & (new2 & E2 & F2) & _).
    rewrite Hy in E2; simpl in E2.
    destruct (IH _ _ _ _ _ _ Hc) as (new3 & E3 & Hs' & He' & Hsc).
    destruct (worker_events_counts new2 F2) as (N1 & N2 & N3).
    exists (new2 ++ new3). rewrite !occurrences_app, N1, N2, N3.
    split; [|split; [exact Hs'|split; [exact He'|exact Hsc]]].
    unfold extends in *. rewrite E3, E2, Htr, app_assoc. reflexivity.
  - cbv beta iota zeta in Hc.
    set (st2 := mkState (world st1) (taskCh st1) rest (workers st1)
                        (trace st1 ++ [RecvResp r0])) in *.
    set (s1 := match r0 with None => int_add s 1 | Some _ => s end) in *.
    set (e1 := match r0 with None => e | Some _ => int_add e 1 end) in *.
    assert (Hs1 : int_wrap s1 = int_wrap (s + occurrences isNilResp [RecvResp r0]) /\
                  int_wrap e1 = int_wrap (e + occurrences isErrResp [RecvResp r0])).
    { subst s1 e1. unfold int_add.
      destruct r0; unfold occurrences; simpl; rewrite ?int_wrap_idem, ?Z.add_0_r;
        split; reflexivity. }
    destruct Hs1 as [Hs1 He1].
    destruct (int_add s1 e1 =? n) eqn:Heq.
    + injection Hc as <- <- <-.
      exists [RecvResp r0]. split; [unfold extends; simpl; rewrite Htr; reflexivity|].
      split; [exact Hs1|]. split; [exact He1|reflexivity].
    + destruct (IH _ _ _ _ _ _ Hc) as (new3 & E3 & Hs' & He' & Hsc).
      exists ([RecvResp r0] ++ new3). rewrite !occurrences_app.
      split; [unfold extends in *; rewrite E3; simpl; rewrite Htr, <- app_assoc;
              reflexivity|].
      split; [rewrite Hs', Z.add_assoc; apply int_wrap_congr, Hs1|].
      split; [rewrite He', Z.add_assoc; apply int_wrap_congr, He1|].
      rewrite Hsc; reflexivity.
Qed.

Lemma sends_counts (tasks : list taskDetail) :
  occurrences isNilResp (map SendTask tasks) = 0 /\
  occurrences isErrResp (map SendTask tasks) = 0 /\
  occurrences isScan (map SendTask tasks) = 0.
Proof.
  apply worker_events_counts. apply Forall_forall. intros e He.
  apply list_elem_of_In, in_map_iff in He as (t & <- & _). exact I.
Qed.

Lemma mainLoop_counts fuel batchParams :
  forall h (st : State W) h' st',
  mainLoop fuel batchParams h st = (Some (h', None), st') ->
  exists new,
    extends st st' new /\
    int_wrap (SuccessCount h') =
      int_wrap (SuccessCount h + occurrences isNilResp new) /\
    int_wrap (ErrorCount h') =
      int_wrap (ErrorCount h + occurrences isErrResp new) /\
    (int_wrap (CurrentPage h') = int_wrap (CurrentPage h + occurrences isScan new) \/
     int_wrap (CurrentPage h') =
       int_wrap (CurrentPage h + occurrences isScan new - 1)) /\
    (h' = h \/ (int_range (SuccessCount h') /\ int_range (ErrorCount h') /\
                int_range (CurrentPage h'))).
Proof.
  induction fuel as [|fuel IH]; intros h st h' st' Hrun; [discriminate|].
  change (mainLoop (S fuel) batchParams h st)
    with (bind (mainLoopBody fuel batchParams h)
               (fun c => match c with
                         | Finish result => ret result
                         | Again h1 => mainLoop fuel batchParams h1
                         end) st) in Hrun.
  apply bind_inv in Hrun as (c & st1 & Hbody & HK).
  unfold mainLoopBody in Hbody.
  apply bind_inv in Hbody as (r & st0 & Hscan & Hpage).
  rewrite call_eq in Hscan. injection Hscan as <- <-.
  set (scan := ScanWorkflowCall pageSize (PageToken h) (Query batchParams)) in *.
  set (st0 := moved st _ [scan]) in *.
  assert (E0 : extends st st0 [scan]) by reflexivity.
  unfold handlePage in Hpage.
  destruct (fst (ScanWorkflow _ _ _ _)) as [err|resp].
  { injection Hpage as <- <-. discriminate HK. }
  destruct (Z.of_nat (length (Executions resp)) <=? 0).
  { injection Hpage as <- <-. injection HK as <- <-.
    exists [scan]. split; [exact E0|].
    unfold occurrences; simpl. rewrite !Z.add_0_r.
    split; [reflexivity|]. split; [reflexivity|].
    split; [right; f_equal; lia|left; reflexivity]. }
  apply bind_inv in Hpage as ([] & st2 & Hsend & Hpage).
  rewrite sendAll_eq in Hsend. injection Hsend as <-.
  set (tasks := map (newTask h) (Executions resp)) in *.
  apply bind_inv in Hpage as (col & st3 & Hcol & Hpage).
  destruct col as [s e|err]; [|injection Hpage as <- <-; discriminate HK].
  apply bind_inv in Hpage as ([] & st4 & Hhb & Hpage).
  unfold recordHeartbeat in Hhb. rewrite call_eq in Hhb. injection Hhb as <-.
  destruct (collect_counts _ _ _ _ _ _ _ _ _ Hcol)
    as (newC & EC & HsC & HeC & HscC).
  rewrite Z.add_0_l in HsC, HeC.
  set (h1 := advance h resp s e) in *.
  set (pre := [scan] ++ map SendTask tasks ++ newC ++ [RecordHeartbeatCall h1]).
  destruct (sends_counts tasks) as (S1 & S2 & S3).
  assert (Hpre : occurrences isNilResp pre = occurrences isNilResp newC /\
                 occurrences isErrResp pre = occurrences isErrResp newC /\
                 occurrences isScan pre = 1).
  { subst pre. rewrite !occurrences_app, S1, S2, S3, HscC.
    unfold occurrences; simpl. repeat split; lia. }
  destruct Hpre as (P1 & P2 & P3).
  assert (Epre : forall w, extends st (moved st3 w [RecordHeartbeatCall h1]) pre).
  { intros w. unfold extends, moved in *. cbn [trace] in *. rewrite EC.
    subst pre st0. unfold moved; cbn [trace]. rewrite <- !app_assoc. reflexivity. }
  assert (H1 : int_wrap (SuccessCount h1) =
               int_wrap (SuccessCount h + occurrences isNilResp newC) /\
               int_wrap (ErrorCount h1) =
               int_wrap (ErrorCount h + occurrences isErrResp newC) /\
               int_wrap (CurrentPage h1) = int_wrap (CurrentPage h + 1)).
  { subst h1. unfold advance, int_add; simpl. rewrite !int_wrap_idem.
    split; [|split; [|reflexivity]].
    - rewrite (Z.add_comm (SuccessCount h)), (Z.add_comm (SuccessCount h)).
      apply int_wrap_congr, HsC.
    - rewrite (Z.add_comm (ErrorCount h)), (Z.add_comm (ErrorCount h)).
      apply int_wrap_congr, HeC. }
  destruct H1 as (Hs1 & He1 & Hp1).
  assert (R1 : int_range (SuccessCount h1) /\ int_range (ErrorCount h1) /\
               int_range (CurrentPage h1)).
  { subst h1. unfold advance, int_add; simpl. repeat split; apply int_wrap_range. }
  destruct (Z.of_nat (length (PageToken h1)) =? 0).
  - injection Hpage as <- <-. injection HK as <- <-.
    exists pre. split; [apply Epre|]. rewrite P1, P2, P3.
    split; [exact Hs1|]. split; [exact He1|].
    split; [left; exact Hp1|right; exact R1].
  - injection Hpage as <- <-.
    destruct (IH _ _ _ _ HK) as (new2 & E2 & Hs2 & He2 & Hp2 & Hr2).
    exists (pre ++ new2). rewrite !occurrences_app, P1, P2, P3.
    split.
    { unfold extends in *. rewrite E2, (Epre _), app_assoc. reflexivity. }
    split; [rewrite Hs2, Z.add_assoc; apply int_wrap_congr, Hs1|].
    split; [rewrite He2, Z.add_assoc; apply int_wrap_congr, He1|].
    split.
    + destruct Hp2 as [Hp2|Hp2]; [left|right]; rewrite Hp2.
      * rewrite Z.add_assoc. apply int_wrap_congr, Hp1.
      * replace (CurrentPage h + (1 + occurrences isScan new2) - 1)
          with (CurrentPage h + 1 + (occurrences isScan new2 - 1)) by lia.
        replace (CurrentPage h1 + occurrences isScan new2 - 1)
          with (CurrentPage h1 + (occurrences isScan new2 - 1)) by lia.
        apply int_wrap_congr, Hp1.
    + right. destruct Hr2 as [->|Hr2]; [exact R1|exact Hr2].
Qed.

Lemma mainLoop_TotalEstimate fuel batchParams :
  forall h (st : State W) h' st',
  mainLoop fuel batchParams h st = (Some (h', None), st') ->
  TotalEstimate h' = TotalEstimate h.
Proof.
  induction fuel as [|fuel IH]; intros h st h' st' Hrun; [discriminate|].
  change (mainLoop (S fuel) batchParams h st)
    with (bind (mainLoopBody fuel batchParams h)
               (fun c => match c with
                         | Finish result => ret result
                         | Again h1 => mainLoop fuel batchParams h1
                         end) st) in Hrun.
  apply bind_inv in Hrun as (c & st1 & Hbody & HK).
  unfold mainLoopBody in Hbody.
  apply bind_inv in Hbody as (r & st0 & _ & Hpage).
  unfold handlePage in Hpage. destruct r as [err|resp].
  { injection Hpage as <- <-. discriminate HK. }
  destruct (Z.of_nat (length (Executions resp)) <=? 0).
  { injection Hpage as <- <-. injection HK as <- <-. reflexivity. }
  apply bind_inv in Hpage as ([] & st2 & _ & Hpage).
  apply bind_inv in Hpage as (col & st3 & _ & Hpage).
  destruct col as [s e|err]; [|injection Hpage as <- <-; discriminate HK].
  apply bind_inv in Hpage as ([] & st4 & _ & Hpage).
  destruct (Z.of_nat (length (PageToken (advance h resp s e))) =? 0).
  - injection Hpage as <- <-. injection HK as <- <-. reflexivity.
  - injection Hpage as <- <-. rewrite (IH _ _ _ _ HK). reflexivity.
Qed.

(** The last pass through the main loop of a run that returns: the state
    [stk] it starts from, reached after the events [pre] of the run, the
    answer [resp] of its scan, and the events after that scan: the tasks of
    the page as they are sent, then [rest].  The page counter of the result
    is that of the entry plus the number of scans when that last page was
    not empty, and one less when it was. *)
Lemma mainLoop_pages fuel batchParams :
  forall h (st : State W) h' st',
  mainLoop fuel batchParams h st = (Some (h', None), st') ->
  exists new f hk stk resp pre rest,
    extends st st' new /\
    mainLoop (S f) batchParams hk stk = (Some (h', None), st') /\
    extends st stk pre /\
    fst (ScanWorkflow pageSize (PageToken hk) (Query batchParams) (world stk))
      = inr resp /\
    new = pre ++ [ScanWorkflowCall pageSize (PageToken hk) (Query batchParams)]
              ++ map SendTask (map (newTask hk) (Executions resp)) ++ rest /\
    occurrences isScan rest = 0 /\
    (Executions resp = [] -> rest = [] /\ h' = hk) /\
    (Executions resp <> [] -> NextPageToken resp = [] /\ rest <> []) /\
    int_wrap (CurrentPage h') =
    int_wrap (CurrentPage h + occurrences isScan new
              - match Executions resp with [] => 1 | _ => 0 end).
Proof.
  induction fuel as [|fuel IH]; intros h st h' st' Hrun; [discriminate|].
  pose proof Hrun as Hwhole.
  change (mainLoop (S fuel) batchParams h st)
    with (bind (mainLoopBody fuel batchParams h)
               (fun c => match c with
                         | Finish result => ret result
                         | Again h1 => mainLoop fuel batchParams h1
                         end) st) in Hrun.
  apply bind_inv in Hrun as (c & st1 & Hbody & HK).
  unfold mainLoopBody in Hbody.
  apply bind_inv in Hbody as (r & st0 & Hscan & Hpage).
  rewrite call_eq in Hscan. injection Hscan as <- <-.
  set (scan := ScanWorkflowCall pageSize (PageToken h) (Query batchParams)) in *.
  set (st0 := moved st _ [scan]) in *.
  assert (E0 : extends st st0 [scan]) by reflexivity.
  assert (Enil : extends st st []).
  { unfold extends. rewrite app_nil_r. reflexivity. }
  unfold handlePage in Hpage.
  destruct (fst (ScanWorkflow _ _ _ _)) as [err|resp] eqn:Hanswer.
  { injection Hpage as <- <-. discriminate HK. }
  destruct (Z.leb_spec (Z.of_nat (length (Executions resp))) 0) as [Hle|Hgt].
  { injection Hpage as <- <-. injection HK as <- <-.
    assert (Hempty : Executions resp = []).
    { destruct (Executions resp); [reflexivity|simpl in Hle; lia]. }
    exists [scan], fuel, h, st, resp, [], [].
    split; [exact E0|]. split; [exact Hwhole|]. split; [exact Enil|].
    split; [exact Hanswer|]. rewrite Hempty.
    split; [reflexivity|]. split; [reflexivity|].
    split; [intros _; split; reflexivity|]. split; [congruence|].
    unfold occurrences; simpl. f_equal. lia. }
  assert (Hfull : Executions resp <> []).
  { intros H0. rewrite H0 in Hgt. simpl in Hgt. lia. }
  apply bind_inv in Hpage as ([] & st2 & Hsend & Hpage).
  rewrite sendAll_eq in Hsend. injection Hsend as <-.
  set (tasks := map (newTask h) (Executions resp)) in *.
  apply bind_inv in Hpage as (col & st3 & Hcol & Hpage).
  destruct col as [s e|err]; [|injection Hpage as <- <-; discriminate HK].
  apply bind_inv in Hpage as ([] & st4 & Hhb & Hpage).
  unfold recordHeartbeat in Hhb. rewrite call_eq in Hhb. injection Hhb as <-.
  destruct (collect_counts _ _ _ _ _ _ _ _ _ Hcol)
    as (newC & EC & _ & _ & HscC).
  set (h1 := advance h resp s e) in *.
  set (tail := newC ++ [RecordHeartbeatCall h1]).
  set (page := [scan] ++ map SendTask tasks ++ tail).
  destruct (sends_counts tasks) as (_ & _ & S3).
  assert (Htail : occurrences isScan tail = 0).
  { subst tail. rewrite occurrences_app, HscC. reflexivity. }
  assert (Hscans : occurrences isScan page = 1).
  { subst page. rewrite !occurrences_app, S3, Htail. reflexivity. }
  assert (Epage : forall w, extends st (moved st3 w [RecordHeartbeatCall h1]) page).
  { intros w. unfold extends, moved in *. cbn [trace] in *. rewrite EC.
    subst page tail st0. unfold moved; cbn [trace]. rewrite <- !app_assoc.
    reflexivity. }
  assert (Hp1 : int_wrap (CurrentPage h1) = int_wrap (CurrentPage h + 1)).
  { subst h1. unfold advance, int_add; simpl. apply int_wrap_idem. }
  destruct (Z.of_nat (length (PageToken h1)) =? 0) eqn:Htok.
  - injection Hpage as <- <-. injection HK as <- <-.
    exists page, fuel, h, st, resp, [], tail.
    split; [apply Epage|]. split; [exact Hwhole|]. split; [exact Enil|].
    split; [exact Hanswer|]. split; [reflexivity|]. split; [exact Htail|].
    split; [intros H0; congruence|]. split.
    { intros _. split.
      - subst h1. cbn [advance PageToken] in Htok.
        destruct (NextPageToken resp); [reflexivity|discriminate Htok].
      - subst tail. destruct newC; discriminate. }
    rewrite Hscans. destruct (Executions resp); [congruence|].
    rewrite Z.sub_0_r. exact Hp1.
  - injection Hpage as <- <-.
    destruct (IH _ _ _ _ HK)
      as (new2 & f & hk & stk & resp2 & pre2 & rest2 &
          E2 & Hlast & Epre2 & Hans2 & Hnew2 & Hrest2 & Hemp2 & Hfull2 & Hp2).
    exists (page ++ new2), f, hk, stk, resp2, (page ++ pre2), rest2.
    split.
    { unfold extends in *. rewrite E2, (Epage _), app_assoc. reflexivity. }
    split; [exact Hlast|]. split.
    { unfold extends in *. rewrite Epre2, (Epage _), app_assoc. reflexivity. }
    split; [exact Hans2|]. split; [rewrite Hnew2, <- !app_assoc; reflexivity|].
    split; [exact Hrest2|]. split; [exact Hemp2|]. split; [exact Hfull2|].
    rewrite Hp2, occurrences_app, Hscans.
    replace (CurrentPage h1 + occurrences isScan new2
             - match Executions resp2 with [] => 1 | _ => 0 end)
      with (CurrentPage h1 + (occurrences isScan new2
             - match Executions resp2 with [] => 1 | _ => 0 end)) by lia.
    replace (CurrentPage h + (1 + occurrences isScan new2)
             - match Executions resp2 with [] => 1 | _ => 0 end)
      with (CurrentPage h + 1 + (occurrences isScan new2
             - match Executions resp2 with [] => 1 | _ => 0 end)) by lia.
    apply int_wrap_congr, Hp1.
Qed.

(** Every outcome is counted once.  When the main loop, entered with [h],
    returns [h'] and a nil error, the success count has grown by the number
    of nil outcomes the dispatcher received and the error count by the
    number of errors it received (in Go's arithmetic on [int]; as plain sums
    whenever those are in range), and the total estimate is unchanged.  The
    page counter has grown by the number of scans when the last scan found
    targets, and by one less when the last scan found an empty page: the
    last scan is the one of the last pass through the loop, from the state
    [stk] the run reached after the events [pre]; [resp] is its answer, the
    tasks of that page are what is sent next, and after an empty page
    nothing more happens. *)
Theorem every_outcome_is_counted fuel batchParams h (st : State W) h' st' :
  mainLoop fuel batchParams h st = (Some (h', None), st') ->
  exists new,
    extends st st' new /\
    let succ := occurrences isNilResp new in
    let err := occurrences isErrResp new in
    let scans := occurrences isScan new in
    succ + err = occurrences isRecvResp new /\
    int_wrap (SuccessCount h') = int_wrap (SuccessCount h + succ) /\
    int_wrap (ErrorCount h') = int_wrap (ErrorCount h + err) /\
    (int_range (SuccessCount h) -> int_range (SuccessCount h + succ) ->
     SuccessCount h' = SuccessCount h + succ) /\
    (int_range (ErrorCount h) -> int_range (ErrorCount h + err) ->
     ErrorCount h' = ErrorCount h + err) /\
    TotalEstimate h' = TotalEstimate h /\
    exists f hk stk resp pre rest,
      mainLoop (S f) batchParams hk stk = (Some (h', None), st') /\
      extends st stk pre /\
      fst (ScanWorkflow pageSize (PageToken hk) (Query batchParams) (world stk))
        = inr resp /\
      new = pre ++ [ScanWorkflowCall pageSize (PageToken hk) (Query batchParams)]
                ++ map SendTask (map (newTask hk) (Executions resp)) ++ rest /\
      occurrences isScan rest = 0 /\
      (Executions resp = [] -> rest = [] /\ h' = hk) /\
      (Executions resp <> [] -> NextPageToken resp = [] /\ rest <> []) /\
      int_wrap (CurrentPage h') =
      int_wrap (CurrentPage h + scans
                - match Executions resp with [] => 1 | _ => 0 end).
Proof.
  intros Hrun.
  destruct (mainLoop_counts _ _ _ _ _ _ Hrun) as (new & Ext & Hs & He & _ & Hr).
  exists new. split; [exact Ext|]. cbv zeta.
  split; [apply nil_and_err_resps|].
  split; [exact Hs|]. split; [exact He|].
  split; [|split; [|split]].
  - intros H1 H2.
    assert (int_range (SuccessCount h')).
    { destruct Hr as [->|(R1 & _)]; assumption. }
    rewrite <- (int_wrap_id (SuccessCount h')), Hs by assumption.
    apply int_wrap_id, H2.
  - intros H1 H2.
    assert (int_range (ErrorCount h')).
    { destruct Hr as [->|(_ & R2 & _)]; assumption. }
    rewrite <- (int_wrap_id (ErrorCount h')), He by assumption.
    apply int_wrap_id, H2.
  - exact (mainLoop_TotalEstimate _ _ _ _ _ _ Hrun).
  - destruct (mainLoop_pages _ _ _ _ _ _ Hrun)
      as (new2 & f & hk & stk & resp & pre & rest &
          E2 & Hlast & Epre & Hans & Hnew & Hrest & Hemp & Hfull & Hp).
    assert (Hsame : new2 = new).
    { unfold extends in *. rewrite Ext in E2. apply app_inv_head in E2.
      congruence. }
    rewrite Hsame in Hnew, Hp.
    exists f, hk, stk, resp, pre, rest.
    repeat (split; [assumption|]). exact Hp.
Qed.

(** *** When nothing fails *)

Lemma dispatchTask_succeeds fuel batchParams task (st : State W) :
  calm W childless -> supported batchParams ->
  exists st' new,
    dispatchTask (S (S fuel)) batchParams task st = (Some None, st') /\
    sameChannels st st' new /\
    map target (List.filter isMutation new) = [addressOf (execution task)].
Proof.
  intros (Hwait & Ht & Hc & Hs & Hdesc) Hsup.
  assert (Hgen : forall applyOnChild (ev : string -> string -> Event)
                   (f : string -> string -> W -> option error * W),
            (forall a b, isMutation (ev a b) = true /\
                         target (ev a b) = Some (a, b)) ->
            (forall a b w, fatal (fst (f a b w)) = false) ->
            exists st' new,
              processTask (S (S fuel)) task applyOnChild
                          (fun a b => call (ev a b) (f a b)) st
                = (Some None, st') /\
              sameChannels st st' new /\
              map target (List.filter isMutation new)
              = [addressOf (execution task)]).
  { intros a ev f Hev Hf. unfold processTask. rewrite processTaskLoop_cons.
    set (wid := GetWorkflowId (execution task)).
    set (rid := GetRunId (execution task)).
    assert (Hbody : exists st1,
              processTaskBody task a (fun a b => call (ev a b) (f a b))
                              (execution task) [] st = (Some (Next []), st1) /\
              sameChannels st st1
                [LimiterWaitCall; ev wid rid; DescribeWorkflowExecutionCall wid rid;
                 RecordHeartbeatCall (hbd task)]).
    { rewrite processTaskBody_eq. cbv zeta. rewrite Hwait, Hf.
      rewrite describeNode_eq. cbv zeta. fold wid rid. rewrite Hdesc.
      cbn [PendingChildren childless length].
      change (0 <? Z.of_nat 0) with false. rewrite andb_false_r. cbv iota.
      eexists. split; [reflexivity|].
      repeat split; simpl. unfold extends; simpl. rewrite <- !app_assoc.
      reflexivity. }
    destruct Hbody as (st1 & Hb & Hsame).
    rewrite (bind_Some _ _ _ _ _ Hb).
    exists st1. eexists. split; [reflexivity|]. split; [exact Hsame|].
    destruct (Hev wid rid) as [Hm Htgt].
    simpl. rewrite Hm. simpl. rewrite Htgt. reflexivity. }
  unfold dispatchTask.
  destruct BatchType_distinct as (Htc & Hts & Hcs).
  destruct Hsup as [->|[->| ->]].
  - rewrite Z.eqb_refl.
    apply (Hgen _ (fun a b => TerminateWorkflowCall a b (Reason batchParams))
                  (fun a b => TerminateWorkflow a b (Reason batchParams)));
      [intros; split; reflexivity|].
    intros a b w. apply Ht.
  - destruct (Z.eqb_spec BatchTypeCancel BatchTypeTerminate); [congruence|].
    rewrite Z.eqb_refl.
    apply (Hgen _ CancelWorkflowCall CancelWorkflow);
      [intros; split; reflexivity|].
    intros a b w. apply Hc.
  - destruct (Z.eqb_spec BatchTypeSignal BatchTypeTerminate); [congruence|].
    destruct (Z.eqb_spec BatchTypeSignal BatchTypeCancel); [congruence|].
    rewrite Z.eqb_refl.
    apply (Hgen _ (fun a b => SignalWorkflowCall a b
                                (SignalName (signalParams batchParams))
                                (Input (signalParams batchParams)))
                  (fun a b => SignalWorkflow a b
                                (SignalName (signalParams batchParams))
                                (Input (signalParams batchParams))));
      [intros; split; reflexivity|].
    intros a b w. apply Hs.
Qed.

(** One turn of a worker on a task that succeeds. *)
Lemma yield_succeeds fuel batchParams task rest m (st : State W) :
  calm W childless -> (forall w : W, fst (ctxDone w) = false) ->
  supported batchParams ->
  taskCh st = task :: rest -> workers st = S m ->
  exists st' new,
    yield (S (S fuel)) batchParams st = (Some tt, st') /\
    workers st' = S m /\ extends st st' new /\
    map target (List.filter isMutation new) = [addressOf (execution task)] /\
    taskCh st' = rest /\ respCh st' = respCh st ++ [None].
Proof.
  intros Hcalm Hd Hsup Htask Hworkers.
  unfold yield. rewrite Hworkers. unfold startTaskProcessorStep.
  destruct (done_false st Hd) as (st1 & Hd1 & T1 & R1 & W1 & E1).
  rewrite bind_assoc, (bind_Some _ _ _ _ _ Hd1). cbv beta iota.
  set (st2 := mkState (world st1) rest (respCh st1) (workers st1)
                      (trace st1 ++ [RecvTask task])).
  assert (Hrecv : recvTask st1 = (Some (Some task), st2)).
  { unfold recvTask. rewrite T1, Htask. reflexivity. }
  rewrite bind_assoc, (bind_Some _ _ _ _ _ Hrecv). cbv beta iota.
  destruct (done_false st2 Hd) as (st3 & Hd3 & T3 & R3 & W3 & E3).
  rewrite bind_assoc, (bind_Some _ _ _ _ _ Hd3). cbv beta iota.
  destruct (dispatchTask_succeeds fuel batchParams task st3 Hcalm Hsup)
    as (st4 & new & Hdisp & (T4 & R4 & W4 & E4) & Hocc).
  rewrite bind_assoc, (bind_Some _ _ _ _ _ Hdisp).
  assert (Etot : trace st4 = trace st ++ [RecvTask task] ++ new).
  { unfold extends in *. rewrite E4, E3, !app_nil_r. subst st2; simpl.
    rewrite E1, app_nil_r, <- app_assoc. reflexivity. }
  clear Hrecv Hd3 Hdisp.
  unfold bind, ret, reportTask, emit, sendResp.
  subst st2. cbn [world taskCh respCh workers trace fst snd] in *.
  eexists. exists ([RecvTask task] ++ new ++
                   [IncCounter BatcherProcessorSuccess; SendResp None]).
  split; [reflexivity|]. cbn [world taskCh respCh workers trace].
  split; [congruence|]. split.
  { unfold extends; cbn [trace]. rewrite Etot, <- !app_assoc. reflexivity. }
  split.
  { rewrite !List.filter_app. simpl. rewrite app_nil_r. exact Hocc. }
  split; congruence.
Qed.

(** The wait of the dispatcher on a queue of tasks that all succeed: two
    turns of the [select] per task. *)
Lemma collect_successes batchParams n :
  calm W childless -> (forall w : W, fst (ctxDone w) = false) ->
  supported batchParams -> n < 2 ^ 63 ->
  forall tasks fuel s m (st : State W),
  tasks <> [] -> 0 <= s -> s + Z.of_nat (length tasks) = n ->
  taskCh st = tasks -> respCh st = [] -> workers st = S m ->
  exists st' new,
    collect (2 * length tasks + 1 + fuel) batchParams n s 0 st
      = (Some (Drained n 0), st') /\
    extends st st' new /\
    taskCh st' = [] /\ respCh st' = [] /\ workers st' = S m /\
    map target (List.filter isMutation new) =
      map (fun t => addressOf (execution t)) tasks /\
    occurrences isNilResp new = Z.of_nat (length tasks) /\
    occurrences isErrResp new = 0.
Proof.
  intros Hcalm Hd Hsup Hn.
  induction tasks as [|task rest IH]; intros fuel s m st Hne Hs Hsum Htask Hresp Hw;
    [congruence|].
  cbn [length] in Hsum.
  replace (2 * length (task :: rest) + 1 + fuel)%nat
    with (S (S (S (2 * length rest + fuel)))) by (simpl; lia).
  rewrite collect_S.
  destruct (done_false st Hd) as (st1 & Hd1 & T1 & R1 & W1 & E1).
  rewrite (bind_Some _ _ _ _ _ Hd1). cbv beta iota.
  assert (Hrecv : recvResp st1 = (Some None, st1)).
  { unfold recvResp. rewrite R1, Hresp. reflexivity. }
  rewrite (bind_Some _ _ _ _ _ Hrecv). cbv beta iota.
  destruct (yield_succeeds (2 * length rest + fuel) batchParams task rest m st1
              Hcalm Hd Hsup ltac:(congruence) ltac:(congruence))
    as (st2 & new & Hy & W2 & E2 & Hocc & T2 & R2).
  rewrite (bind_Some _ _ _ _ _ Hy).
  pose proof (yield_no_RecvResp _ _ _ _ _ _ Hy E2) as Hnr.
  assert (Hnil : occurrences isNilResp new = 0 /\ occurrences isErrResp new = 0).
  { pose proof (nil_and_err_resps new) as Hsplit.
    pose proof (occurrences_nonneg isNilResp new).
    pose proof (occurrences_nonneg isErrResp new). lia. }
  destruct Hnil as [Hnil Herr].
  rewrite collect_S.
  destruct (done_false st2 Hd) as (st3 & Hd3 & T3 & R3 & W3 & E3).
  rewrite (bind_Some _ _ _ _ _ Hd3). cbv beta iota.
  set (st4 := mkState (world st3) (taskCh st3) [] (workers st3)
                      (trace st3 ++ [RecvResp None])).
  assert (Hrecv3 : recvResp st3 = (Some (Some None), st4)).
  { unfold recvResp. rewrite R3, R2, R1, Hresp. reflexivity. }
  rewrite (bind_Some _ _ _ _ _ Hrecv3). cbv beta iota zeta.
  assert (Hadd : int_add (int_add s 1) 0 = s + 1).
  { unfold int_add. rewrite Z.add_0_r, int_wrap_idem.
    apply int_wrap_id. unfold int_range. lia. }
  assert (Hadd1 : int_add s 1 = s + 1).
  { unfold int_add. apply int_wrap_id. unfold int_range. lia. }
  rewrite Hadd, Hadd1.
  assert (E4 : extends st st4 (new ++ [RecvResp None])).
  { unfold extends in *. subst st4; cbn [trace].
    rewrite E3, E2, E1, !app_nil_r, <- app_assoc. reflexivity. }
  destruct rest as [|task' rest'].
  - cbn [length] in Hsum |- *.
    destruct (Z.eqb_spec (s + 1) n) as [Heq|Hneq]; [|lia].
    exists st4, (new ++ [RecvResp None]).
    rewrite Heq. split; [reflexivity|]. split; [exact E4|].
    subst st4; cbn [taskCh respCh workers].
    split; [congruence|]. split; [reflexivity|]. split; [congruence|].
    split.
    { rewrite List.filter_app. simpl. rewrite app_nil_r. exact Hocc. }
    rewrite !occurrences_app, Hnil, Herr. repeat split.
  - destruct (Z.eqb_spec (s + 1) n) as [Heq|Hneq]; [cbn [length] in Hsum; lia|].
    destruct (IH fuel (s + 1) m st4) as (st' & new' & Hc & E' & T' & R' & W' & Hm & Hnl & Her).
    + discriminate.
    + lia.
    + lia.
    + subst st4; cbn [taskCh]. congruence.
    + reflexivity.
    + subst st4; cbn [workers]. congruence.
    + replace (S (2 * length (task' :: rest') + fuel))
        with (2 * length (task' :: rest') + 1 + fuel)%nat by lia.
      exists st', ((new ++ [RecvResp None]) ++ new').
      split; [exact Hc|]. split.
      { unfold extends in *. rewrite E', E4, <- !app_assoc. reflexivity. }
      split; [exact T'|]. split; [exact R'|]. split; [exact W'|].
      split.
      { rewrite !List.filter_app, !map_app, Hocc, Hm. simpl. reflexivity. }
      rewrite !occurrences_app, Hnil, Herr, Hnl, Her.
      change (length (task :: task' :: rest')) with (S (length (task' :: rest'))).
      unfold occurrences; simpl; repeat split; lia.
Qed.

(** A last page on which nothing fails.  In a world where the limiter lets
    through, no mutation fails (other than with [EntityNotExists]), no
    workflow has a pending child and the context is never done, one worker
    is enough: when the scan answers with a non-empty page and no next page
    token, the main loop returns, with a nil error, the state it was entered
    with, one page further and with the whole page added to the success
    count; the mutation calls of the run are addressed to the targets of the
    page, one call per target and in the order of the page, and both
    channels are left empty. *)
Theorem last_page_all_succeed fuel batchParams h (st : State W) resp :
  calm W childless -> (forall w : W, fst (ctxDone w) = false) ->
  supported batchParams ->
  let N := length (Executions resp) in
  fst (ScanWorkflow pageSize (PageToken h) (Query batchParams) (world st))
    = inr resp ->
  Executions resp <> [] -> NextPageToken resp = [] -> Z.of_nat N < 2 ^ 63 ->
  taskCh st = [] -> respCh st = [] -> workers st <> O ->
  exists st' new,
    mainLoop (S (2 * N + 1 + fuel)) batchParams h st =
    (Some ({| PageToken := [];
              CurrentPage := int_add (CurrentPage h) 1;
              TotalEstimate := TotalEstimate h;
              SuccessCount := int_add (SuccessCount h) (Z.of_nat N);
              ErrorCount := int_add (ErrorCount h) 0 |}, None), st') /\
    extends st st' new /\
    map target (List.filter isMutation new) = map addressOf (Executions resp) /\
    occurrences isMutation new = Z.of_nat N /\
    occurrences isNilResp new = Z.of_nat N /\
    occurrences isErrResp new = 0 /\
    taskCh st' = [] /\ respCh st' = [].
Proof.
  intros Hcalm Hd Hsup N Hscan Hne Htok HN Htask Hresp Hw.
  destruct (workers st) as [|m] eqn:Hm; [congruence|]. clear Hw.
  set (F := (2 * N + 1 + fuel)%nat).
  set (K := fun c : PageCtl =>
              match c with
              | Finish result => ret result
              | Again h' => mainLoop F batchParams h'
              end).
  change (mainLoop (S F) batchParams h st)
    with (bind (mainLoopBody F batchParams h) K st).
  unfold mainLoopBody. rewrite bind_assoc.
  rewrite (bind_Some _ _ _ _ _ (call_eq _ _ _)). rewrite Hscan.
  set (st1 := moved st _ _).
  unfold handlePage. fold N.
  destruct (Z.leb_spec (Z.of_nat N) 0) as [Hle|_].
  { subst N. destruct (Executions resp); [congruence|simpl in Hle; lia]. }
  rewrite !bind_assoc.
  rewrite (bind_Some _ _ _ _ _ (sendAll_eq _ _)).
  set (tasks := map (newTask h) (Executions resp)).
  set (st2 := mkState _ _ _ _ _).
  assert (Hlen : length tasks = N) by apply length_map.
  destruct (collect_successes batchParams (Z.of_nat N) Hcalm Hd Hsup HN
              tasks fuel 0 m st2)
    as (st3 & new & Hc & E3 & T3 & R3 & W3 & Hocc & Hnil & Herr).
  { subst tasks. destruct (Executions resp); [congruence|discriminate]. }
  { lia. }
  { rewrite Hlen. lia. }
  { subst st2 st1. cbn [taskCh moved]. rewrite Htask. reflexivity. }
  { subst st2 st1. cbn [respCh moved]. exact Hresp. }
  { subst st2 st1. cbn [workers moved]. exact Hm. }
  rewrite Hlen in Hc. fold F in Hc.
  rewrite bind_assoc, (bind_Some _ _ _ _ _ Hc).
  unfold recordHeartbeat.
  rewrite bind_assoc, (bind_Some _ _ _ _ _ (call_eq _ _ _)).
  cbn [advance PageToken fst snd]. rewrite Htok.
  change (Z.of_nat (length (@nil Byte.byte)) =? 0) with true. cbv iota.
  unfold bind, ret, K. cbn [fst snd].
  eexists.
  exists ([ScanWorkflowCall pageSize (PageToken h) (Query batchParams)]
          ++ map SendTask tasks ++ new ++
          [RecordHeartbeatCall (advance h resp (Z.of_nat N) 0)]).
  split; [unfold advance; rewrite Htok; reflexivity|].
  split.
  { unfold extends in *. unfold moved; cbn [trace]. rewrite E3.
    subst st2 st1. unfold moved, advance; cbn [trace]. rewrite Htok.
    rewrite <- !app_assoc. reflexivity. }
  assert (Hsend : forall f (l : list taskDetail),
            (forall t, f (SendTask t) = false) ->
            occurrences f (map SendTask l) = 0).
  { intros f l Hf. unfold occurrences.
    induction l as [|t ts IHt]; [reflexivity|]. simpl. rewrite Hf. exact IHt. }
  rewrite Hlen in Hnil.
  assert (Hnone : List.filter isMutation (map SendTask tasks) = []).
  { apply length_zero_iff_nil.
    pose proof (Hsend isMutation tasks (fun _ => eq_refl)) as H0.
    unfold occurrences in H0. lia. }
  assert (Haddr : map target
                    (List.filter isMutation
                       ([ScanWorkflowCall pageSize (PageToken h) (Query batchParams)]
                        ++ map SendTask tasks ++ new ++
                        [RecordHeartbeatCall (advance h resp (Z.of_nat N) 0)]))
                  = map addressOf (Executions resp)).
  { rewrite !List.filter_app, Hnone. simpl. rewrite app_nil_r, Hocc.
    subst tasks. rewrite map_map. reflexivity. }
  split; [exact Haddr|].
  split; [|split; [|split]].
  - unfold occurrences.
    rewrite <- (length_map target), Haddr, length_map. reflexivity.
  - rewrite !occurrences_app, Hnil, (Hsend isNilResp) by reflexivity.
    rewrite !occurrences_cons, !occurrences_nil. cbn [isNilResp]. lia.
  - rewrite !occurrences_app, Herr, (Hsend isErrResp) by reflexivity.
    rewrite !occurrences_cons, !occurrences_nil. cbn [isErrResp]. lia.
  - unfold moved; cbn [taskCh respCh]. split; assumption.
Qed.

(** Without a worker the activity hangs.  When no worker runs (the
    concurrency is zero or negative) and the context is never done, a scan
    that finds a non-empty page is the last thing that happens: the tasks are
    sent and the dispatcher waits for outcomes that never come, whatever the
    fuel. *)
Theorem no_worker_never_returns fuel batchParams h (st : State W) resp :
  (forall w : W, fst (ctxDone w) = false) ->
  workers st = O -> respCh st = [] ->
  fst (ScanWorkflow pageSize (PageToken h) (Query batchParams) (world st))
    = inr resp ->
  Executions resp <> [] ->
  fst (mainLoop fuel batchParams h st) = None.
Proof.
  intros Hd Hw Hresp Hscan Hne.
  destruct fuel as [|fuel]; [reflexivity|].
  set (K := fun c : PageCtl =>
              match c with
              | Finish result => ret result
              | Again h' => mainLoop fuel batchParams h'
              end).
  change (mainLoop (S fuel) batchParams h st)
    with (bind (mainLoopBody fuel batchParams h) K st).
  unfold mainLoopBody. rewrite bind_assoc.
  rewrite (bind_Some _ _ _ _ _ (call_eq _ _ _)). rewrite Hscan.
  unfold handlePage.
  destruct (Z.leb_spec (Z.of_nat (length (Executions resp))) 0) as [Hle|_].
  { destruct (Executions resp); [congruence|simpl in Hle; lia]. }
  rewrite !bind_assoc.
  rewrite (bind_Some _ _ _ _ _ (sendAll_eq _ _)).
  rewrite bind_assoc. unfold bind at 1.
  match goal with |- context [collect fuel batchParams ?n ?s ?e ?st0] =>
    pose proof (collect_without_workers fuel batchParams n s e st0 Hd Hw Hresp)
      as Hc;
    destruct (collect fuel batchParams n s e st0) as [[c|] st']
  end; [discriminate Hc|reflexivity].
Qed.

End DispatcherFacts.

(** ** The properties on the example worlds *)

(** A batch type 7 on the target ["root"]: nothing is called. *)
Lemma unsupported_type_is_success_witness :
  let p := Scripted.params 7 0 0 0 in
  let task := newTask zeroHeartBeatDetails (Scripted.target "root") in
  let st := initial Scripted.parentAndChild in
  ~ supported p /\ dispatchTask 5 p task st = (Some None, st).
Proof.
  intros p task st.
  assert (Hns : ~ supported p).
  { unfold supported. intros [H|[H|H]]; discriminate H. }
  split; [exact Hns|].
  exact (proj1 (unsupported_type_is_success 5 p task st Hns)).
Defined.

(** The error ["forbidden"], listed by the caller, on a fresh task. *)
Lemma listed_error_is_final_witness :
  let p := {| DomainName := "domain"; Query := "query"; Reason := "reason";
              BatchType := BatchTypeTerminate;
              terminateParams := {| TerminateChildren := None |};
              cancelParams := {| CancelChildren := None |};
              signalParams := {| SignalName := ""; Input := "" |};
              RPS := 0; Concurrency := 0; AttemptsOnRetryableError := 0;
              ActivityHeartBeatTimeout := 0;
              NonRetryableErrors := ["forbidden"];
              _nonRetryableErrors := ∅ |} in
  let task := newTask zeroHeartBeatDetails (Scripted.target "root") in
  let e := Errorf "forbidden" in
  let st := initial Scripted.parentAndChild in
  In (Error e) (NonRetryableErrors p) /\
  respCh (snd (reportTask (setDefaultParams p) task (Some e) st)) = [Some e].
Proof.
  intros p task e st.
  assert (Hin : In (Error e) (NonRetryableErrors p)) by (left; reflexivity).
  split; [exact Hin|].
  exact (proj1 (listed_error_is_final p task e st Hin)).
Defined.

(** A cancel with [CancelChildren] nil on a target with a pending child. *)
Lemma policy_off_stays_at_root_witness :
  let p := Scripted.params BatchTypeCancel 0 0 0 in
  let task := newTask zeroHeartBeatDetails (Scripted.target "root") in
  let st := initial Scripted.parentAndChild in
  applies (CancelChildren (cancelParams p)) = false /\
  exists new m,
    extends st (snd (dispatchTask 9 p task st)) new /\
    isMutation m = true /\ target m = Some ("root", "run") /\
    new `prefix_of` [LimiterWaitCall; m; DescribeWorkflowExecutionCall "root" "run";
                     RecordHeartbeatCall zeroHeartBeatDetails].
Proof.
  intros p task st. split; [reflexivity|].
  apply (policy_off_stays_at_root 9 p task st).
  - intros H; discriminate H.
  - intros _; reflexivity.
Defined.

Lemma family_calm : calm Family.family Family.kids.
Proof. repeat split. Qed.

(** A terminate with [TerminateChildren] defaulted to true on the root of
    the family: the root, its two children, then its grandchild. *)
Lemma walk_is_breadth_first_witness :
  let p := setDefaultParams (Scripted.params BatchTypeTerminate 0 0 0) in
  let task := newTask zeroHeartBeatDetails (Scripted.target "root") in
  let st := initial Family.Home in
  calm Family.family Family.kids /\
  exists new,
    extends st (snd (dispatchTask 9 p task st)) new /\
    map target (List.filter isMutation new) =
    [Some ("root", "run"); Some ("a", "run"); Some ("b", "run"); Some ("c", "run")].
Proof.
  intros p task st. split; [exact family_calm|].
  destruct (walk_is_breadth_first Family.kids 9 p task st family_calm
              (or_introl (conj eq_refl eq_refl))) as [_ (new & Ext & Hm)].
  exists new. split; [exact Ext|]. rewrite Hm. reflexivity.
Defined.

(** A query that finds nothing, with five workers started. *)
Lemma empty_result_set_witness :
  let p := setDefaultParams (Scripted.params BatchTypeTerminate 0 0 0) in
  let st := initial Scripted.vanished in
  HasHeartbeatDetails (world st) = false /\
  fst (BatchActivity 1 p st) =
  Some ({| PageToken := []; CurrentPage := 0; TotalEstimate := 1;
           SuccessCount := 0; ErrorCount := 0 |}, None).
Proof.
  intros p st.
  set (resp := {| Executions := []; NextPageToken := [] |}).
  assert (Hhas : HasHeartbeatDetails (world st) = false) by reflexivity.
  assert (Hc : fst (CountWorkflow (Query p) (world st)) = inr 1) by reflexivity.
  assert (Hs : fst (ScanWorkflow pageSize [] (Query p)
                      (snd (CountWorkflow (Query p) (world st)))) = inr resp)
    by reflexivity.
  split; [exact Hhas|].
  rewrite (empty_result_set O p st 1 resp Hhas Hc Hs eq_refl).
  reflexivity.
Defined.

(** One page of one target whose mutation fails with a retryable error, on
    a budget of three attempts: one error received, one error counted, one
    scan, one page. *)
Lemma every_outcome_is_counted_witness :
  let p := Scripted.params BatchTypeTerminate 50 1 3 in
  let st := mkState tt [] [] 1%nat [] in
  let out := mainLoop 20 p zeroHeartBeatDetails st in
  let h' := {| PageToken := []; CurrentPage := 1; TotalEstimate := 0;
               SuccessCount := 0; ErrorCount := 1 |} in
  out = (Some (h', None), snd out) /\
  exists new,
    extends st (snd out) new /\
    occurrences isNilResp new + occurrences isErrResp new
    = occurrences isRecvResp new /\
    int_wrap (ErrorCount h') =
    int_wrap (ErrorCount zeroHeartBeatDetails + occurrences isErrResp new) /\
    exists resp,
      int_wrap (CurrentPage h') =
      int_wrap (CurrentPage zeroHeartBeatDetails + occurrences isScan new
                - match Executions resp with [] => 1 | _ => 0 end).
Proof.
  intros p st out h'.
  assert (Hrun : out = (Some (h', None), snd out)).
  { vm_compute. reflexivity. }
  split; [exact Hrun|].
  destruct (every_outcome_is_counted 20 p zeroHeartBeatDetails st _ _ Hrun)
    as (new & Ext & Hsum & _ & Herr & _ & _ & _ &
        _ & _ & _ & resp & _ & _ & _ & _ & _ & _ & _ & _ & _ & Hpage).
  exists new. split; [exact Ext|]. split; [exact Hsum|]. split; [exact Herr|].
  exists resp. exact Hpage.
Defined.

Lemma quiet_calm : calm Quiet.quiet childless.
Proof. repeat split. Qed.

(** A page of two targets, signalled by one worker: one signal to ["x"],
    then one to ["y"]. *)
Lemma last_page_all_succeed_witness :
  let p := Scripted.params BatchTypeSignal 50 1 3 in
  let st := mkState Quiet.Still [] [] 1%nat [] in
  calm Quiet.quiet childless /\ supported p /\
  exists st' new,
    mainLoop 6 p zeroHeartBeatDetails st =
    (Some ({| PageToken := []; CurrentPage := 1; TotalEstimate := 0;
              SuccessCount := 2; ErrorCount := 0 |}, None), st') /\
    extends st st' new /\
    map target (List.filter isMutation new) = [Some ("x", "run"); Some ("y", "run")].
Proof.
  intros p st.
  assert (Hsup : supported p) by (right; right; reflexivity).
  split; [exact quiet_calm|]. split; [exact Hsup|].
  set (resp := {| Executions := [Scripted.target "x"; Scripted.target "y"];
                  NextPageToken := [] |}).
  assert (Hd : forall w : Quiet.quiet, fst (ctxDone w) = false)
    by (intros w; reflexivity).
  assert (Hs : fst (ScanWorkflow pageSize (PageToken zeroHeartBeatDetails)
                      (Query p) (world st)) = inr resp) by reflexivity.
  assert (Hne : Executions resp <> []) by discriminate.
  assert (HN : Z.of_nat (length (Executions resp)) < 2 ^ 63) by (simpl; lia).
  assert (Hw : workers st <> O) by discriminate.
  destruct (last_page_all_succeed O p zeroHeartBeatDetails st resp
              quiet_calm Hd Hsup Hs Hne eq_refl HN eq_refl eq_refl Hw)
    as (st' & new & Hrun & Ext & Haddr & _).
  exists st', new. split; [exact Hrun|]. split; [exact Ext|exact Haddr].
Defined.

(** The world of transient failures without a worker: the page of one target
    is never drained. *)
Lemma no_worker_never_returns_witness :
  let p := Scripted.params BatchTypeTerminate 5 0 3 in
  workers (initial tt) = O /\
  fst (mainLoop 50 p zeroHeartBeatDetails (initial tt)) = None.
Proof.
  intros p. split; [reflexivity|].
  set (resp := {| Executions := [Scripted.target "root"]; NextPageToken := [] |}).
  assert (Hd : forall w : unit, fst (ctxDone w) = false)
    by (intros w; reflexivity).
  assert (Hs : fst (ScanWorkflow pageSize (PageToken zeroHeartBeatDetails)
                      (Query p) (world (initial tt))) = inr resp) by reflexivity.
  assert (Hne : Executions resp <> []) by discriminate.
  exact (no_worker_never_returns 50 p zeroHeartBeatDetails (initial tt) resp
           Hd eq_refl eq_refl Hs Hne).
Defined.
